(** * gpsd-assistnow: a shallow embedding of [assistnow.py] and
    [gpsd-assistnow.py]

    The development follows the two scripts: the [Helpers] validators, the
    [UBlox] subclass of gpsd's [gps.ubx.ubx] (packet forwarding, the
    response synchroniser [wait_for], the position-aid encoder
    [ubx_mga_ini_pos_llh]) and the [AssistNow] cache manager ([register],
    [update]).

    Python values are modelled as follows: [bytes] objects are lists of
    [Byte.byte]; [str] is [string] (ASCII text); [int] is [Z]; [float] is
    Rocq's primitive binary64 [float], so products and comparisons round
    exactly as CPython's do; dictionaries that are only read by key
    ([kwargs], [self.config]) are [gmap string pyval], the [params]
    dictionary that the code iterates over is an association list in
    insertion order.  Exceptions are values of [exc] carried by [result].
    The transport, the HTTP service, the two files and the clock live in an
    explicit [world] that is threaded through the stateful code. *)

From Stdlib Require Import ZArith Floats Lia.
From Stdlib Require Import Strings.Byte Strings.Ascii Strings.String.
From stdpp Require Import gmap strings list pretty.

Open Scope Z_scope.

(** ** Bytes *)

Abbreviation bytes := (list byte).

#[global] Instance byte_eq_decision : EqDecision byte := Byte.byte_eq_dec.

Definition Z_of_byte (b : byte) : Z := Z.of_N (Byte.to_N b).

Definition byte_of_Z (z : Z) : byte :=
  default x00 (Byte.of_N (Z.to_N (z mod 256))).

(** Python slices [data[:n]] and [data[n:]]; a negative [n] counts from the
    end, an [n] beyond the end is clipped. *)
Definition py_take (n : Z) (data : bytes) : bytes :=
  if n <? 0 then take (length data - Z.to_nat (- n)) data
  else take (Z.to_nat n) data.

Definition py_drop (n : Z) (data : bytes) : bytes :=
  if n <? 0 then drop (length data - Z.to_nat (- n)) data
  else drop (Z.to_nat n) data.

(** [bytes.hex().upper()] *)
Definition hex_digit (n : N) : ascii :=
  match n with
  | 0 => "0" | 1 => "1" | 2 => "2" | 3 => "3" | 4 => "4" | 5 => "5"
  | 6 => "6" | 7 => "7" | 8 => "8" | 9 => "9" | 10 => "A" | 11 => "B"
  | 12 => "C" | 13 => "D" | 14 => "E" | _ => "F"
  end%N%char.

Fixpoint hex_upper (data : bytes) : string :=
  match data with
  | [] => EmptyString
  | b :: rest =>
      String (hex_digit (Byte.to_N b / 16))
        (String (hex_digit (Byte.to_N b mod 16)) (hex_upper rest))
  end.

(** ** Exceptions *)

Inductive exc : Type :=
  | ValueError (msg : string)
  | NameError (name : string)
  | TypeError
  | AttributeError
  | KeyError (key : string)
  | IndexError
  | OverflowError
  | StructError
  | PayloadTooLarge
  | HTTPError (status : Z)
  | JSONDecodeError
  | Exception (msg : string).

(** The outcome of running a piece of code: a value, an exception, or
    [Diverge] when a loop was cut off by its iteration budget before it
    reached its exit. *)
Inductive result (A : Type) : Type :=
  | Ok (a : A)
  | Raise (e : exc)
  | Diverge.
Arguments Ok {A} a.
Arguments Raise {A} e.
Arguments Diverge {A}.

Definition rbind {A B} (r : result A) (k : A -> result B) : result B :=
  match r with
  | Ok a => k a
  | Raise e => Raise e
  | Diverge => Diverge
  end.

Declare Scope result_scope.
Delimit Scope result_scope with result.
Notation "'let?' x := c 'in' k" := (rbind c (fun x => k))
  (at level 10, x pattern, c at level 100, k at level 200) : result_scope.
Open Scope result_scope.

(** ** Numbers *)

(** [int(f)] for a float: truncation toward zero. *)
Definition float_trunc (f : float) : result Z :=
  match Prim2SF f with
  | S754_zero _ => Ok 0
  | S754_finite s m e =>
      let mag := if 0 <=? e then Z.pos m * 2 ^ e else Z.pos m / 2 ^ (- e) in
      Ok (if s then - mag else mag)
  | S754_infinity _ => Raise OverflowError
  | S754_nan => Raise (ValueError "cannot convert float NaN to integer")
  end.

(** The integer just below and just above a finite float. *)
Definition float_floor (f : float) : option Z :=
  match Prim2SF f with
  | S754_zero _ => Some 0
  | S754_finite s m e =>
      let n := if s then Z.neg m else Z.pos m in
      Some (if 0 <=? e then n * 2 ^ e else n / 2 ^ (- e))
  | _ => None
  end.

Definition float_ceil (f : float) : option Z :=
  match Prim2SF f with
  | S754_zero _ => Some 0
  | S754_finite s m e =>
      let n := if s then Z.neg m else Z.pos m in
      Some (if 0 <=? e then n * 2 ^ e else - ((- n) / 2 ^ (- e)))
  | _ => None
  end.

(** [float(z)] for an int: the nearest binary64, ties to even. *)
Definition Z_to_float (z : Z) : float :=
  SF2Prim (binary_normalize 53 1024 z 0 false).

Definition float_of_int (z : Z) : result float :=
  let f := Z_to_float z in
  match Prim2SF f with
  | S754_infinity _ => Raise OverflowError
  | _ => Ok f
  end.

(** [z <= f] and [f <= z] between an int and a float: Python compares the
    exact values; every comparison with NaN is false. *)
Definition Z_le_float (z : Z) (f : float) : bool :=
  match Prim2SF f with
  | S754_nan => false
  | S754_infinity s => negb s
  | _ => match float_floor f with Some n => z <=? n | None => false end
  end.

Definition float_le_Z (f : float) (z : Z) : bool :=
  match Prim2SF f with
  | S754_nan => false
  | S754_infinity s => s
  | _ => match float_ceil f with Some n => n <=? z | None => false end
  end.

Definition Z_eq_float (z : Z) (f : float) : bool :=
  Z_le_float z f && float_le_Z f z.

Inductive number : Type :=
  | NInt (z : Z)
  | NFloat (f : float).

(** [x * n] for an int literal [n] *)
Definition num_mul_int (x : number) (n : Z) : number :=
  match x with
  | NInt z => NInt (z * n)
  | NFloat f => NFloat (PrimFloat.mul f (Z_to_float n))
  end.

(** [int(x)] *)
Definition num_int (x : number) : result Z :=
  match x with
  | NInt z => Ok z
  | NFloat f => float_trunc f
  end.

Definition num_eqb (x y : number) : bool :=
  match x, y with
  | NInt a, NInt b => a =? b
  | NFloat f, NFloat g => PrimFloat.eqb f g
  | NInt a, NFloat g => Z_eq_float a g
  | NFloat f, NInt b => Z_eq_float b f
  end.

(** ** Python values

    The values that reach the code from the command line, from the JSON
    configuration and from the validators: [None], [str], numbers and lists
    of [str]. *)

Inductive pyval : Type :=
  | PNone
  | PStr (s : string)
  | PNum (n : number)
  | PList (l : list string).

Definition list_string_eqb (l1 l2 : list string) : bool :=
  bool_decide (l1 = l2).

(** [a == b] *)
Definition py_eqb (a b : pyval) : bool :=
  match a, b with
  | PNone, PNone => true
  | PStr s, PStr t => String.eqb s t
  | PNum x, PNum y => num_eqb x y
  | PList l, PList m => list_string_eqb l m
  | _, _ => false
  end.

(** truth value of an object *)
Definition truthy (a : pyval) : bool :=
  match a with
  | PNone => false
  | PStr s => negb (String.eqb s "")
  | PNum (NInt z) => negb (z =? 0)
  | PNum (NFloat f) => negb (PrimFloat.eqb f 0)
  | PList l => match l with [] => false | _ => true end
  end.

Definition opt_str (o : option string) : pyval :=
  match o with Some s => PStr s | None => PNone end.

Definition opt_float (o : option float) : pyval :=
  match o with Some f => PNum (NFloat f) | None => PNone end.

(** [d.get(k, None)] *)
Definition dict_get (d : gmap string pyval) (k : string) : pyval :=
  default PNone (d !! k).

(** ** Strings: [split(",")], [strip()], [join] *)

Definition is_space (c : ascii) : bool :=
  let n := N_of_ascii c in
  ((9 <=? n) && (n <=? 13) || (28 <=? n) && (n <=? 32))%N.

Fixpoint lstrip (s : string) : string :=
  match s with
  | String c r => if is_space c then lstrip r else s
  | EmptyString => EmptyString
  end.

Fixpoint rstrip (s : string) : string :=
  match s with
  | EmptyString => EmptyString
  | String c r =>
      match rstrip r with
      | EmptyString => if is_space c then EmptyString else String c EmptyString
      | r' => String c r'
      end
  end.

Definition strip (s : string) : string := rstrip (lstrip s).

Fixpoint split_comma (s : string) : list string :=
  match s with
  | EmptyString => [EmptyString]
  | String c r =>
      if Ascii.eqb c "," then EmptyString :: split_comma r
      else match split_comma r with
           | h :: t => String c h :: t
           | [] => [String c EmptyString]
           end
  end.

Fixpoint join (sep : string) (l : list string) : string :=
  match l with
  | [] => ""
  | [s] => s
  | s :: rest => s +:+ sep +:+ join sep rest
  end.

Definition str_in (v : string) (choices : list string) : bool :=
  bool_decide (v ∈ choices).

(** ** The Python runtime and the gpsd library

    Two things the scripts call are outside the repository: the builtin
    [float()] applied to a [str], and the superclass [gps.ubx.ubx] of the
    gpsd distribution, of which the scripts use [decode_msg] (the number of
    bytes consumed from a buffer) and the [commands] table (name to class,
    id and payload template, the ["opt"] entry). *)

Class Runtime : Type := {
  float_of_str : string -> option float
}.

Class UbxLib : Type := {
  ubx_decode_msg : bytes -> Z;
  ubx_commands : gmap string bytes
}.

(** ** [Helpers.validate_number] and [Helpers.validate_list] (assistnow.py,
    lines 39-56; the same two functions are nested in [assistnow] of
    gpsd-assistnow.py, lines 17-34) *)

Section Helpers.
Context `{Runtime}.

(** [float(value)] for a [value] that is not [None] *)
Definition py_float (value : pyval) : result float :=
  match value with
  | PStr s =>
      match float_of_str s with
      | Some f => Ok f
      | None => Raise (ValueError "could not convert string to float")
      end
  | PNum (NInt z) => float_of_int z
  | PNum (NFloat f) => Ok f
  | PNone | PList _ => Raise TypeError
  end.

(** The name [v] inside the two f-strings of [validate_number] is not a
    local of the function: Python resolves it among the module globals,
    where the argument loop of the main block ([k, v = item.split("=", 1)])
    leaves the value of the last command-line item, if there was one.
    [global_v] is that binding. *)
Definition format_v (global_v : option string) (rest : string) : exc :=
  match global_v with
  | Some v => ValueError ("Invalid value '" +:+ v +:+ "'; " +:+ rest)
  | None => NameError "v"
  end.

Definition validate_number (global_v : option string)
    (value : pyval) (min_value max_value : Z) : result (option float) :=
  match value with
  | PNone => Ok None
  | _ =>
      match py_float value with
      | Raise (ValueError _) => Raise (format_v global_v "not a number")
      | Raise e => Raise e
      | Diverge => Diverge
      | Ok f =>
          if Z_le_float min_value f && float_le_Z f max_value
          then Ok (Some f)
          else Raise (format_v global_v
                        ("not in [" +:+ pretty min_value +:+ ", "
                         +:+ pretty max_value +:+ "]"))
      end
  end.

Definition unknown_value (v : string) (available_choices : list string) : exc :=
  ValueError ("Unknown value '" +:+ v +:+ "'; valid choices are: "
              +:+ join ", " available_choices).

(** the [for v in values] loop of [validate_list] *)
Fixpoint check_choices (values available_choices : list string) : result unit :=
  match values with
  | [] => Ok tt
  | v :: rest =>
      if str_in v available_choices then check_choices rest available_choices
      else Raise (unknown_value v available_choices)
  end.

Definition validate_list (values : pyval) (available_choices : list string)
    : result (option string) :=
  if truthy values then
    let? values :=
      match values with
      | PStr s => Ok (strip <$> split_comma s)
      | PList l => Ok l
      | _ => Raise TypeError
      end in
    let? _ := check_choices values available_choices in
    Ok (Some (join "," values))
  else Ok None.

End Helpers.

(** ** The UBX packet codec *)

(** Modelled from the spec: the checksum of gpsd's [gps.ubx.ubx], which is
    not among the repository's sources.  Section 3: a running 8-bit
    Fletcher-style sum over class, id, length and payload, with two
    accumulators [ck_a += byte; ck_b += ck_a], both modulo 256. *)
Definition checksum (data : bytes) : byte * byte :=
  let '(a, b) :=
    foldl (fun '(ck_a, ck_b) c =>
             let ck_a := (ck_a + Z_of_byte c) mod 256 in
             (ck_a, (ck_b + ck_a) mod 256))
          (0, 0) data in
  (byte_of_Z a, byte_of_Z b).

(** Modelled from the spec: [make_pkt] of gpsd's [gps.ubx.ubx], which is not
    among the repository's sources.  Section 3 and 4.1: the wire form is
    [0xB5 0x62 class id length_le16 payload ck_a ck_b]; a payload that does
    not fit the 16-bit length field is refused. *)
Definition make_pkt (m_class m_id : byte) (m_data : bytes) : result bytes :=
  let m_len := Z.of_nat (length m_data) in
  if 65535 <? m_len then Raise PayloadTooLarge
  else
    let msg := m_class :: m_id :: byte_of_Z m_len :: byte_of_Z (m_len / 256)
               :: m_data in
    let '(ck_a, ck_b) := checksum msg in
    Ok ([xb5; x62] ++ msg ++ [ck_a; ck_b]).

Record ubx_packet : Type := UbxPacket {
  pkt_class : byte;
  pkt_id : byte;
  pkt_payload : bytes;
  pkt_checksum : byte * byte
}.

Record decode_result : Type := DecodeResult {
  consumed : Z;
  packet : option ubx_packet
}.

(** Modelled from the spec: [decode_msg] of gpsd's [gps.ubx.ubx], which is
    not among the repository's sources.  Section 4.1: a byte that does not
    begin the two-byte sync marker is noise and is skipped, one byte per
    call; a marker followed by fewer bytes than the header and the declared
    length require consumes nothing; a complete frame consumes
    [6 + payload_len + 2] bytes, and yields a packet only when both checksum
    bytes match the recomputed ones. *)
Definition decode (buffer : bytes) : decode_result :=
  match buffer with
  | [] => DecodeResult 0 None
  | b0 :: after0 =>
      if negb (bool_decide (b0 = xb5)) then DecodeResult 1 None
      else
        match after0 with
        | [] => DecodeResult 0 None
        | b1 :: after1 =>
            if negb (bool_decide (b1 = x62)) then DecodeResult 1 None
            else
              match after1 with
              | m_class :: m_id :: len0 :: len1 :: rest =>
                  let m_len := Z_of_byte len0 + 256 * Z_of_byte len1 in
                  if Z.of_nat (length rest) <? m_len + 2 then DecodeResult 0 None
                  else
                    let payload := take (Z.to_nat m_len) rest in
                    let ck := drop (Z.to_nat m_len) rest in
                    let sum := checksum (m_class :: m_id :: len0 :: len1 :: payload) in
                    DecodeResult (6 + m_len + 2)
                      (if bool_decide (take 2 ck = [sum.1; sum.2])
                       then Some (UbxPacket m_class m_id payload sum)
                       else None)
              | _ => DecodeResult 0 None
              end
        end
  end.

(** Whether a byte string is one complete frame, and whether its two
    trailing bytes are the checksum of what precedes them. *)
Definition is_frame (m_class m_id : byte) (frame : bytes) : Prop :=
  ∃ len0 len1 payload ck_a ck_b,
    frame = [xb5; x62; m_class; m_id; len0; len1] ++ payload ++ [ck_a; ck_b]
    ∧ Z.of_nat (length payload) = Z_of_byte len0 + 256 * Z_of_byte len1.

Definition checksum_ok (frame : bytes) : bool :=
  let body := take (length frame - 4) (drop 2 frame) in
  let sum := checksum body in
  bool_decide (drop (length frame - 2) frame = [sum.1; sum.2]).

(** ** The world outside the process

    What the code reads from and writes to: the clock, the module global
    [v], the two files next to the script ([assistnow.json], kept here as
    the dictionary it holds, and [assistnow.cache] with its modification
    time), the receiver behind gpsd and the HTTP service.

    The receiver's side of [wait_for] is a script: for each call, the list
    of polls made while [timeout > monotonic() - start] held, each poll
    being the chunk returned by [recv] when [waiting()] was positive and
    [None] when nothing was waiting.  Output to stdout is not modelled. *)

Inductive http_request : Type :=
  | HttpPost (url : string) (token : pyval) (sec_uniqid mon_ver : string)
  | HttpGet (url : pyval) (params : list (string * pyval)).

Record http_response : Type := HttpResponse {
  status_code : Z;
  content : bytes;
  json : option (gmap string pyval)
}.

Inductive event : Type :=
  | Sent (raw : bytes)
  | Request (req : http_request)
  | WroteConfig (config : gmap string pyval)
  | WroteCache (data : bytes).

Record world : Type := World {
  now : float;
  global_v : option string;
  config_file : option (gmap string pyval);
  cache_file : option (float * bytes);
  rx : list (list (option bytes));
  http : http_request -> result http_response;
  trace : list event
}.

Definition log (e : event) (w : world) : world :=
  World (now w) (global_v w) (config_file w) (cache_file w) (rx w) (http w)
        (trace w ++ [e]).

Definition set_config_file (c : gmap string pyval) (w : world) : world :=
  World (now w) (global_v w) (Some c) (cache_file w) (rx w) (http w) (trace w).

Definition set_cache_file (data : bytes) (w : world) : world :=
  World (now w) (global_v w) (config_file w) (Some (now w, data)) (rx w)
        (http w) (trace w).

Definition set_rx (r : list (list (option bytes))) (w : world) : world :=
  World (now w) (global_v w) (config_file w) (cache_file w) r (http w) (trace w).

(** the fetch collaborator's calls among the events of a trace *)
Definition is_fetch (e : event) : bool :=
  match e with Request (HttpGet _ _) => true | _ => false end.

Definition fetches (t : list event) : list event := filter is_fetch t.

Definition sent_packets (t : list event) : list bytes :=
  omap (fun e => match e with Sent raw => Some raw | _ => None end) t.

(** ** A state and exception monad *)

Definition M (St A : Type) : Type := St -> result A * St.

Definition ret {St A} (a : A) : M St A := fun s => (Ok a, s).

Definition bind {St A B} (c : M St A) (k : A -> M St B) : M St B :=
  fun s =>
    match c s with
    | (Ok a, s') => k a s'
    | (Raise e, s') => (Raise e, s')
    | (Diverge, s') => (Diverge, s')
    end.

Definition raise {St A} (e : exc) : M St A := fun s => (Raise e, s).

Definition lift {St A} (r : result A) : M St A := fun s => (r, s).

Definition get {St} : M St St := fun s => (Ok s, s).

Definition modify {St} (f : St -> St) : M St unit := fun s => (Ok tt, f s).

Declare Scope monad_scope.
Delimit Scope monad_scope with monad.
Notation "x <- c ;; k" := (bind c (fun x => k))
  (at level 100, c at next level, right associativity) : monad_scope.
Notation "c ;; k" := (bind c (fun _ => k))
  (at level 100, right associativity) : monad_scope.
Open Scope monad_scope.

(** [requests.get]/[requests.post]: the request goes out, the service
    answers or the connection fails. *)
Definition do_request (req : http_request) : M world http_response :=
  modify (log (Request req)) ;;
  w <- get ;;
  lift (http w req).

(** [r.raise_for_status()], guarded by [r.status_code != requests.codes.ok] *)
Definition check_status (r : http_response) : result unit :=
  if negb (status_code r =? 200)
  then if (400 <=? status_code r) && (status_code r <? 600)
       then Raise (HTTPError (status_code r))
       else Ok tt
  else Ok tt.

(** ** [struct.pack_into("<3iI", ...)] *)

Definition le32 (z : Z) : bytes :=
  [byte_of_Z z; byte_of_Z (Z.shiftr z 8); byte_of_Z (Z.shiftr z 16);
   byte_of_Z (Z.shiftr z 24)].

(** format [i]: a signed 32-bit integer, [struct.error] outside its range *)
Definition pack_i (z : Z) : result bytes :=
  if (- 2 ^ 31 <=? z) && (z <=? 2 ^ 31 - 1) then Ok (le32 z)
  else Raise StructError.

(** format [I]: an unsigned 32-bit integer, [struct.error] outside its range *)
Definition pack_I (z : Z) : result bytes :=
  if (0 <=? z) && (z <=? 2 ^ 32 - 1) then Ok (le32 z)
  else Raise StructError.

Definition pack_3iI (a b c d : Z) : result bytes :=
  let? a := pack_i a in
  let? b := pack_i b in
  let? c := pack_i c in
  let? d := pack_I d in
  Ok (a ++ b ++ c ++ d).

(** [struct.unpack("<I", bs)] and [struct.unpack("<i", bs)], used to read
    encoded fields back. *)
Definition unpack_I (bs : bytes) : Z :=
  foldr (fun b acc => Z_of_byte b + 256 * acc) 0 bs.

Definition unpack_i (bs : bytes) : Z :=
  let u := unpack_I bs in
  if u <? 2 ^ 31 then u else u - 2 ^ 32.

(** [data[i:j]] for non-negative indices *)
Definition slice (i j : nat) (data : bytes) : bytes :=
  take (j - i) (drop i data).

(** ** [UBlox.ubx_mga_ini_pos_llh] (assistnow.py, lines 102-112) *)

Definition ubx_mga_ini_pos_llh (lat_deg lon_deg : number)
    (alt_m : number) (pacc_km : number) : result bytes :=
  let? lat := num_int (num_mul_int lat_deg (10 ^ 7)) in
  let? lon := num_int (num_mul_int lon_deg (10 ^ 7)) in
  let? alt := num_int (num_mul_int alt_m (10 ^ 2)) in
  let? acc := num_int (num_mul_int pacc_km (10 ^ 6)) in
  let m_data := replicate 20 x00 in
  let m_data := <[0%nat := x01]> m_data in
  let m_data := <[1%nat := x00]> m_data in
  let? packed := pack_3iI lat lon alt acc in
  let m_data := list_inserts 4 packed m_data in
  make_pkt x13 x40 m_data.

(** the defaults of the signature: [alt_m=0, pacc_km=300] *)
Definition default_alt_m : number := NInt 0.
Definition default_pacc_km : number := NInt 300.

(** The call [ubx_mga_ini_pos_llh(lat_deg, lon_deg, **kwargs)]: the two
    positional arguments are bound first, then each keyword to the
    parameter of that name, before the body runs.  The parameters left for
    keywords are [alt_m] and [pacc_km]; any other keyword raises
    [TypeError] (an unexpected keyword argument, or a second value for
    [lat_deg] or [lon_deg]).  Python's [kwargs] is a dictionary, so no
    keyword comes twice. *)
Fixpoint bind_keywords (kwargs : list (string * number))
    (alt_m pacc_km : number) : result (number * number) :=
  match kwargs with
  | [] => Ok (alt_m, pacc_km)
  | (k, v) :: kwargs =>
      if String.eqb k "alt_m" then bind_keywords kwargs v pacc_km
      else if String.eqb k "pacc_km" then bind_keywords kwargs alt_m v
      else Raise TypeError
  end.

Definition call_ubx_mga_ini_pos_llh (lat_deg lon_deg : number)
    (kwargs : list (string * number)) : result bytes :=
  let? bound := bind_keywords kwargs default_alt_m default_pacc_km in
  ubx_mga_ini_pos_llh lat_deg lon_deg bound.1 bound.2.

(** ** The position-aid block of [assistnow] (gpsd-assistnow.py, lines
    57-69), entered when [lat] and [lon] are both present *)

(** [x or d]: [x] when it is true, else the int [d] *)
Definition float_or (x : option float) (d : Z) : number :=
  match x with
  | Some f => if truthy (PNum (NFloat f)) then NFloat f else NInt d
  | None => NInt d
  end.

Definition assistnow_initial_position (lat lon : float)
    (alt pacc : option float) : result bytes :=
  let? lat := num_int (num_mul_int (NFloat lat) (10 ^ 7)) in
  let? lon := num_int (num_mul_int (NFloat lon) (10 ^ 7)) in
  let? alt := num_int (num_mul_int (float_or alt 0) (10 ^ 2)) in
  let? acc := num_int (num_mul_int (float_or pacc 300) (10 ^ 6)) in
  let m_data := replicate 20 x00 in
  let m_data := <[0%nat := x01]> m_data in
  let m_data := <[1%nat := x00]> m_data in
  let? packed := pack_3iI lat lon alt acc in
  let m_data := list_inserts 4 packed m_data in
  make_pkt x13 x40 m_data.

(** ** [UBlox] (assistnow.py, lines 59-100) and [send2gps]
    (gpsd-assistnow.py, lines 72-83) *)

Section UBlox.
Context `{UbxLib}.

Definition decode_msg (data : bytes) : Z * bytes * bytes :=
  let consumed := ubx_decode_msg data in
  (consumed, py_take consumed data, py_drop consumed data).

(** Modelled from the spec: [gps_send_raw] and [gps_send] of gpsd's
    [gps.ubx.ubx], which are not among the repository's sources.  Section 6
    ([write(bytes)]) and section 4.3 (a command is encoded by the codec,
    then transmitted). *)
Definition gps_send_raw (raw : bytes) : M world unit :=
  modify (log (Sent raw)).

Definition gps_send (m_cls m_id : byte) (m_data : bytes) : M world unit :=
  pkt <- lift (make_pkt m_cls m_id m_data) ;;
  gps_send_raw pkt.

(** the [while] loop of [wait_for], one iteration per poll *)
Fixpoint wait_for_loop (expected : bytes) (polls : list (option bytes))
    (data : bytes) : bytes :=
  match polls with
  | [] => []
  | chunk :: polls =>
      let data := data ++ default [] chunk in
      let '(consumed, packet, data) := decode_msg data in
      if bool_decide (take 4 packet = expected) then packet
      else wait_for_loop expected polls data
  end.

Definition wait_for (m_cls m_id : byte) : M world bytes :=
  w <- get ;;
  modify (set_rx (tail (rx w))) ;;
  ret (wait_for_loop [xb5; x62; m_cls; m_id] (default [] (head (rx w))) []).

Definition fetch_answer (msg : string) : M world bytes :=
  match ubx_commands !! msg with
  | None => raise (KeyError msg)
  | Some (m_cls :: m_id :: m_data) =>
      gps_send m_cls m_id m_data ;;
      wait_for m_cls m_id
  | Some _ => raise IndexError
  end.

(** the [while len(data)] loop of [send_data], with a budget of
    iterations *)
Fixpoint send_data_loop (fuel : nat) (data : bytes) : M world unit :=
  match data with
  | [] => ret tt
  | _ :: _ =>
      match fuel with
      | O => lift Diverge
      | S fuel =>
          let '(consumed, packet, data) := decode_msg data in
          if 0 >=? consumed then ret tt
          else gps_send_raw packet ;; send_data_loop fuel data
      end
  end.

Definition send_data (data : bytes) : M world unit :=
  send_data_loop (length data) data.

(** the [while True] loop of [send2gps], with a budget of iterations *)
Fixpoint send2gps_loop (fuel : nat) (data : bytes) : M world unit :=
  match fuel with
  | O => lift Diverge
  | S fuel =>
      let consumed := ubx_decode_msg data in
      if 0 >=? consumed then ret tt
      else
        let packet := py_take consumed data in
        let data := py_drop consumed data in
        gps_send_raw packet ;; send2gps_loop fuel data
  end.

Definition send2gps (data : bytes) : M world unit :=
  send2gps_loop (S (length data)) data.

End UBlox.

(** ** [AssistNow] (assistnow.py, lines 115-216) *)

Record assistnow : Type := AssistNow {
  cache_duration : option float;
  config : gmap string pyval;
  cache : option bytes
}.

(** the validated request parameters, the values of the [params] literal of
    [update] *)
Record params : Type := Params {
  p_data : option string;
  p_gnss : option string;
  p_lat : option float;
  p_lon : option float;
  p_alt : option float;
  p_pacc : option float
}.

(** [params["lat"] is not None and params["lon"] is not None] *)
Definition has_position (p : params) : bool :=
  match p_lat p, p_lon p with
  | Some _, Some _ => true
  | _, _ => false
  end.

(** [params.items()], in insertion order: the six keys of the literal and,
    when the position is present, the derived [filteronpos] *)
Definition params_items (p : params) : list (string * pyval) :=
  [("data", opt_str (p_data p)); ("gnss", opt_str (p_gnss p));
   ("lat", opt_float (p_lat p)); ("lon", opt_float (p_lon p));
   ("alt", opt_float (p_alt p)); ("pacc", opt_float (p_pacc p))]
  ++ (if has_position p then [("filteronpos", PNum (NInt 1))] else []).

(** truth value of a dictionary and of [self.cache] *)
Definition dict_truthy (d : gmap string pyval) : bool :=
  negb (bool_decide (size d = 0%nat)).

Definition cache_truthy (c : option bytes) : bool :=
  match c with
  | Some (_ :: _) => true
  | _ => false
  end.

Definition gnss_choices : list string := ["gps"; "glo"; "gal"; "bds"; "qzss"].

(** the [for k, v in params.items()] loop of [update], lines 187-191 *)
Fixpoint merge_params (items : list (string * pyval))
    (config : gmap string pyval) (changed : bool)
    : gmap string pyval * bool :=
  match items with
  | [] => (config, changed)
  | (k, v) :: items =>
      if negb (py_eqb (dict_get config k) v)
      then merge_params items (<[k := v]> config) true
      else merge_params items config changed
  end.

Definition get_self {W} : M (assistnow * W) assistnow :=
  fun s => (Ok s.1, s).

Definition set_config {W} (c : gmap string pyval) : M (assistnow * W) unit :=
  modify (fun s => (AssistNow (cache_duration s.1) c (cache s.1), s.2)).

Definition set_cache {W} (c : option bytes) : M (assistnow * W) unit :=
  modify (fun s => (AssistNow (cache_duration s.1) (config s.1) c, s.2)).

(** run a computation on the world alone *)
Definition on_world {A} (c : M world A) : M (assistnow * world) A :=
  fun s => let '(r, w) := c s.2 in (r, (s.1, w)).

Definition subscript (d : gmap string pyval) (k : string) : result pyval :=
  match d !! k with
  | Some v => Ok v
  | None => Raise (KeyError k)
  end.

Section AssistNow.
Context `{Runtime} `{UbxLib}.

Definition load_config (w : world) : gmap string pyval :=
  default ∅ (config_file w).

Definition load_cache (cache_duration : option float) (w : world)
    : option bytes :=
  match cache_file w, cache_duration with
  | Some (st_mtime, data), Some hours =>
      if PrimFloat.leb (PrimFloat.sub (now w) st_mtime)
                       (PrimFloat.mul hours (Z_to_float 3600))
      then Some data else None
  | _, _ => None
  end.

(** [AssistNow.__init__] *)
Definition init (device cache_duration : pyval) : M world assistnow :=
  w <- get ;;
  hours <- lift (validate_number (global_v w) cache_duration 0 24) ;;
  ret (AssistNow hours (load_config w) (load_cache hours w)).

(** the default of the signature and of the main block: [cache_duration=3] *)
Definition default_cache_duration : pyval := PNum (NInt 3).

Definition save_config : M (assistnow * world) unit :=
  self <- get_self ;;
  if dict_truthy (config self)
  then on_world (modify (set_config_file (config self)) ;;
                 modify (log (WroteConfig (config self))))
  else ret tt.

Definition save_cache : M (assistnow * world) unit :=
  self <- get_self ;;
  match cache self with
  | Some (b :: data) =>
      on_world (modify (set_cache_file (b :: data)) ;;
                modify (log (WroteCache (b :: data))))
  | _ => ret tt
  end.

Definition is_registered (self : assistnow) : bool :=
  bool_decide (is_Some (config self !! "chipcode")).

Definition register (token : pyval) : M (assistnow * world) unit :=
  self <- get_self ;;
  if is_registered self then raise (Exception "Device already registered.")
  else
    answer <- on_world (fetch_answer "SEC-UNIQID") ;;
    let sec_uniqid := hex_upper answer in
    answer <- on_world (fetch_answer "MON-VER") ;;
    let mon_ver := hex_upper answer in
    if negb (truthy (PStr sec_uniqid)) || negb (truthy (PStr mon_ver))
    then raise (Exception "Device did not answer")
    else
      r <- on_world (do_request
             (HttpPost "https://api.thingstream.io/ztp/assistnow/credentials"
                       token sec_uniqid mon_ver)) ;;
      lift (check_status r) ;;
      c <- lift (match json r with
                 | Some c => Ok c
                 | None => Raise JSONDecodeError
                 end) ;;
      set_config c ;;
      save_config.

(** the [params] literal of [update], lines 175-183 *)
Definition validate_params (v : option string)
    (config kwargs : gmap string pyval) : result params :=
  let? allowed :=
    match config !! "allowedData" with
    | Some (PStr s) => Ok (strip <$> split_comma s)
    | Some _ => Raise AttributeError
    | None => Raise (KeyError "allowedData")
    end in
  let? data := validate_list (dict_get kwargs "data") allowed in
  let? gnss := validate_list (dict_get kwargs "gnss") gnss_choices in
  let? lat := validate_number v (dict_get kwargs "lat") (-90) 90 in
  let? lon := validate_number v (dict_get kwargs "lon") (-180) 180 in
  let? alt := validate_number v (dict_get kwargs "alt") (-1000) 50000 in
  let? pacc := validate_number v (dict_get kwargs "pacc") 0 6000000 in
  Ok (Params data gnss lat lon alt pacc).

(** lines 206-207: [args] holds [lat] and [lon]; [kwargs] holds [alt] and
    [pacc] under those very names, each only when it is not [None] *)
Definition position_kwargs (p : params) : list (string * number) :=
  match p_alt p with Some alt => [("alt", NFloat alt)] | None => [] end
  ++ match p_pacc p with Some pacc => [("pacc", NFloat pacc)] | None => [] end.

(** lines 204-209: the fetched bytes, behind the position-aid packet
    when [lat] and [lon] are both present *)
Definition build_entry (p : params) (data : bytes) : result bytes :=
  match p_lat p, p_lon p with
  | Some lat, Some lon =>
      let? initial_position :=
        call_ubx_mga_ini_pos_llh (NFloat lat) (NFloat lon)
          (position_kwargs p) in
      Ok (initial_position ++ data)
  | _, _ => Ok data
  end.

(** lines 198-211: fetch, build the entry, store it *)
Definition fetch (p : params) : M (assistnow * world) unit :=
  self <- get_self ;;
  url <- lift (subscript (config self) "serviceUrl") ;;
  chipcode <- lift (subscript (config self) "chipcode") ;;
  r <- on_world (do_request
         (HttpGet url (params_items p ++ [("chipcode", chipcode)]))) ;;
  lift (check_status r) ;;
  data <- lift (build_entry p (content r)) ;;
  set_cache (Some data) ;;
  save_cache.

(** line 215: [self.ublox.send_data(self.cache)] *)
Definition forward_cache : M (assistnow * world) unit :=
  self <- get_self ;;
  match cache self with
  | Some data => on_world (send_data data)
  | None => raise TypeError
  end.

Definition update (kwargs : gmap string pyval) : M (assistnow * world) unit :=
  self <- get_self ;;
  if negb (is_registered self) then raise (Exception "Device not registered.")
  else
    let kwargs := if dict_truthy kwargs then kwargs else config self in
    w <- on_world get ;;
    p <- lift (validate_params (global_v w) (config self) kwargs) ;;
    let '(config', changed) :=
      merge_params (params_items p) (config self) false in
    set_config config' ;;
    (if changed then save_config ;; set_cache None else ret tt) ;;
    self <- get_self ;;
    (if negb (cache_truthy (cache self)) then fetch p else ret tt) ;;
    forward_cache.

End AssistNow.

(** ** Instances used to run the model on concrete inputs *)

(** [float()] on a plain decimal literal, [[+-]digits[.digits]]: the
    quotient of two exactly representable integers, which IEEE division
    rounds correctly.  The other spellings [float()] accepts (exponents,
    [inf], [nan], underscores, surrounding blanks) and literals with more
    than 15 digits are not covered: only the examples below use this
    instance, the properties hold for every [Runtime]. *)
Fixpoint digits_value (s : string) (acc : Z) : option Z :=
  match s with
  | EmptyString => Some acc
  | String c r =>
      let n := Z.of_N (N_of_ascii c) in
      if (48 <=? n) && (n <=? 57) then digits_value r (10 * acc + (n - 48))
      else None
  end.

Fixpoint split_point (s : string) : string * option string :=
  match s with
  | EmptyString => (EmptyString, None)
  | String c r =>
      if Ascii.eqb c "." then (EmptyString, Some r)
      else let '(i, f) := split_point r in (String c i, f)
  end.

Definition decimal_float (s : string) : option float :=
  let '(negative, body) :=
    match s with
    | String "-" r => (true, r)
    | String "+" r => (false, r)
    | _ => (false, s)
    end in
  let '(int_part, frac) := split_point body in
  let frac_part := default EmptyString frac in
  if (String.length int_part + String.length frac_part =? 0)%nat then None
  else if (15 <? String.length int_part + String.length frac_part)%nat then None
  else
    match digits_value (int_part +:+ frac_part) 0 with
    | Some m =>
        let q := PrimFloat.div (Z_to_float m)
                   (Z_to_float (10 ^ Z.of_nat (String.length frac_part))) in
        Some (if negative then PrimFloat.opp q else q)
    | None => None
    end.

#[global] Instance decimal_runtime : Runtime := {
  float_of_str := decimal_float
}.

(** Modelled from the spec: the decoder and the command table of gpsd's
    [gps.ubx.ubx], neither among the repository's sources.  The decoder is
    that of section 4.1, as the library function the scripts call, which
    returns the consumed count only; the table holds the two entries that
    section 3 requires (query unique id, query firmware version) under the
    names [register] uses, with the UBX class and id of UBX-SEC-UNIQID and
    UBX-MON-VER and an empty payload template. *)
#[global] Instance spec_ubx : UbxLib := {
  ubx_decode_msg := fun data => consumed (decode data);
  ubx_commands := {[ "SEC-UNIQID" := [x27; x03]; "MON-VER" := [x0a; x04] ]}
}.

(** ** Worlds reached by the code *)

(** [sends chunks w]: the world after [chunks] were written to the
    receiver, in order *)
Definition sends (chunks : list bytes) (w : world) : world :=
  World (now w) (global_v w) (config_file w) (cache_file w) (rx w) (http w)
        (trace w ++ (Sent <$> chunks)).

(** [stored data w]: the world after [save_cache] ran with [data] in
    [self.cache]; an empty [data] is not written *)
Definition stored (data : bytes) (w : world) : world :=
  match data with
  | [] => w
  | _ :: _ => log (WroteCache data) (set_cache_file data w)
  end.

(** ** Concrete inputs *)

(** A service that answers every request with status 200 and the given
    body. *)
Definition serve (blob : bytes) (c : gmap string pyval)
    : http_request -> result http_response :=
  fun _ => Ok (HttpResponse 200 blob (Some c)).

(** A registered device's configuration, as the registration left it. *)
Definition registered_config : gmap string pyval :=
  {[ "chipcode" := PStr "CHIP";
     "allowedData" := PStr "eph,alm,aux";
     "serviceUrl" := PStr "https://assistnow.services.u-blox.com/" ]}.

(** The UBX-MON-VER frame with an empty payload, and the same frame with
    its two checksum bytes replaced by zeros. *)
Definition mon_ver_poll : bytes :=
  [xb5; x62; x0a; x04; x00; x00; x0e; x34].

Definition corrupted_mon_ver : bytes :=
  [xb5; x62; x0a; x04; x00; x00; x00; x00].

Definition quiet_world (v : option string) (polls : list (list (option bytes)))
    (blob : bytes) : world :=
  World 1000 v (Some registered_config) None polls
        (serve blob registered_config) [].

(** The binary64 value of the literal [4.3]. *)
Definition float_4_3 : float := 0x1.1333333333333p+2%float.

(** A registered manager with nothing cached. *)
Definition fresh_manager : assistnow :=
  AssistNow (Some 3%float) registered_config None.

(** [lat=0 lon=0 pacc=6000000], every value inside its validated range *)
Definition widest_pacc_request : gmap string pyval :=
  {[ "lat" := PStr "0"; "lon" := PStr "0"; "pacc" := PStr "6000000" ]}.

(** [lat=95 lon=5] *)
Definition bad_lat_request : gmap string pyval :=
  {[ "lat" := PStr "95"; "lon" := PStr "5" ]}.

(** [lat=1 lon=2] on the command line, and the same request with another
    latitude *)
Definition position_request : gmap string pyval :=
  {[ "lat" := PStr "1"; "lon" := PStr "2" ]}.

Definition moved_request : gmap string pyval :=
  {[ "lat" := PStr "1.5"; "lon" := PStr "2" ]}.

(** [data=eph], no position *)
Definition eph_request : gmap string pyval := {[ "data" := PStr "eph" ]}.

(** What the service sends back in the examples. *)
Definition example_blob : bytes := [xaa; xbb].

(** The configuration file after [position_request] was served, the cache
    file it left 100 seconds before the clock of [cached_world], and the
    manager constructed over them; no global [v] is bound there, as when
    the module is imported. *)
Definition recorded_config : gmap string pyval :=
  <["lat" := PNum (NFloat 1)]> (<["lon" := PNum (NFloat 2)]> (
  <["filteronpos" := PNum (NInt 1)]> registered_config)).

Definition example_entry : bytes :=
  match ubx_mga_ini_pos_llh (NFloat 1) (NFloat 2) default_alt_m default_pacc_km
  with
  | Ok initial_position => initial_position ++ example_blob
  | _ => []
  end.

Definition cached_world : world :=
  World 1000 None (Some recorded_config)
        (Some (900%float, example_entry)) []
        (serve example_blob registered_config) [].

Definition cached_manager : assistnow :=
  AssistNow (Some 3%float) recorded_config (Some example_entry).

(** ** Finite floats *)

(** neither NaN nor an infinity *)
Definition float_finite (f : float) : bool :=
  match Prim2SF f with
  | S754_zero _ | S754_finite _ _ _ => true
  | _ => false
  end.

(** ** The items of a list-valued parameter *)

(** what [validate_list] iterates over: the stripped comma-separated pieces
    of a [str], the elements of a list; numbers are not iterable *)
Definition list_items (values : pyval) : option (list string) :=
  match values with
  | PStr s => Some (strip <$> split_comma s)
  | PList l => Some l
  | _ => None
  end.

(** ** What [update] may write *)

(** the keys of [params.items()] *)
Definition tracked_keys : list string :=
  ["data"; "gnss"; "lat"; "lon"; "alt"; "pacc"; "filteronpos"].

(** two worlds that differ at most in the trace and in the two files *)
Definition same_env (w w' : world) : Prop :=
  now w' = now w ∧ global_v w' = global_v w ∧ http w' = http w ∧ rx w' = rx w.

(** [saved c w]: the world after [save_config] ran with [c] in
    [self.config]; an empty dictionary is not written *)
Definition saved (c : gmap string pyval) (w : world) : world :=
  if dict_truthy c then log (WroteConfig c) (set_config_file c w) else w.

(** the requests among the events of a trace *)
Definition is_request (e : event) : bool :=
  match e with Request _ => true | _ => false end.

Definition requests (t : list event) : list event := filter is_request t.

(** ** More concrete inputs *)

(** [cached_world] with its cache file written four hours before the clock,
    and with a service that answers 503. *)
Definition expired_world : world :=
  World 15300 None (Some recorded_config) (Some (900%float, example_entry)) []
        (serve example_blob registered_config) [].

Definition unavailable_world : world :=
  World 1000 None (Some recorded_config) (Some (900%float, example_entry)) []
        (fun _ => Ok (HttpResponse 503 [] None)) [].

(** [lat=52.0 lon=4.3 alt=10 pacc=5], and the parameters it validates to *)
Definition aided_request : gmap string pyval :=
  {[ "lat" := PStr "52.0"; "lon" := PStr "4.3";
     "alt" := PStr "10"; "pacc" := PStr "5" ]}.

Definition aided_params : params :=
  Params None None (Some 52%float) (Some float_4_3)
         (Some 10%float) (Some 5%float).

(** An unregistered manager, the receiver's answers to the two polls of
    [register] (a UBX-SEC-UNIQID frame and a UBX-MON-VER frame), and the
    credentials the service returns. *)
Definition unregistered_manager : assistnow := AssistNow (Some 3%float) ∅ None.

Definition uniqid_answer : bytes :=
  match make_pkt x27 x03 [x01; x00; x00; x00; xaa; xbb; xcc; xdd; xee] with
  | Ok frame => frame
  | _ => []
  end.

Definition mon_ver_answer : bytes :=
  match make_pkt x0a x04 [x31; x2e; x30; x30] with
  | Ok frame => frame
  | _ => []
  end.

Definition registration_world (polls : list (list (option bytes))) : world :=
  World 1000 None None None polls (serve [] registered_config) [].

(** ** The main block of assistnow.py (lines 218-253) *)

(** [item.split("=", 1)]: the text before the first [=] and, when there is
    one, the text after it *)
Fixpoint split_eq (item : string) : string * option string :=
  match item with
  | EmptyString => (EmptyString, None)
  | String c rest =>
      if Ascii.eqb c "=" then (EmptyString, Some rest)
      else let '(k, v) := split_eq rest in (String c k, v)
  end.

(** The argument loop, lines 222-224.  [k, v = item.split("=", 1)] binds
    the module globals [k] and [v]; an item without [=] cannot be unpacked
    and raises, which ends the loop.  The result is [kwargs], or [None]
    after such an item, and the binding of [v] at that point. *)
Fixpoint parse_items (items : list string) (kwargs : gmap string pyval)
    (v : option string) : option (gmap string pyval) * option string :=
  match items with
  | [] => (Some kwargs, v)
  | item :: items =>
      match split_eq item with
      | (k, Some value) =>
          parse_items items (<[k := PStr value]> kwargs) (Some value)
      | (_, None) => (None, v)
      end
  end.

Definition set_global_v (v : option string) (w : world) : world :=
  World (now w) v (config_file w) (cache_file w) (rx w) (http w) (trace w).

(** What leaves a block of the script: a value, an exception of the
    program, or the [SystemExit] that [quit] raises. *)
Inductive raised : Type :=
  | Exc (e : exc)
  | SystemExit (code : Z).

Inductive flow (A : Type) : Type :=
  | Done (a : A)
  | Raised (r : raised)
  | Hung.
Arguments Done {A} a.
Arguments Raised {A} r.
Arguments Hung {A}.

Definition of_result {A} (r : result A) : flow A :=
  match r with
  | Ok a => Done a
  | Raise e => Raised (Exc e)
  | Diverge => Hung
  end.

Definition quit {A} (code : Z) : flow A := Raised (SystemExit code).

Definition flow_bind {A B} (f : flow A) (k : A -> flow B) : flow B :=
  match f with
  | Done a => k a
  | Raised r => Raised r
  | Hung => Hung
  end.

(** [try: body except: handler] with a bare [except], which catches every
    exception, [SystemExit] included *)
Definition bare_except {A} (body handler : flow A) : flow A :=
  match body with
  | Raised _ => handler
  | other => other
  end.

(** How the process ends: falling off the end of the script is status 0,
    [SystemExit] carries its status, an exception nobody caught prints a
    traceback and gives status 1. *)
Definition exit_status (f : flow unit) : option Z :=
  match f with
  | Done _ => Some 0
  | Raised (SystemExit code) => Some code
  | Raised (Exc _) => Some 1
  | Hung => None
  end.

Section Main.
Context `{Runtime} `{UbxLib}.

(** lines 239-246 *)
Definition main_register (token : pyval) (s : assistnow * world)
    : flow unit * (assistnow * world) :=
  let '(r, s') := register token s in
  let body :=
    flow_bind (of_result r) (fun _ =>
    flow_bind (of_result (subscript (config s'.1) "chipcode")) (fun _ =>
    quit 0)) in
  (bare_except body (quit 1), s').

(** [assistnow.update] called with the items of [kwargs] as keywords:
    the receiver is bound to [self], so an argument named [self] gives
    that parameter a second value and the call raises [TypeError] before
    the body runs *)
Definition call_update (kwargs : gmap string pyval)
    : M (assistnow * world) unit :=
  match kwargs !! "self" with
  | Some _ => raise TypeError
  | None => update kwargs
  end.

(** lines 248-253 *)
Definition main_update (kwargs : gmap string pyval) (s : assistnow * world)
    : flow unit * (assistnow * world) :=
  let '(r, s') := call_update kwargs s in
  (bare_except (of_result r) (quit 1), s').

Definition main (argv : list string) (w : world) : flow unit * world :=
  let '(parsed, v) := parse_items argv ∅ (global_v w) in
  let w := set_global_v v w in
  match parsed with
  | None => (quit 1, w)
  | Some kwargs =>
      match init (dict_get kwargs "device")
                 (default default_cache_duration (kwargs !! "cache_duration")) w
      with
      | (Ok self, w) =>
          if negb (is_registered self) then
            match kwargs !! "token" with
            | None => (quit 1, w)
            | Some token =>
                let '(f, s') := main_register token (self, w) in
                match f with
                | Done _ =>
                    let '(f, s') := main_update kwargs s' in (f, s'.2)
                | _ => (f, s'.2)
                end
            end
          else
            let '(f, s') := main_update kwargs (self, w) in (f, s'.2)
      | (r, w) => (flow_bind (of_result r) (fun _ => Done tt), w)
      end
  end.

End Main.

(** ** Strings without a comma, strings without leading blanks *)

Fixpoint comma_free (s : string) : bool :=
  match s with
  | EmptyString => true
  | String c rest => negb (Ascii.eqb c ",") && comma_free rest
  end.

Definition lstripped (s : string) : bool :=
  match s with
  | EmptyString => true
  | String c _ => negb (is_space c)
  end.

(** * Properties *)

(** ** Slices and the forwarding loops *)

Lemma py_drop_shrinks (n : Z) (data : bytes) :
  0 < n -> data ≠ [] -> (length (py_drop n data) < length data)%nat.
Proof.
  intros Hn Hd. unfold py_drop.
  destruct (Z.ltb_spec n 0) as [?|_]; [lia|].
  rewrite length_drop. destruct data; [done|]. simpl. lia.
Qed.

Lemma py_take_drop (n : Z) (data : bytes) :
  py_take n data ++ py_drop n data = data.
Proof.
  unfold py_take, py_drop. destruct (n <? 0); apply take_drop.
Qed.

Lemma sends_nil (w : world) : sends [] w = w.
Proof. destruct w. unfold sends. simpl. by rewrite app_nil_r. Qed.

Lemma sends_log (raw : bytes) (chunks : list bytes) (w : world) :
  sends chunks (log (Sent raw) w) = sends (raw :: chunks) w.
Proof. unfold sends, log. simpl. by rewrite <- app_assoc. Qed.

Section Forwarding.
Context `{UbxLib}.

(** With a budget of [len(data)] iterations the loop of [send_data]
    reaches its exit, and what it wrote is the input cut into chunks: a
    prefix of the input, in order. *)
Lemma send_data_loop_spec (fuel : nat) :
  ∀ (data : bytes) (w : world),
    (length data <= fuel)%nat ->
    ∃ chunks, send_data_loop fuel data w = (Ok tt, sends chunks w)
              ∧ concat chunks `prefix_of` data.
Proof.
  induction fuel as [|fuel IH]; intros data w Hlen.
  - destruct data; [|simpl in Hlen; lia].
    exists []. simpl. rewrite sends_nil. split; [done|]. by exists [].
  - destruct data as [|b data].
    { exists []. simpl. rewrite sends_nil. split; [done|]. by exists []. }
    cbn [send_data_loop]. unfold decode_msg.
    set (n := ubx_decode_msg (b :: data)).
    destruct (Z.geb_spec 0 n) as [Hle|Hgt].
    + exists []. rewrite sends_nil. split; [done|]. by exists (b :: data).
    + destruct (IH (py_drop n (b :: data)) (log (Sent (py_take n (b :: data))) w))
        as (chunks & Hrun & Hpre).
      { pose proof (py_drop_shrinks n (b :: data)) as Hs.
        simpl in Hlen. simpl in Hs. specialize (Hs ltac:(lia) ltac:(done)). lia. }
      exists (py_take n (b :: data) :: chunks). split.
      * unfold bind, gps_send_raw, modify. rewrite Hrun. by rewrite sends_log.
      * simpl. rewrite <- (py_take_drop n (b :: data)) at 2.
        by apply prefix_app.
Qed.

Lemma send_data_spec (data : bytes) (w : world) :
  ∃ chunks, send_data data w = (Ok tt, sends chunks w)
            ∧ concat chunks `prefix_of` data.
Proof. apply send_data_loop_spec. done. Qed.

(** The loop of [send2gps] has no emptiness test of its own: it relies on
    the decoder consuming nothing from an empty buffer. *)
Lemma send2gps_loop_spec (fuel : nat) :
  ubx_decode_msg [] <= 0 ->
  ∀ (data : bytes) (w : world),
    (length data < fuel)%nat ->
    ∃ chunks, send2gps_loop fuel data w = (Ok tt, sends chunks w)
              ∧ concat chunks `prefix_of` data.
Proof.
  intros Hnil. induction fuel as [|fuel IH]; intros data w Hlen; [lia|].
  cbn [send2gps_loop].
  set (n := ubx_decode_msg data).
  destruct (Z.geb_spec 0 n) as [Hle|Hgt].
  - exists []. rewrite sends_nil. split; [done|]. by exists data.
  - assert (data ≠ []) as Hne by (intros ->; subst n; lia).
    destruct (IH (py_drop n data) (log (Sent (py_take n data)) w))
      as (chunks & Hrun & Hpre).
    { pose proof (py_drop_shrinks n data ltac:(lia) Hne). lia. }
    exists (py_take n data :: chunks). split.
    + unfold bind, gps_send_raw, modify. rewrite Hrun. by rewrite sends_log.
    + simpl. rewrite <- (py_take_drop n data) at 2. by apply prefix_app.
Qed.

End Forwarding.

(** C7: [send_data] returns for every input, whatever the decoder answers:
    a budget of [len(data)] iterations is enough; the loop leaves as soon as
    the decoder consumes nothing, having written nothing more, so trailing
    bytes that hold no complete packet end it (as the three bytes of an
    unfinished header do after one frame); and [send2gps], whose loop is
    [while True], returns as well with the decoder of section 4.1. *)
Theorem send_data_terminates :
  (∀ (lib : UbxLib) (data : bytes) (w : world),
     ∃ w', send_data data w = (Ok tt, w'))
  ∧ (∀ (lib : UbxLib) (fuel : nat) (data : bytes) (w : world),
       ubx_decode_msg data <= 0 -> send_data_loop (S fuel) data w = (Ok tt, w))
  ∧ (∀ (data : bytes) (w : world),
       ∃ w', @send2gps spec_ubx data w = (Ok tt, w'))
  ∧ @send_data spec_ubx (mon_ver_poll ++ [xb5; x62; x0a]) (quiet_world None [] [])
    = (Ok tt, sends [mon_ver_poll] (quiet_world None [] [])).
Proof.
  split; [|split; [|split]].
  - intros lib data w. destruct (send_data_spec data w) as (chunks & Hrun & _).
    eauto.
  - intros lib fuel data w Hle. destruct data as [|b data]; [done|].
    cbn [send_data_loop]. unfold decode_msg.
    destruct (Z.geb_spec 0 (ubx_decode_msg (b :: data))); [done|lia].
  - intros data w.
    destruct (@send2gps_loop_spec spec_ubx (S (length data))
                ltac:(simpl; lia) data w ltac:(lia)) as (chunks & Hrun & _).
    eauto.
  - by vm_compute.
Qed.

(** ** The response synchroniser *)

Section Synchroniser.
Context `{UbxLib}.

(** [wait_for] returns the empty string or a chunk that begins with the
    expected four bytes. *)
Lemma wait_for_loop_prefix (expected : bytes) (polls : list (option bytes)) :
  ∀ data, wait_for_loop expected polls data = []
          ∨ ∃ buffer, wait_for_loop expected polls data
                        = py_take (ubx_decode_msg buffer) buffer
                      ∧ take 4 (py_take (ubx_decode_msg buffer) buffer) = expected.
Proof.
  induction polls as [|chunk polls IH]; intros data; [by left|].
  cbn [wait_for_loop]. unfold decode_msg.
  case_bool_decide as Hhead.
  - right. by exists (data ++ default [] chunk).
  - apply IH.
Qed.

End Synchroniser.

(** With the decoder of section 4.1, a consumed chunk that begins with the
    sync marker is one complete frame. *)
Lemma decode_chunk_is_frame (m_cls m_id : byte) (buffer : bytes) :
  take 4 (py_take (consumed (decode buffer)) buffer) = [xb5; x62; m_cls; m_id] ->
  is_frame m_cls m_id (py_take (consumed (decode buffer)) buffer).
Proof.
  destruct buffer as [|b0 [|b1 after1]]; [done| |].
  { simpl. case_bool_decide; done. }
  unfold decode. case_bool_decide as H0; cbn [negb].
  2:{ done. }
  case_bool_decide as H1; cbn [negb].
  2:{ done. }
  destruct after1 as [|c [|i [|l0 [|l1 rest]]]]; try done.
  set (m_len := Z_of_byte l0 + 256 * Z_of_byte l1).
  assert (0 <= m_len) as Hpos by (unfold m_len, Z_of_byte; lia).
  destruct (Z.ltb_spec (Z.of_nat (length rest)) (m_len + 2)) as [|Hlen]; [done|].
  cbn [consumed]. unfold py_take.
  destruct (Z.ltb_spec (6 + m_len + 2) 0) as [|_]; [lia|].
  replace (Z.to_nat (6 + m_len + 2)) with (6 + (Z.to_nat m_len + 2))%nat by lia.
  cbn [take]. intros [= -> -> -> ->].
  cbn [take Nat.add].
  rewrite <- (take_drop (Z.to_nat m_len) rest) at 1.
  rewrite take_app_add'; [|rewrite length_take; lia].
  remember (take 2 (drop (Z.to_nat m_len) rest)) as ck eqn:Hck.
  assert (length ck = 2%nat) as Hck2.
  { subst ck. rewrite length_take, length_drop. lia. }
  destruct ck as [|ck_a [|ck_b [|? ?]]]; try done.
  exists l0, l1, (take (Z.to_nat m_len) rest), ck_a, ck_b. split; [done|].
  rewrite length_take. fold m_len. lia.
Qed.

(** C3: with the decoder of section 4.1, [wait_for] returns the empty
    string or one complete frame whose first four bytes are the sync marker
    and the requested class and id; a decoded chunk that begins otherwise is
    dropped.  Nothing is said of the two checksum bytes: the decoder reports
    the same consumed length for a frame whose checksum fails. *)
Theorem wait_for_returns_frame (m_cls m_id : byte) (w : world) :
  ∃ r, (@wait_for spec_ubx m_cls m_id w).1 = Ok r
       ∧ (r = [] ∨ (is_frame m_cls m_id r
                    ∧ take 4 r = [xb5; x62; m_cls; m_id])).
Proof.
  unfold wait_for, bind, get, modify, ret. cbn [fst].
  eexists. split; [reflexivity|].
  destruct (@wait_for_loop_prefix spec_ubx [xb5; x62; m_cls; m_id]
              (default [] (head (rx w))) []) as [->|(buffer & -> & Hhead)].
  - by left.
  - right. split; [|done]. by apply decode_chunk_is_frame.
Qed.

(** C3, as stated, fails: the frame with both checksum bytes wrong is
    returned by [wait_for], although the decoder yields no packet for it. *)
Lemma wait_for_returns_corrupted_frame :
  make_pkt x0a x04 [] = Ok mon_ver_poll
  ∧ checksum_ok mon_ver_poll = true
  ∧ (@wait_for spec_ubx x0a x04
       (quiet_world None [[Some corrupted_mon_ver]] [])).1
    = Ok corrupted_mon_ver
  ∧ corrupted_mon_ver ≠ []
  ∧ checksum_ok corrupted_mon_ver = false
  ∧ packet (decode corrupted_mon_ver) = None.
Proof. repeat split; try done. Qed.

(** ** The position-aid encoder *)

(** C6: [ubx_mga_ini_pos_llh(52.0, 4.3, 10, 5)] is a packet whose 20-byte
    payload holds 520000000, 43000000 and 1000 as little-endian signed
    32-bit integers at bytes 4-7, 8-11 and 12-15, 5000000 as an unsigned one
    at bytes 16-19, [0x01 0x00] at bytes 0-1 and zeros at bytes 2-3. *)
Theorem position_aid_example :
  decimal_float "52.0" = Some 52%float
  ∧ decimal_float "4.3" = Some float_4_3
  ∧ ∃ pkt payload,
      ubx_mga_ini_pos_llh (NFloat 52) (NFloat float_4_3) (NInt 10) (NInt 5)
        = Ok pkt
      ∧ make_pkt x13 x40 payload = Ok pkt
      ∧ length payload = 20%nat
      ∧ unpack_i (slice 4 8 payload) = 520000000
      ∧ unpack_i (slice 8 12 payload) = 43000000
      ∧ unpack_i (slice 12 16 payload) = 1000
      ∧ unpack_I (slice 16 20 payload) = 5000000
      ∧ slice 0 2 payload = [x01; x00]
      ∧ slice 2 4 payload = [x00; x00].
Proof.
  split; [by vm_compute|]. split; [by vm_compute|].
  eexists. exists (slice 6 26
    (match ubx_mga_ini_pos_llh (NFloat 52) (NFloat float_4_3) (NInt 10) (NInt 5)
     with Ok pkt => pkt | _ => [] end)).
  vm_compute. repeat split.
Qed.

(** C4: [pacc=6000000] passes validation, and the encoder then fails in
    [struct.pack_into], called positionally or with the keyword [pacc_km]:
    6000000 km is 6 * 10^12 mm, beyond the unsigned 32-bit field.  The
    position block of gpsd-assistnow.py fails in the same way.  [update]
    does not reach [struct.pack_into]: it hands [pacc] over under a keyword
    that the encoder does not have, and raises [TypeError] after the
    fetch, with nothing cached or sent. *)
Theorem position_aid_fails_on_validated_pacc :
  validate_number None (PStr "6000000") 0 6000000 = Ok (Some 6000000%float)
  ∧ ubx_mga_ini_pos_llh (NFloat 0) (NFloat 0) default_alt_m (NFloat 6000000)
    = Raise StructError
  ∧ call_ubx_mga_ini_pos_llh (NFloat 0) (NFloat 0)
      [("pacc_km"%string, NFloat 6000000)]
    = Raise StructError
  ∧ assistnow_initial_position 0 0 None (Some 6000000%float) = Raise StructError
  ∧ ∃ w', update widest_pacc_request
            (fresh_manager, quiet_world (Some "6000000"%string) [] [x00])
          = (Raise TypeError, w')
          ∧ cache w'.1 = None
          ∧ sent_packets (trace w'.2) = []
          ∧ length (fetches (trace w'.2)) = 1%nat.
Proof.
  split; [by vm_compute|]. split; [by vm_compute|]. split; [by vm_compute|].
  split; [by vm_compute|].
  eexists. split; [vm_compute; reflexivity|]. by vm_compute.
Qed.

(** ** Validation *)

(** C9: the message of [validate_number] is built from the module global
    [v], not from the offending value: with [lat=95 lon=5] on the command
    line it names [5]; where no global [v] is bound the f-string raises
    [NameError].  [validate_list] names the offending item and the
    choices. *)
Theorem validate_number_message_names_global_v :
  validate_number (Some "5"%string) (PStr "95") (-90) 90
    = Raise (ValueError "Invalid value '5'; not in [-90, 90]")
  ∧ validate_number (Some "5"%string) (PStr "north") (-90) 90
    = Raise (ValueError "Invalid value '5'; not a number")
  ∧ validate_number None (PStr "95") (-90) 90 = Raise (NameError "v")
  ∧ (update bad_lat_request
       (fresh_manager, quiet_world (Some "5"%string) [] [])).1
    = Raise (ValueError "Invalid value '5'; not in [-90, 90]")
  ∧ validate_list (PStr "gps,foo") gnss_choices
    = Raise (ValueError
               "Unknown value 'foo'; valid choices are: gps, glo, gal, bds, qzss").
Proof. repeat split; by vm_compute. Qed.

(** ** The validity window *)

Section ValidityWindow.
Context `{Runtime}.

(** C8: a [cache_duration] whose value lies outside [0, 24] is refused:
    [__init__] raises and no manager is constructed; a value inside the
    range becomes the window as it is; the default is 3 hours. *)
Theorem init_validates_cache_duration
    (device value : pyval) (hours : float) (w : world) :
  py_float value = Ok hours ->
  (Z_le_float 0 hours && float_le_Z hours 24 = false ->
     ∃ e, init device value w = (Raise e, w))
  ∧ (Z_le_float 0 hours && float_le_Z hours 24 = true ->
       init device value w
       = (Ok (AssistNow (Some hours) (load_config w)
                        (load_cache (Some hours) w)), w))
  ∧ ∃ self, init device default_cache_duration w = (Ok self, w)
            ∧ cache_duration self = Some 3%float.
Proof.
  intros Hfloat. split; [|split].
  - intros Hout. unfold init, bind, get, lift, validate_number.
    destruct value; try discriminate Hfloat;
      rewrite Hfloat, Hout; eauto.
  - intros Hin. unfold init, bind, get, lift, ret, validate_number.
    destruct value; try discriminate Hfloat;
      by rewrite Hfloat, Hin.
  - assert (validate_number (global_v w) default_cache_duration 0 24
            = Ok (Some 3%float)) as Hdefault by (by vm_compute).
    unfold init, bind, get, lift, ret. rewrite Hdefault. eauto.
Qed.

End ValidityWindow.

(** C8, as stated, fails: a requested window of 30 hours does not behave as
    24, the constructor raises. *)
Lemma cache_duration_30_is_refused :
  py_float (PStr "30") = Ok 30%float
  ∧ Z_le_float 0 30 && float_le_Z 30 24 = false
  ∧ ¬ (∃ self w', init PNone (PStr "30") (quiet_world (Some "30"%string) [] [])
                  = (Ok self, w'))
  ∧ ¬ (∃ self w', init PNone (PNum (NInt 30)) (quiet_world None [] [])
                  = (Ok self, w')).
Proof.
  split; [by vm_compute|]. split; [by vm_compute|].
  split; intros (self & w' & Hinit); vm_compute in Hinit; discriminate Hinit.
Qed.

Lemma init_validates_cache_duration_witness :
  (∃ e, init PNone (PStr "30") (quiet_world (Some "30"%string) [] [])
        = (Raise e, quiet_world (Some "30"%string) [] []))
  ∧ init PNone (PStr "12") (quiet_world (Some "12"%string) [] [])
    = (Ok (AssistNow (Some 12%float) registered_config None),
       quiet_world (Some "12"%string) [] []).
Proof.
  split.
  - apply (init_validates_cache_duration PNone (PStr "30") 30%float
             (quiet_world (Some "30"%string) [] []));
      by vm_compute.
  - apply (init_validates_cache_duration PNone (PStr "12") 12%float
             (quiet_world (Some "12"%string) [] []));
      by vm_compute.
Defined.

(** ** The cache manager *)

(** *** The comparison loop *)

Lemma merge_params_unchanged (items : list (string * pyval))
    (config : gmap string pyval) (changed : bool) :
  (∀ k v, (k, v) ∈ items -> py_eqb (dict_get config k) v = true) ->
  merge_params items config changed = (config, changed).
Proof.
  induction items as [|[k v] items IH]; intros Heq; [done|].
  cbn [merge_params]. rewrite (Heq k v) by apply list_elem_of_here.
  cbn [negb]. apply IH. intros k' v' Hin. apply Heq. by apply list_elem_of_further.
Qed.

Lemma merge_params_sticky (items : list (string * pyval)) :
  ∀ config, (merge_params items config true).2 = true.
Proof.
  induction items as [|[k v] items IH]; intros config; [done|].
  cbn [merge_params]. destruct (negb _); apply IH.
Qed.

Lemma merge_params_changed (items : list (string * pyval))
    (config : gmap string pyval) (changed : bool) :
  (∃ k v, (k, v) ∈ items ∧ py_eqb (dict_get config k) v = false) ->
  (merge_params items config changed).2 = true.
Proof.
  induction items as [|[k v] items IH]; intros (k' & v' & Hin & Hne).
  { by apply elem_of_nil in Hin. }
  cbn [merge_params]. destruct (py_eqb (dict_get config k) v) eqn:Hhead; cbn [negb].
  - apply IH. exists k', v'. split; [|done].
    apply elem_of_cons in Hin as [[= -> ->]|Hin]; [congruence|done].
  - apply merge_params_sticky.
Qed.

(** the loop writes only the keys it iterates over *)
Lemma merge_params_lookup_other (items : list (string * pyval)) (k : string) :
  k ∉ items.*1 ->
  ∀ config changed, (merge_params items config changed).1 !! k = config !! k.
Proof.
  induction items as [|[k' v] items IH]; intros Hk config changed; [done|].
  cbn [merge_params]. apply not_elem_of_cons in Hk as [Hne Hk].
  destruct (negb _); rewrite IH by done; [|done].
  by rewrite lookup_insert_ne.
Qed.

Lemma params_items_keys (p : params) (k : string) :
  k ∈ (params_items p).*1 ->
  k ∈ ["data"; "gnss"; "lat"; "lon"; "alt"; "pacc"; "filteronpos"].
Proof.
  unfold params_items. destruct (has_position p); cbn;
    rewrite !elem_of_cons, !elem_of_nil; tauto.
Qed.

(** *** Traces *)

Lemma fetches_app (t1 t2 : list event) :
  fetches (t1 ++ t2) = fetches t1 ++ fetches t2.
Proof. apply filter_app. Qed.

Lemma fetches_sent (chunks : list bytes) : fetches (Sent <$> chunks) = [].
Proof. induction chunks as [|c chunks IH]; [done|]. cbn. apply IH. Qed.

Lemma fetches_sends (chunks : list bytes) (w : world) :
  fetches (trace (sends chunks w)) = fetches (trace w).
Proof.
  unfold sends. cbn. by rewrite fetches_app, fetches_sent, app_nil_r.
Qed.

(** *** The entry built from an answer *)

Lemma build_entry_no_position (p : params) (data : bytes) :
  has_position p = false -> build_entry p data = Ok data.
Proof.
  unfold has_position, build_entry.
  by destruct (p_lat p), (p_lon p).
Qed.

(** without [alt] and [pacc] the encoder runs on its defaults *)
Lemma build_entry_defaults (p : params) (data : bytes) (lat lon : float) :
  p_lat p = Some lat -> p_lon p = Some lon ->
  p_alt p = None -> p_pacc p = None ->
  build_entry p data
  = (let? initial_position :=
       ubx_mga_ini_pos_llh (NFloat lat) (NFloat lon)
         default_alt_m default_pacc_km in
     Ok (initial_position ++ data))%result.
Proof.
  intros Hlat Hlon Halt Hpacc.
  unfold build_entry, call_ubx_mga_ini_pos_llh, position_kwargs.
  by rewrite Hlat, Hlon, Halt, Hpacc.
Qed.

(** with [alt] or [pacc] the call names a parameter that the encoder does
    not have *)
Lemma build_entry_keyword (p : params) (data : bytes) :
  has_position p = true ->
  is_Some (p_alt p) ∨ is_Some (p_pacc p) ->
  build_entry p data = Raise TypeError.
Proof.
  unfold has_position, build_entry, call_ubx_mga_ini_pos_llh, position_kwargs.
  destruct (p_lat p), (p_lon p); try done. intros _ Hkw.
  destruct (p_alt p); [done|].
  destruct (p_pacc p); [done|].
  by destruct Hkw as [[? ?]|[? ?]].
Qed.

Section CacheManager.
Context `{Runtime} `{UbxLib}.

(** [update] on a registered device whose request validates: compare,
    then fetch unless a cache is left, then forward. *)
Lemma update_run (kwargs : gmap string pyval) (self : assistnow) (w : world)
    (p : params) :
  is_registered self = true ->
  validate_params (global_v w) (config self)
    (if dict_truthy kwargs then kwargs else config self) = Ok p ->
  let merged := merge_params (params_items p) (config self) false in
  let self1 := AssistNow (cache_duration self) merged.1
                 (if merged.2 then None else cache self) in
  let w1 := if merged.2 && dict_truthy merged.1
            then log (WroteConfig merged.1) (set_config_file merged.1 w)
            else w in
  update kwargs (self, w)
  = ((if negb (cache_truthy (cache self1)) then fetch p else ret tt) ;;
     forward_cache) (self1, w1).
Proof.
  intros Hreg Hval. cbv zeta.
  unfold update. unfold bind at 1. cbn [get_self fst]. rewrite Hreg. cbn [negb].
  unfold bind at 1. unfold on_world at 1, get at 1. cbn [snd fst].
  unfold bind at 1. unfold lift at 1. rewrite Hval.
  destruct (merge_params (params_items p) (config self) false)
    as [config' changed].
  cbn [fst snd]. destruct changed; cbn [andb].
  - unfold save_config, set_config, set_cache, get_self, bind, modify, on_world.
    cbn [fst snd config cache cache_duration].
    destruct (dict_truthy config'); reflexivity.
  - unfold set_config, get_self, bind, modify, ret. reflexivity.
Qed.

Lemma fetch_run (p : params) (self : assistnow) (w : world)
    (url chipcode : pyval) :
  config self !! "serviceUrl" = Some url ->
  config self !! "chipcode" = Some chipcode ->
  let req := HttpGet url (params_items p ++ [("chipcode", chipcode)]) in
  let w1 := log (Request req) w in
  fetch p (self, w)
  = match (let? r := http w req in
           let? _ := check_status r in
           build_entry p (content r)) with
    | Ok data =>
        (Ok tt, (AssistNow (cache_duration self) (config self) (Some data),
                 stored data w1))
    | Raise e => (Raise e, (self, w1))
    | Diverge => (Diverge, (self, w1))
    end.
Proof.
  intros Hurl Hchip. cbv zeta.
  unfold fetch. unfold bind at 1. cbn [get_self fst].
  unfold bind at 1, lift at 1, subscript at 1. rewrite Hurl.
  unfold bind at 1, lift at 1, subscript at 1. rewrite Hchip.
  unfold bind at 1, on_world at 1, do_request, bind, modify, get, lift.
  cbn [fst snd http log].
  destruct (http w _) as [r|e|]; cbn [rbind]; [|done|done].
  destruct (check_status r) as [[]|e|]; cbn [rbind]; [|done|done].
  destruct (build_entry p (content r)) as [data|e|]; [|done|done].
  unfold set_cache, save_cache, bind, modify, get_self, on_world, ret.
  cbn [fst snd cache config cache_duration].
  destruct data; reflexivity.
Qed.

Lemma forward_cache_run (self : assistnow) (w : world) (data : bytes) :
  cache self = Some data ->
  ∃ chunks, forward_cache (self, w) = (Ok tt, (self, sends chunks w))
            ∧ send_data data w = (Ok tt, sends chunks w)
            ∧ concat chunks `prefix_of` data.
Proof.
  intros Hcache. destruct (send_data_spec data w) as (chunks & Hrun & Hpre).
  exists chunks. split; [|done].
  unfold forward_cache, bind, get_self. cbn [fst]. rewrite Hcache.
  unfold on_world. cbn [snd fst]. by rewrite Hrun.
Qed.

(** A miss: the parameters changed or no cache is left.  The service is
    asked once; the manager ends with the entry built from the answer, or
    with no usable cache when the service or the encoder failed. *)
Lemma update_miss (kwargs : gmap string pyval) (self : assistnow) (w : world)
    (p : params) (url chipcode : pyval) :
  is_registered self = true ->
  config self !! "serviceUrl" = Some url ->
  config self !! "chipcode" = Some chipcode ->
  validate_params (global_v w) (config self)
    (if dict_truthy kwargs then kwargs else config self) = Ok p ->
  (merge_params (params_items p) (config self) false).2 = true
  ∨ cache_truthy (cache self) = false ->
  let req := HttpGet url (params_items p ++ [("chipcode", chipcode)]) in
  ∃ r self' w',
    update kwargs (self, w) = (r, (self', w'))
    ∧ fetches (trace w') = fetches (trace w) ++ [Request req]
    ∧ match (let? resp := http w req in
             let? _ := check_status resp in
             build_entry p (content resp)) with
      | Ok data => r = Ok tt ∧ cache self' = Some data
      | Raise e => r = Raise e ∧ cache_truthy (cache self') = false
      | Diverge => r = Diverge ∧ cache_truthy (cache self') = false
      end.
Proof.
  intros Hreg Hurl Hchip Hval Hmiss. cbv zeta.
  rewrite (update_run kwargs self w p Hreg Hval).
  set (merged := merge_params (params_items p) (config self) false) in *.
  set (self1 := AssistNow _ _ _).
  set (w1 := if merged.2 && dict_truthy merged.1
             then log (WroteConfig merged.1) (set_config_file merged.1 w)
             else w).
  assert (cache_truthy (cache self1) = false) as Hfalsy.
  { subst self1. cbn [cache]. destruct Hmiss as [->|Hnone]; [done|].
    by destruct (merged.2). }
  assert (fetches (trace w1) = fetches (trace w) ∧ http w1 = http w)
    as [Htrace Hhttp].
  { subst w1. destruct (_ && _); [|done]. cbn.
    by rewrite fetches_app, app_nil_r. }
  assert (∀ k, k ∉ ["data"; "gnss"; "lat"; "lon"; "alt"; "pacc"; "filteronpos"]
               -> config self1 !! k = config self !! k) as Hkeep.
  { intros k Hk. subst self1 merged. cbn [config].
    apply merge_params_lookup_other. intros Hin. apply Hk.
    by apply (params_items_keys p). }
  rewrite Hfalsy. cbn [negb]. unfold bind at 1.
  rewrite (fetch_run p self1 w1 url chipcode).
  2:{ rewrite Hkeep; [done|]. rewrite !elem_of_cons, elem_of_nil.
      intros Hk. repeat destruct Hk as [Hk|Hk]; done. }
  2:{ rewrite Hkeep; [done|]. rewrite !elem_of_cons, elem_of_nil.
      intros Hk. repeat destruct Hk as [Hk|Hk]; done. }
  rewrite Hhttp.
  destruct (rbind (http w _) _) as [data|e|].
  - destruct (forward_cache_run
                (AssistNow (cache_duration self1) (config self1) (Some data))
                (stored data (log (Request (HttpGet url
                   (params_items p ++ [("chipcode", chipcode)]))) w1)) data)
      as (chunks & -> & _ & _); [done|].
    do 3 eexists. split; [reflexivity|]. split; [|done].
    rewrite fetches_sends. destruct data; cbn; rewrite !fetches_app; cbn.
    + by rewrite Htrace.
    + by rewrite Htrace, app_nil_r.
  - do 3 eexists. split; [reflexivity|]. split; [|done].
    cbn. rewrite fetches_app. by rewrite Htrace.
  - do 3 eexists. split; [reflexivity|]. split; [|done].
    cbn. rewrite fetches_app. by rewrite Htrace.
Qed.

End CacheManager.

(** *** Registration *)

Section Registration.
Context `{Runtime} `{UbxLib}.

(** C10: [register] on a device whose configuration holds a chipcode
    raises at once: nothing is sent to or read from the receiver, no
    request is made, the manager's configuration and cache and both files
    are as they were. *)
Theorem register_refuses_registered_device
    (token : pyval) (self : assistnow) (w : world) :
  is_Some (config self !! "chipcode") ->
  register token (self, w)
  = (Raise (Exception "Device already registered."), (self, w)).
Proof.
  intros Hchip. unfold register, bind, get_self. cbn [fst].
  unfold is_registered. by rewrite bool_decide_eq_true_2.
Qed.

End Registration.

Lemma register_refuses_registered_device_witness :
  register (PStr "TOKEN") (cached_manager, cached_world)
  = (Raise (Exception "Device already registered."),
     (cached_manager, cached_world)).
Proof.
  apply (register_refuses_registered_device (PStr "TOKEN")
           cached_manager cached_world).
  eexists. vm_compute. reflexivity.
Defined.

(** *** Hits and misses *)

(** [load_cache] keeps a cache file younger than the window. *)
Lemma load_cache_fresh (hours st_mtime : float) (data : bytes) (w : world) :
  cache_file w = Some (st_mtime, data) ->
  PrimFloat.ltb (PrimFloat.sub (now w) st_mtime)
                (PrimFloat.mul hours (Z_to_float 3600)) = true ->
  load_cache (Some hours) w = Some data.
Proof.
  intros Hfile Hage. unfold load_cache. rewrite Hfile.
  rewrite ltb_spec in Hage. rewrite leb_spec.
  unfold SFltb in Hage. unfold SFleb.
  by destruct (SFcompare _ _) as [[]|].
Qed.

Section Hits.
Context `{Runtime} `{UbxLib}.

Lemma init_inv (device duration : pyval) (w w' : world) (self : assistnow) :
  init device duration w = (Ok self, w') ->
  w' = w
  ∧ self = AssistNow (cache_duration self) (load_config w)
             (load_cache (cache_duration self) w).
Proof.
  unfold init, bind, get, lift, ret.
  destruct (validate_number _ _ _ _) as [hours|e|]; [|done|done].
  by intros [= <- <-].
Qed.


End Hits.


(** *** The entry a miss stores *)

Lemma pack_3iI_length (a b c d : Z) (packed : bytes) :
  pack_3iI a b c d = Ok packed -> length packed = 16%nat.
Proof.
  unfold pack_3iI, pack_i, pack_I.
  repeat (destruct (_ && _); cbn [rbind]; [|done]).
  by intros [= <-].
Qed.

Lemma position_aid_length (lat_deg lon_deg alt_m pacc_km : number) (pkt : bytes) :
  ubx_mga_ini_pos_llh lat_deg lon_deg alt_m pacc_km = Ok pkt ->
  length pkt = 28%nat.
Proof.
  unfold ubx_mga_ini_pos_llh.
  repeat (destruct (num_int _) as [?|?|]; cbn [rbind]; [|done|done]).
  destruct (pack_3iI _ _ _ _) as [packed|?|]; cbn [rbind]; [|done|done].
  unfold make_pkt. rewrite length_inserts. cbn [replicate length list_insert].
  change (65535 <? Z.of_nat 20) with false. cbv iota.
  destruct (checksum _) as [ck_a ck_b]. intros [= <-].
  cbn [app length]. rewrite length_app, length_inserts. reflexivity.
Qed.

Section Entries.
Context `{Runtime} `{UbxLib}.

(** C2: a miss whose validated parameters hold [lat] and [lon] and
    neither [alt] nor [pacc], served with status 200, stores the
    position-aid packet built from [lat] and [lon], with the encoder's
    defaults for the altitude and the accuracy, followed by the fetched
    bytes.  The packet is 28 bytes long (6 of header, 20 of payload, 2 of
    checksum): the entry's first 28 bytes are the packet and the rest is
    the fetched blob. *)
Theorem update_miss_stores_position_aid_then_blob
    (kwargs : gmap string pyval) (self : assistnow) (w : world) (p : params)
    (url chipcode : pyval) (lat lon : float) (resp : http_response)
    (initial_position : bytes) :
  config self !! "chipcode" = Some chipcode ->
  config self !! "serviceUrl" = Some url ->
  validate_params (global_v w) (config self)
    (if dict_truthy kwargs then kwargs else config self) = Ok p ->
  (merge_params (params_items p) (config self) false).2 = true
  ∨ cache_truthy (cache self) = false ->
  p_lat p = Some lat ->
  p_lon p = Some lon ->
  p_alt p = None ->
  p_pacc p = None ->
  http w (HttpGet url (params_items p ++ [("chipcode", chipcode)])) = Ok resp ->
  check_status resp = Ok tt ->
  ubx_mga_ini_pos_llh (NFloat lat) (NFloat lon) default_alt_m default_pacc_km
    = Ok initial_position ->
  ∃ self' w',
    update kwargs (self, w) = (Ok tt, (self', w'))
    ∧ cache self' = Some (initial_position ++ content resp)
    ∧ length initial_position = 28%nat
    ∧ take 28 (initial_position ++ content resp) = initial_position
    ∧ drop 28 (initial_position ++ content resp) = content resp.
Proof.
  intros Hchip Hurl Hval Hmiss Hlat Hlon Halt Hpacc Hresp Hstatus Hpkt.
  assert (is_registered self = true) as Hreg.
  { unfold is_registered. rewrite Hchip. by apply bool_decide_eq_true_2. }
  destruct (update_miss kwargs self w p url chipcode Hreg Hurl Hchip Hval Hmiss)
    as (r & self' & w' & Hrun & _ & Hentry).
  rewrite Hresp in Hentry. cbn [rbind] in Hentry.
  rewrite Hstatus in Hentry. cbn [rbind] in Hentry.
  rewrite (build_entry_defaults p _ lat lon Hlat Hlon Halt Hpacc) in Hentry.
  rewrite Hpkt in Hentry.
  cbn [rbind] in Hentry. destruct Hentry as [-> Hcache].
  pose proof (position_aid_length _ _ _ _ _ Hpkt) as Hlen.
  exists self', w'. repeat split; try done.
  - rewrite take_app_length'; done.
  - rewrite drop_app_length'; done.
Qed.

End Entries.

(** C2, as stated, fails: after the miss served with [example_blob] the
    entry is 30 bytes long, and what follows its first 20 bytes is not the
    blob; what follows its first 28 bytes is. *)
Lemma position_aid_is_28_bytes_not_20 :
  (update position_request
     (fresh_manager, quiet_world (Some "2"%string) [] example_blob)).1 = Ok tt
  ∧ cache (update position_request
             (fresh_manager, quiet_world (Some "2"%string) [] example_blob)).2.1
    = Some example_entry
  ∧ length example_entry = 30%nat
  ∧ drop 20 example_entry ≠ example_blob
  ∧ drop 28 example_entry = example_blob.
Proof. repeat split; by vm_compute. Qed.

Lemma update_miss_stores_position_aid_then_blob_witness :
  ∃ self' w',
    update position_request
      (fresh_manager, quiet_world (Some "2"%string) [] example_blob)
    = (Ok tt, (self', w'))
    ∧ cache self' = Some (take 28 example_entry ++ example_blob)
    ∧ length (take 28 example_entry) = 28%nat
    ∧ take 28 (take 28 example_entry ++ example_blob) = take 28 example_entry
    ∧ drop 28 (take 28 example_entry ++ example_blob) = example_blob.
Proof.
  apply (update_miss_stores_position_aid_then_blob position_request
           fresh_manager (quiet_world (Some "2"%string) [] example_blob)
           (Params None None (Some 1%float) (Some 2%float) None None)
           (PStr "https://assistnow.services.u-blox.com/") (PStr "CHIP")
           1%float 2%float
           (HttpResponse 200 example_blob (Some registered_config))
           (take 28 example_entry));
    try (vm_compute; reflexivity).
  right. vm_compute. reflexivity.
Defined.

(** *** Requests without a position *)

Section NoPosition.
Context `{Runtime} `{UbxLib}.

(** a request that carries neither [lat] nor [lon] validates to
    parameters without a position *)
Lemma validate_params_no_position (v : option string)
    (config kwargs : gmap string pyval) (p : params) :
  kwargs !! "lat" = None ->
  kwargs !! "lon" = None ->
  validate_params v config kwargs = Ok p ->
  p_lat p = None ∧ p_lon p = None.
Proof.
  intros Hlat Hlon. unfold validate_params, dict_get.
  rewrite Hlat, Hlon. cbn [default validate_number rbind].
  destruct (match config !! "allowedData" with
            | Some (PStr s) => Ok (strip <$> split_comma s)
            | Some _ => Raise AttributeError
            | None => Raise (KeyError "allowedData")
            end) as [allowed|?|]; cbn [rbind]; [|done|done].
  destruct (validate_list _ allowed) as [data|?|]; cbn [rbind]; [|done|done].
  destruct (validate_list _ gnss_choices) as [gnss|?|]; cbn [rbind]; [|done|done].
  destruct (validate_number v _ (-1000) 50000) as [alt|?|];
    cbn [rbind]; [|done|done].
  destruct (validate_number v _ 0 6000000) as [pacc|?|];
    cbn [rbind]; [|done|done].
  by intros [= <-].
Qed.

(** C5: the configuration records a position and the derived
    [filteronpos = 1]; a request that is not empty and carries neither
    [lat] nor [lon] validates to parameters whose [lat] differs from the
    recorded one, so the cache is dropped and the service is asked exactly
    once. *)
Theorem update_without_position_invalidates
    (kwargs : gmap string pyval) (self : assistnow) (w : world) (p : params)
    (url chipcode : pyval) (lat lon : float) :
  config self !! "chipcode" = Some chipcode ->
  config self !! "serviceUrl" = Some url ->
  config self !! "filteronpos" = Some (PNum (NInt 1)) ->
  config self !! "lat" = Some (PNum (NFloat lat)) ->
  config self !! "lon" = Some (PNum (NFloat lon)) ->
  dict_truthy kwargs = true ->
  kwargs !! "lat" = None ->
  kwargs !! "lon" = None ->
  validate_params (global_v w) (config self) kwargs = Ok p ->
  let req := HttpGet url (params_items p ++ [("chipcode", chipcode)]) in
  has_position p = false
  ∧ py_eqb (dict_get (config self) "lat") (opt_float (p_lat p)) = false
  ∧ (merge_params (params_items p) (config self) false).2 = true
  ∧ ∃ r self' w',
      update kwargs (self, w) = (r, (self', w'))
      ∧ fetches (trace w') = fetches (trace w) ++ [Request req]
      ∧ match (let? resp := http w req in
               let? _ := check_status resp in
               build_entry p (content resp)) with
        | Ok entry => r = Ok tt ∧ cache self' = Some entry
        | Raise e => r = Raise e ∧ cache_truthy (cache self') = false
        | Diverge => r = Diverge ∧ cache_truthy (cache self') = false
        end.
Proof.
  intros Hchip Hurl _ Hlat Hlon Hfull Hnolat Hnolon Hval. cbv zeta.
  destruct (validate_params_no_position _ _ _ _ Hnolat Hnolon Hval)
    as [Hplat Hplon].
  assert (py_eqb (dict_get (config self) "lat") (opt_float (p_lat p)) = false)
    as Hdiff.
  { unfold dict_get. by rewrite Hlat, Hplat. }
  assert ((merge_params (params_items p) (config self) false).2 = true)
    as Hchanged.
  { apply merge_params_changed. exists "lat"%string, (opt_float (p_lat p)).
    split; [|done]. unfold params_items. rewrite !elem_of_app, !elem_of_cons.
    tauto. }
  assert (is_registered self = true) as Hreg.
  { unfold is_registered. rewrite Hchip. by apply bool_decide_eq_true_2. }
  split; [unfold has_position; by rewrite Hplat|].
  split; [done|]. split; [done|].
  apply update_miss; try done.
  - by rewrite Hfull.
  - by left.
Qed.

End NoPosition.

(** C5, as stated, fails: the empty request carries neither [lat] nor
    [lon], yet [update] then takes its parameters from the configuration,
    which records them; nothing differs, the cache is kept and the service
    is not asked.  The configuration is the one [position_request] left. *)
Lemma empty_request_reuses_recorded_position :
  config (update position_request
            (fresh_manager, quiet_world (Some "2"%string) [] example_blob)).2.1
  = recorded_config
  ∧ recorded_config !! "filteronpos" = Some (PNum (NInt 1))
  ∧ (∅ : gmap string pyval) !! "lat" = None
  ∧ (∅ : gmap string pyval) !! "lon" = None
  ∧ (update ∅ (cached_manager, cached_world)).1 = Ok tt
  ∧ fetches (trace (update ∅ (cached_manager, cached_world)).2.2) = []
  ∧ cache (update ∅ (cached_manager, cached_world)).2.1 = Some example_entry
  ∧ sent_packets (trace (update ∅ (cached_manager, cached_world)).2.2)
    = [take 28 example_entry; [xaa]; [xbb]].
Proof. repeat split; by vm_compute. Qed.

Lemma update_without_position_invalidates_witness :
  ∃ r self' w',
    update eph_request (cached_manager, cached_world) = (r, (self', w'))
    ∧ fetches (trace w')
      = [Request (HttpGet (PStr "https://assistnow.services.u-blox.com/")
                    [("data", PStr "eph"); ("gnss", PNone); ("lat", PNone);
                     ("lon", PNone); ("alt", PNone); ("pacc", PNone);
                     ("chipcode", PStr "CHIP")])]
    ∧ r = Ok tt ∧ cache self' = Some example_blob.
Proof.
  destruct (update_without_position_invalidates eph_request cached_manager
              cached_world
              (Params (Some "eph"%string) None None None None None)
              (PStr "https://assistnow.services.u-blox.com/") (PStr "CHIP")
              1%float 2%float)
    as (_ & _ & _ & r & self' & w' & Hrun & Hfetch & Hentry);
    try (vm_compute; reflexivity).
  exists r, self', w'. split; [done|]. split; [done|]. exact Hentry.
Defined.

(** * Further properties *)

(** ** Bytes and packed integers *)

Lemma Z_of_byte_of_Z (z : Z) : Z_of_byte (byte_of_Z z) = z mod 256.
Proof.
  unfold Z_of_byte, byte_of_Z.
  pose proof (Z.mod_pos_bound z 256 ltac:(lia)) as Hb.
  destruct (Byte.of_N (Z.to_N (z mod 256))) as [b|] eqn:Hb'.
  - apply Byte.to_of_N in Hb'. simpl. rewrite Hb'. lia.
  - apply Byte.of_N_None_iff in Hb'. lia.
Qed.

Lemma Z_of_byte_range (b : byte) : 0 <= Z_of_byte b < 256.
Proof. unfold Z_of_byte. pose proof (Byte.to_N_bounded b). lia. Qed.

Lemma unpack_I_le32 (z : Z) : unpack_I (le32 z) = z mod 2 ^ 32.
Proof.
  unfold unpack_I, le32. cbn [foldr].
  rewrite !Z_of_byte_of_Z, !Z.shiftr_div_pow2 by lia.
  change (2 ^ 8) with 256. change (2 ^ 16) with 65536.
  change (2 ^ 24) with 16777216. change (2 ^ 32) with 4294967296.
  Z.div_mod_to_equations. lia.
Qed.

Lemma unpack_i_le32 (z : Z) :
  - 2 ^ 31 <= z <= 2 ^ 31 - 1 -> unpack_i (le32 z) = z.
Proof.
  intros Hz. unfold unpack_i. rewrite unpack_I_le32.
  change (2 ^ 31) with 2147483648 in *. change (2 ^ 32) with 4294967296.
  destruct (Z.ltb_spec (z mod 4294967296) 2147483648);
    Z.div_mod_to_equations; lia.
Qed.

(** ** The position-aid encoder, in general *)

(** X1: [ubx_mga_ini_pos_llh] on any numbers whose scaled values truncate to
    the integers [lat], [lon], [alt], [acc].  When the first three fit a
    signed and the last an unsigned 32-bit field, the result is the frame of
    class 0x13, id 0x40 and length 20 whose payload is [01 00 00 00]
    followed by the four little-endian fields, and unpacking the fields
    gives the four integers back; otherwise [struct.pack_into] raises. *)
Theorem position_aid_fields
    (lat_deg lon_deg alt_m pacc_km : number) (lat lon alt acc : Z) :
  num_int (num_mul_int lat_deg (10 ^ 7)) = Ok lat ->
  num_int (num_mul_int lon_deg (10 ^ 7)) = Ok lon ->
  num_int (num_mul_int alt_m (10 ^ 2)) = Ok alt ->
  num_int (num_mul_int pacc_km (10 ^ 6)) = Ok acc ->
  let fits := (- 2 ^ 31 <= lat <= 2 ^ 31 - 1) ∧ (- 2 ^ 31 <= lon <= 2 ^ 31 - 1)
              ∧ (- 2 ^ 31 <= alt <= 2 ^ 31 - 1) ∧ (0 <= acc <= 2 ^ 32 - 1) in
  (fits ->
   let payload := [x01; x00; x00; x00]
                  ++ le32 lat ++ le32 lon ++ le32 alt ++ le32 acc in
   let ck := checksum ([x13; x40; x14; x00] ++ payload) in
   ubx_mga_ini_pos_llh lat_deg lon_deg alt_m pacc_km
   = Ok ([xb5; x62; x13; x40; x14; x00] ++ payload ++ [ck.1; ck.2])
   ∧ unpack_i (slice 4 8 payload) = lat
   ∧ unpack_i (slice 8 12 payload) = lon
   ∧ unpack_i (slice 12 16 payload) = alt
   ∧ unpack_I (slice 16 20 payload) = acc)
  ∧ (¬ fits ->
     ubx_mga_ini_pos_llh lat_deg lon_deg alt_m pacc_km = Raise StructError).
Proof.
  intros Hlat Hlon Halt Hacc fits.
  unfold ubx_mga_ini_pos_llh. rewrite Hlat, Hlon, Halt, Hacc. cbn [rbind].
  unfold pack_3iI, pack_i, pack_I. subst fits. split.
  - intros (H1 & H2 & H3 & H4).
    rewrite !(proj2 (andb_true_iff _ _)); cbn [rbind];
      try (split; apply Z.leb_le; lia).
    cbv zeta. split.
    + unfold make_pkt. rewrite length_inserts. cbn [replicate length list_insert].
      change (65535 <? Z.of_nat 20) with false. cbv iota.
      change (byte_of_Z (Z.of_nat 20)) with x14.
      change (byte_of_Z (Z.of_nat 20 / 256)) with x00.
      unfold le32. cbn [app list_inserts replicate list_insert].
      by destruct (checksum _).
    + unfold slice, le32. cbn [app drop take Nat.sub].
      fold (le32 lat). fold (le32 lon). fold (le32 alt). fold (le32 acc).
      rewrite !unpack_i_le32, unpack_I_le32 by lia.
      repeat split; try done. apply Z.mod_small. lia.
  - intros Hnot.
    destruct ((- 2 ^ 31 <=? lat) && (lat <=? 2 ^ 31 - 1)) eqn:E1; cbn [rbind]; [|done].
    destruct ((- 2 ^ 31 <=? lon) && (lon <=? 2 ^ 31 - 1)) eqn:E2; cbn [rbind]; [|done].
    destruct ((- 2 ^ 31 <=? alt) && (alt <=? 2 ^ 31 - 1)) eqn:E3; cbn [rbind]; [|done].
    destruct ((0 <=? acc) && (acc <=? 2 ^ 32 - 1)) eqn:E4; cbn [rbind]; [|done].
    exfalso. apply Hnot.
    apply andb_true_iff in E1 as [?%Z.leb_le ?%Z.leb_le].
    apply andb_true_iff in E2 as [?%Z.leb_le ?%Z.leb_le].
    apply andb_true_iff in E3 as [?%Z.leb_le ?%Z.leb_le].
    apply andb_true_iff in E4 as [?%Z.leb_le ?%Z.leb_le].
    lia.
Qed.

Lemma position_aid_fields_witness :
  ∃ pkt, ubx_mga_ini_pos_llh (NFloat 52) (NFloat float_4_3) (NInt 10) (NInt 5)
         = Ok pkt
         ∧ length pkt = 28%nat.
Proof.
  destruct (position_aid_fields (NFloat 52) (NFloat float_4_3) (NInt 10) (NInt 5)
              520000000 43000000 1000 5000000) as [Hfits _];
    try (vm_compute; reflexivity).
  destruct Hfits as [Henc _]; [lia|].
  eexists. split; [exact Henc|reflexivity].
Defined.

(** ** The two encoders *)

Lemma float_eqb_zero (f : float) :
  PrimFloat.eqb f 0 = true -> f = 0%float ∨ f = (-0)%float.
Proof.
  rewrite FloatAxioms.eqb_spec. unfold SFeqb.
  rewrite <- (SF2Prim_Prim2SF f) at 2 3.
  change (Prim2SF 0) with (S754_zero false).
  destruct (Prim2SF f) as [[]|[]| |[] ? ?]; cbn; try done; auto.
Qed.

(** X2: the position-aid block of gpsd-assistnow.py builds what
    [ubx_mga_ini_pos_llh] builds from the same values, one that is missing
    left to the default of the signature, unless [pacc] is zero:
    [params["pacc"] or 300] then takes the default of 300 km, where the
    method encodes the zero it is given.  A zero [alt] makes no
    difference, [or 0] giving zero again. *)
Theorem encoders_agree_unless_pacc_is_zero
    (lat lon : float) (alt pacc : option float) :
  assistnow_initial_position lat lon alt pacc
  = ubx_mga_ini_pos_llh (NFloat lat) (NFloat lon)
      (default default_alt_m (NFloat <$> alt))
      (match pacc with
       | Some f => if PrimFloat.eqb f 0 then default_pacc_km else NFloat f
       | None => default_pacc_km
       end)
  ∧ assistnow_initial_position 1 2 None (Some 0%float)
    ≠ ubx_mga_ini_pos_llh (NFloat 1) (NFloat 2) default_alt_m (NFloat 0).
Proof.
  split; [|by vm_compute].
  unfold assistnow_initial_position, ubx_mga_ini_pos_llh.
  assert (num_int (num_mul_int (float_or alt 0) (10 ^ 2))
          = num_int (num_mul_int (default default_alt_m (NFloat <$> alt)) (10 ^ 2)))
    as ->.
  { destruct alt as [f|]; [|done]. unfold float_or.
    cbn [truthy fmap option_fmap option_map default].
    destruct (PrimFloat.eqb f 0) eqn:Hzero; [|done]. cbn [negb].
    destruct (float_eqb_zero f Hzero) as [-> | ->]; by vm_compute. }
  assert (float_or pacc 300
          = match pacc with
            | Some f => if PrimFloat.eqb f 0 then default_pacc_km else NFloat f
            | None => default_pacc_km
            end) as ->.
  { destruct pacc as [f|]; [|done]. unfold float_or. cbn [truthy].
    by destruct (PrimFloat.eqb f 0). }
  reflexivity.
Qed.

(** ** The validators *)

Lemma in_range_finite (lo hi : Z) (f : float) :
  Z_le_float lo f && float_le_Z f hi = true ->
  float_finite f = true
  ∧ ∃ n m, float_floor f = Some n ∧ float_ceil f = Some m ∧ lo <= n ∧ m <= hi.
Proof.
  unfold Z_le_float, float_le_Z, float_finite, float_floor, float_ceil.
  destruct (Prim2SF f) as [s|[]| |s m e]; try done.
  - intros [Hlo Hhi]%andb_true_iff. split; [done|]. exists 0, 0.
    repeat split; by apply Z.leb_le.
  - intros [Hlo Hhi]%andb_true_iff. split; [done|]. eexists _, _.
    repeat split; by apply Z.leb_le.
Qed.

Section Validators.
Context `{Runtime}.

Lemma validate_number_ok_inv
    (v : option string) (value : pyval) (min_value max_value : Z)
    (r : option float) :
  validate_number v value min_value max_value = Ok r ->
  match r with
  | None => value = PNone
  | Some f =>
      py_float value = Ok f
      ∧ float_finite f = true
      ∧ ∃ n m, float_floor f = Some n ∧ float_ceil f = Some m
               ∧ min_value <= n ∧ m <= max_value
  end.
Proof.
  unfold validate_number.
  destruct value as [|s|n|l]; [by intros [= <-]|..].
  all: destruct (py_float _) as [f|e|] eqn:Hf; [|by destruct e|done].
  all: destruct (Z_le_float min_value f && float_le_Z f max_value) eqn:Hin;
    [|done].
  all: intros [= <-]; split; [done|]; by apply in_range_finite.
Qed.

(** X3: what [validate_number] lets through.  [None] stays [None]; any
    other value is returned as the float [float()] makes of it, and only
    when that float is finite and lies between the bounds: NaN and the
    infinities are always refused.  Conversely every such float is let
    through, whatever the global [v]. *)
Theorem validate_number_accepts
    (v : option string) (value : pyval) (min_value max_value : Z) :
  (∀ r, validate_number v value min_value max_value = Ok r ->
        match r with
        | None => value = PNone
        | Some f =>
            py_float value = Ok f
            ∧ float_finite f = true
            ∧ ∃ n m, float_floor f = Some n ∧ float_ceil f = Some m
                     ∧ min_value <= n ∧ m <= max_value
        end)
  ∧ validate_number v PNone min_value max_value = Ok None
  ∧ (∀ f, value ≠ PNone -> py_float value = Ok f ->
          Z_le_float min_value f && float_le_Z f max_value = true ->
          validate_number v value min_value max_value = Ok (Some f)).
Proof.
  split; [|split; [done|]].
  - intros r. apply validate_number_ok_inv.
  - intros f Hv Hf Hin. unfold validate_number.
    destruct value; [done|..]; by rewrite Hf, Hin.
Qed.

Lemma check_choices_ok (values choices : list string) :
  Forall (λ v, v ∈ choices) values -> check_choices values choices = Ok tt.
Proof.
  induction 1 as [|v values Hv _ IH]; [done|].
  cbn [check_choices]. unfold str_in. by rewrite bool_decide_eq_true_2.
Qed.

Lemma check_choices_first (good rest choices : list string) (v : string) :
  Forall (λ v, v ∈ choices) good -> v ∉ choices ->
  check_choices (good ++ v :: rest) choices = Raise (unknown_value v choices).
Proof.
  intros Hgood Hv. induction Hgood as [|g good Hg _ IH].
  - cbn [app check_choices]. unfold str_in. by rewrite bool_decide_eq_false_2.
  - cbn [app check_choices]. unfold str_in. by rewrite bool_decide_eq_true_2.
Qed.

(** X4: [validate_list] on a true value with items [items].  If every item
    is one of the choices the result is the items joined by commas, blanks
    around them gone; otherwise the error names the first item that is not
    a choice, and the choices.  A false value ([None], the empty string, an
    empty list, zero) gives [None] whatever the choices. *)
Theorem validate_list_items
    (values : pyval) (choices items : list string) :
  (truthy values = false -> validate_list values choices = Ok None)
  ∧ (truthy values = true -> list_items values = Some items ->
     (Forall (λ v, v ∈ choices) items ->
      validate_list values choices = Ok (Some (join "," items)))
     ∧ (∀ good v rest,
          items = good ++ v :: rest ->
          Forall (λ v, v ∈ choices) good -> v ∉ choices ->
          validate_list values choices = Raise (unknown_value v choices))).
Proof.
  split.
  - intros Hfalse. unfold validate_list. by rewrite Hfalse.
  - intros Htrue Hitems. unfold validate_list. rewrite Htrue.
    assert (match values with
            | PStr s => Ok (strip <$> split_comma s)
            | PList l => Ok l
            | _ => Raise TypeError
            end = Ok items) as ->.
    { destruct values; try done; by injection Hitems as ->. }
    cbn [rbind]. split.
    + intros Hall. by rewrite check_choices_ok.
    + intros good v rest -> Hgood Hv. by rewrite check_choices_first.
Qed.

End Validators.

Lemma validate_list_items_witness :
  validate_list (PStr " gps, glo ") gnss_choices = Ok (Some "gps,glo"%string)
  ∧ validate_list (PStr "gps,xyz,abc") gnss_choices
    = Raise (unknown_value "xyz" gnss_choices).
Proof.
  split.
  - apply (validate_list_items (PStr " gps, glo ") gnss_choices
             ["gps"; "glo"]%string); [reflexivity|reflexivity|].
    repeat constructor.
  - destruct (validate_list_items (PStr "gps,xyz,abc") gnss_choices
                ["gps"; "xyz"; "abc"]%string) as [_ Htrue].
    destruct (Htrue eq_refl eq_refl) as [_ Hbad].
    apply (Hbad ["gps"]%string "xyz"%string ["abc"]%string); [reflexivity| |].
    + repeat constructor.
    + unfold gnss_choices. rewrite !elem_of_cons, elem_of_nil.
      intros Hin. repeat destruct Hin as [Hin|Hin]; done.
Defined.

(** ** Frames and the decoder of section 4.1 *)

Lemma is_frame_length (m_cls m_id : byte) (frame : bytes) :
  is_frame m_cls m_id frame -> (8 <= length frame)%nat.
Proof.
  intros (l0 & l1 & payload & a & b & -> & _).
  cbn [app length]. rewrite length_app. cbn. lia.
Qed.

(** a complete frame at the head of a buffer is consumed whole *)
Lemma decode_frame (m_cls m_id : byte) (frame rest : bytes) :
  is_frame m_cls m_id frame ->
  consumed (decode (frame ++ rest)) = Z.of_nat (length frame).
Proof.
  intros (l0 & l1 & payload & a & b & -> & Hlen).
  cbn [app decode]. rewrite !bool_decide_eq_true_2 by done. cbn [negb].
  rewrite <- Hlen.
  destruct (Z.ltb_spec (Z.of_nat (length ((payload ++ [a; b]) ++ rest)))
              (Z.of_nat (length payload) + 2)) as [Hlt|_].
  - rewrite !length_app in Hlt. cbn in Hlt. lia.
  - cbn [consumed length]. rewrite !length_app. cbn [length]. lia.
Qed.

(** a frame still missing some of its bytes is not consumed *)
Lemma decode_incomplete (m_cls m_id : byte) (frame data more : bytes) :
  is_frame m_cls m_id frame ->
  data ++ more = frame -> more ≠ [] ->
  consumed (decode data) = 0.
Proof.
  intros (l0 & l1 & payload & a & b & -> & Hlen) Hsplit Hmore.
  destruct data as [|d0 data]; [done|].
  cbn [app] in Hsplit. injection Hsplit as -> Hsplit.
  cbn [decode]. rewrite bool_decide_eq_true_2 by done. cbn [negb].
  destruct data as [|d1 data]; [done|].
  cbn [app] in Hsplit. injection Hsplit as -> Hsplit.
  rewrite bool_decide_eq_true_2 by done. cbn [negb].
  destruct data as [|d2 [|d3 [|d4 [|d5 tail]]]]; try done.
  cbn [app] in Hsplit. injection Hsplit as -> -> -> -> Htail.
  assert (length tail + length more = length payload + 2)%nat as Hl.
  { rewrite <- length_app, Htail, length_app. cbn. lia. }
  assert (0 < length more)%nat by (destruct more; [done|cbn; lia]).
  rewrite <- Hlen.
  destruct (Z.ltb_spec (Z.of_nat (length tail)) (Z.of_nat (length payload) + 2));
    [done|lia].
Qed.

Lemma py_take_all (data rest : bytes) :
  py_take (Z.of_nat (length data)) (data ++ rest) = data.
Proof.
  unfold py_take. destruct (Z.ltb_spec (Z.of_nat (length data)) 0); [lia|].
  rewrite Nat2Z.id. by rewrite take_app_length.
Qed.

Lemma py_drop_all (data rest : bytes) :
  py_drop (Z.of_nat (length data)) (data ++ rest) = rest.
Proof.
  unfold py_drop. destruct (Z.ltb_spec (Z.of_nat (length data)) 0); [lia|].
  rewrite Nat2Z.id. by rewrite drop_app_length.
Qed.

(** ** [wait_for], further *)

Section Silence.
Context `{UbxLib}.

Lemma wait_for_loop_silent (expected : bytes) (polls : list (option bytes)) :
  Forall (λ chunk, default [] chunk = []) polls ->
  length expected = 4%nat ->
  wait_for_loop expected polls [] = [].
Proof.
  intros Hsilent Hexp. induction Hsilent as [|chunk polls Hchunk _ IH]; [done|].
  cbn [wait_for_loop app]. rewrite Hchunk. unfold decode_msg.
  assert (∀ n, py_take n ([] : bytes) = []) as Htake.
  { intros n. unfold py_take. destruct (n <? 0); by rewrite take_nil. }
  assert (∀ n, py_drop n ([] : bytes) = []) as Hdrop.
  { intros n. unfold py_drop. destruct (n <? 0); by rewrite drop_nil. }
  rewrite Htake, Hdrop. rewrite bool_decide_eq_false_2; [done|].
  intros Heq. by rewrite <- Heq in Hexp.
Qed.

(** X5: when the receiver sends nothing before the deadline, every poll
    finding nothing waiting or reading an empty chunk, [wait_for] returns
    the empty string, whatever the decoder does. *)
Theorem wait_for_silent_receiver (m_cls m_id : byte) (w : world) :
  Forall (λ chunk, default [] chunk = []) (default [] (head (rx w))) ->
  wait_for m_cls m_id w = (Ok [], set_rx (tail (rx w)) w).
Proof.
  intros Hsilent. unfold wait_for, bind, get, modify, ret.
  by rewrite wait_for_loop_silent.
Qed.

End Silence.

Lemma wait_for_silent_receiver_witness :
  wait_for x0a x04 (quiet_world None [[None; Some []; None]] [])
  = (Ok [], quiet_world None [] []).
Proof.
  apply (wait_for_silent_receiver x0a x04
           (quiet_world None [[None; Some []; None]] [])).
  repeat constructor.
Defined.

Lemma wait_for_loop_reassembles (m_cls m_id : byte) (frame : bytes)
    (later : list (option bytes)) :
  is_frame m_cls m_id frame ->
  ∀ (polls : list (option bytes)) (data : bytes),
    data ++ concat (default [] <$> polls) = frame ->
    data ≠ frame ->
    @wait_for_loop spec_ubx [xb5; x62; m_cls; m_id] (polls ++ later) data = frame.
Proof.
  intros Hframe. induction polls as [|chunk polls IH]; intros data Hcat Hne.
  { cbn in Hcat. rewrite app_nil_r in Hcat. done. }
  cbn [fmap list_fmap concat] in Hcat. rewrite app_assoc in Hcat.
  cbn [app wait_for_loop]. unfold decode_msg. cbn [ubx_decode_msg spec_ubx].
  destruct (decide (concat (default [] <$> polls) = [])) as [Hdone|Hmore].
  - rewrite Hdone, app_nil_r in Hcat. rewrite Hcat.
    pose proof (decode_frame m_cls m_id frame [] Hframe) as Hall.
    pose proof (py_take_all frame []) as Htake.
    rewrite app_nil_r in Hall, Htake. rewrite Hall, Htake.
    destruct Hframe as (l0 & l1 & payload & a & b & -> & _).
    by rewrite bool_decide_eq_true_2.
  - rewrite (decode_incomplete m_cls m_id frame _ _ Hframe Hcat Hmore).
    change (py_take 0 ?d) with (take 0 d). change (py_drop 0 ?d) with (drop 0 d).
    rewrite take_0, drop_0. rewrite bool_decide_eq_false_2 by done.
    apply IH; [done|]. intros Heq. rewrite Heq in Hcat.
    apply Hmore. by apply (app_inv_head frame); rewrite app_nil_r.
Qed.

(** X6: with the decoder of section 4.1, [wait_for] puts a frame together
    again however the transport cut it: if the chunks read by the first
    polls, one after the other, make up one complete frame of the requested
    class and id, that frame is returned, whatever the later polls would
    have read. *)
Theorem wait_for_reassembles (m_cls m_id : byte) (frame : bytes)
    (polls later : list (option bytes)) (w : world) :
  is_frame m_cls m_id frame ->
  head (rx w) = Some (polls ++ later) ->
  concat (default [] <$> polls) = frame ->
  @wait_for spec_ubx m_cls m_id w = (Ok frame, set_rx (tail (rx w)) w).
Proof.
  intros Hframe Hrx Hcat. unfold wait_for, bind, get, modify, ret.
  rewrite Hrx. change (default [] (Some (polls ++ later))) with (polls ++ later).
  rewrite (wait_for_loop_reassembles m_cls m_id frame later Hframe polls []);
    [done|done|].
  intros Heq. apply is_frame_length in Hframe. rewrite <- Heq in Hframe.
  cbn in Hframe. lia.
Qed.

Lemma wait_for_reassembles_witness :
  wait_for x0a x04
    (quiet_world None
       [[Some [xb5]; None; Some [x62; x0a; x04; x00]; Some [x00; x0e; x34];
         Some [xff]]] [])
  = (Ok mon_ver_poll, quiet_world None [] []).
Proof.
  apply (wait_for_reassembles x0a x04 mon_ver_poll
           [Some [xb5]; None; Some [x62; x0a; x04; x00]; Some [x00; x0e; x34]]
           [Some [xff]]
           (quiet_world None
              [[Some [xb5]; None; Some [x62; x0a; x04; x00]; Some [x00; x0e; x34];
                Some [xff]]] []));
    [|reflexivity|reflexivity].
  by exists x00, x00, [], x0e, x34.
Defined.

(** ** [send_data], further *)

Section ForwardingExact.
Context `{UbxLib}.

Lemma send_data_loop_exact (fuel : nat) :
  ∀ (data : bytes) (w : world),
    (length data <= fuel)%nat ->
    ∃ chunks rest,
      send_data_loop fuel data w = (Ok tt, sends chunks w)
      ∧ concat chunks ++ rest = data
      ∧ Forall (λ chunk, chunk ≠ []) chunks
      ∧ (rest = [] ∨ ubx_decode_msg rest <= 0).
Proof.
  induction fuel as [|fuel IH]; intros data w Hlen.
  - destruct data; [|simpl in Hlen; lia].
    exists [], []. cbn. rewrite sends_nil. auto.
  - destruct data as [|b data].
    { exists [], []. cbn. rewrite sends_nil. auto. }
    cbn [send_data_loop]. unfold decode_msg.
    set (n := ubx_decode_msg (b :: data)).
    destruct (Z.geb_spec 0 n) as [Hle|Hgt].
    + exists [], (b :: data). rewrite sends_nil. auto.
    + destruct (IH (py_drop n (b :: data)) (log (Sent (py_take n (b :: data))) w))
        as (chunks & rest & Hrun & Hcat & Hne & Hstop).
      { pose proof (py_drop_shrinks n (b :: data)) as Hs.
        simpl in Hlen. simpl in Hs. specialize (Hs ltac:(lia) ltac:(done)). lia. }
      exists (py_take n (b :: data) :: chunks), rest. repeat split.
      * unfold bind, gps_send_raw, modify. rewrite Hrun. by rewrite sends_log.
      * cbn [concat]. rewrite <- app_assoc, Hcat. apply py_take_drop.
      * constructor; [|done]. unfold py_take.
        destruct (Z.ltb_spec n 0); [lia|].
        destruct (Z.to_nat n) eqn:Hn; [lia|]. done.
      * done.
Qed.

(** X7: [send_data] writes its input to the receiver as it is and in
    order, cut into non-empty pieces, one write per piece; it stops at the
    end of the input or where the decoder consumes nothing, and the bytes
    from there on are not written.  Nothing is added, dropped in between or
    looked at: whatever the decoder consumed goes out. *)
Theorem send_data_forwards_consumed (data : bytes) (w : world) :
  ∃ chunks rest,
    send_data data w = (Ok tt, sends chunks w)
    ∧ concat chunks ++ rest = data
    ∧ Forall (λ chunk, chunk ≠ []) chunks
    ∧ (rest = [] ∨ ubx_decode_msg rest <= 0).
Proof. apply send_data_loop_exact. done. Qed.

End ForwardingExact.

Lemma send_data_loop_frames (frames : list bytes) :
  Forall (λ frame, ∃ m_cls m_id, is_frame m_cls m_id frame) frames ->
  ∀ (fuel : nat) (w : world),
    (length (concat frames) <= fuel)%nat ->
    @send_data_loop spec_ubx fuel (concat frames) w = (Ok tt, sends frames w).
Proof.
  induction 1 as [|frame frames (m_cls & m_id & Hframe) _ IH]; intros fuel w Hfuel.
  { destruct fuel; cbn; by rewrite sends_nil. }
  pose proof (is_frame_length _ _ _ Hframe) as Hlen.
  cbn [concat] in *. rewrite length_app in Hfuel.
  destruct fuel as [|fuel]; [lia|].
  destruct (frame ++ concat frames) as [|b data] eqn:Hdata.
  { apply (f_equal length) in Hdata. rewrite length_app in Hdata.
    cbn in Hdata. lia. }
  cbn [send_data_loop]. rewrite <- Hdata. unfold decode_msg.
  cbn [ubx_decode_msg spec_ubx].
  rewrite (decode_frame m_cls m_id frame _ Hframe), py_take_all, py_drop_all.
  destruct (Z.geb_spec 0 (Z.of_nat (length frame))) as [|_]; [lia|].
  unfold bind, gps_send_raw, modify. rewrite IH by lia. by rewrite sends_log.
Qed.

(** X8: with the decoder of section 4.1, [send_data] forwards a stream of
    complete frames whole and frame by frame, one write for each, whether
    or not the checksum bytes of a frame are right. *)
Theorem send_data_forwards_frames (frames : list bytes) (w : world) :
  Forall (λ frame, ∃ m_cls m_id, is_frame m_cls m_id frame) frames ->
  @send_data spec_ubx (concat frames) w = (Ok tt, sends frames w).
Proof. intros Hframes. by apply send_data_loop_frames. Qed.

Lemma send_data_forwards_frames_witness :
  send_data (mon_ver_poll ++ corrupted_mon_ver) (quiet_world None [] [])
  = (Ok tt, sends [mon_ver_poll; corrupted_mon_ver] (quiet_world None [] [])).
Proof.
  apply (send_data_forwards_frames [mon_ver_poll; corrupted_mon_ver]
           (quiet_world None [] [])).
  repeat constructor.
  - exists x0a, x04. by exists x00, x00, [], x0e, x34.
  - exists x0a, x04. by exists x00, x00, [], x00, x00.
Defined.

(** ** The comparison loop of [update], further *)

Lemma float_eqb_refl (f : float) :
  float_finite f = true -> PrimFloat.eqb f f = true.
Proof.
  unfold float_finite. rewrite FloatAxioms.eqb_spec. unfold SFeqb.
  destruct (Prim2SF f) as [s|s| |s m e]; try done. intros _.
  cbn [SFcompare]. rewrite Z.compare_refl, Pos.compare_cont_refl.
  by destruct s.
Qed.

(** after the loop the configuration holds every item *)
Lemma merge_params_holds (items : list (string * pyval)) :
  NoDup items.*1 ->
  (∀ k v, (k, v) ∈ items -> py_eqb v v = true) ->
  ∀ (config : gmap string pyval) (changed : bool) k v,
    (k, v) ∈ items ->
    py_eqb (dict_get (merge_params items config changed).1 k) v = true.
Proof.
  induction items as [|[k0 v0] items IH]; intros Hnodup Hrefl config changed k v Hin.
  { by apply elem_of_nil in Hin. }
  cbn [fmap list_fmap fst] in Hnodup. apply NoDup_cons in Hnodup as [Hk0 Hnodup].
  cbn [merge_params].
  apply elem_of_cons in Hin as [[= -> ->]|Hin].
  - assert (∀ c ch, dict_get (merge_params items c ch).1 k0 = dict_get c k0)
      as Hget.
    { intros c ch. unfold dict_get. by rewrite merge_params_lookup_other. }
    destruct (py_eqb (dict_get config k0) v0) eqn:Hhead; cbn [negb];
      rewrite Hget; [done|].
    unfold dict_get. rewrite lookup_insert_eq. cbn.
    apply (Hrefl k0). apply list_elem_of_here.
  - destruct (negb _); apply IH; try done.
    all: intros k' v' Hin'; apply (Hrefl k'); by apply list_elem_of_further.
Qed.

(** X9: the loop at lines 187-191.  It reports a change exactly when some
    item of [params] differs from what the configuration holds; it leaves
    every key that is not an item's key as it was; and, the items having
    distinct keys and values equal to themselves, the configuration it
    leaves holds a value equal to [v] under every item [(k, v)]. *)
Theorem merge_params_spec
    (items : list (string * pyval)) (config : gmap string pyval) :
  ((merge_params items config false).2 = true
   ↔ ∃ k v, (k, v) ∈ items ∧ py_eqb (dict_get config k) v = false)
  ∧ (∀ k, k ∉ items.*1 ->
          (merge_params items config false).1 !! k = config !! k)
  ∧ (NoDup items.*1 ->
     (∀ k v, (k, v) ∈ items -> py_eqb v v = true) ->
     ∀ k v, (k, v) ∈ items ->
            py_eqb (dict_get (merge_params items config false).1 k) v = true).
Proof.
  split; [|split].
  - split; [|apply merge_params_changed].
    intros Hchanged.
    destruct (decide (Forall (λ kv, py_eqb (dict_get config kv.1) kv.2 = true)
                             items)) as [Hall|Hsome].
    + rewrite merge_params_unchanged in Hchanged; [done|].
      intros k v Hin. by apply (proj1 (Forall_forall _ _) Hall (k, v)).
    + apply not_Forall_Exists in Hsome; [|apply _].
      apply Exists_exists in Hsome as ([k v] & Hin & Hne).
      exists k, v. split; [done|]. by apply not_true_is_false.
  - intros k Hk. by apply merge_params_lookup_other.
  - intros Hnodup Hrefl k v Hin. by apply merge_params_holds.
Qed.

(** ** What [update] leaves alone *)

Lemma same_env_refl (w : world) : same_env w w.
Proof. by unfold same_env. Qed.

Lemma same_env_trans (w1 w2 w3 : world) :
  same_env w1 w2 -> same_env w2 w3 -> same_env w1 w3.
Proof. unfold same_env. intros (-> & -> & -> & ->) (-> & -> & -> & ->). done. Qed.

Lemma same_env_sends (chunks : list bytes) (w : world) : same_env w (sends chunks w).
Proof. by unfold same_env. Qed.

Lemma same_env_saved (c : gmap string pyval) (w : world) : same_env w (saved c w).
Proof. unfold same_env, saved. by destruct (dict_truthy c). Qed.

Lemma same_env_stored (data : bytes) (w : world) : same_env w (stored data w).
Proof. unfold same_env, stored. by destruct data. Qed.

Lemma same_env_log (e : event) (w : world) : same_env w (log e w).
Proof. by unfold same_env. Qed.

Section Frame.
Context `{Runtime} `{UbxLib}.

Lemma fetch_inv (p : params) (self self' : assistnow) (w w' : world)
    (r : result unit) :
  fetch p (self, w) = (r, (self', w')) ->
  config self' = config self
  ∧ cache_duration self' = cache_duration self
  ∧ same_env w w'
  ∧ config_file w' = config_file w.
Proof.
  unfold fetch. unfold bind at 1. cbn [get_self fst].
  unfold bind at 1, lift at 1, subscript at 1.
  destruct (config self !! "serviceUrl") as [url|];
    [|intros [= <- <- <-]; by auto using same_env_refl].
  unfold bind at 1, lift at 1, subscript at 1.
  destruct (config self !! "chipcode") as [chipcode|];
    [|intros [= <- <- <-]; by auto using same_env_refl].
  unfold bind at 1, on_world at 1, do_request, bind, modify, get, lift.
  cbn [fst snd http log].
  destruct (http w _) as [resp|e|]; cbn [rbind];
    [|intros [= <- <- <-]; by auto using same_env_log..].
  destruct (check_status resp) as [[]|e|]; cbn [rbind];
    [|intros [= <- <- <-]; by auto using same_env_log..].
  destruct (build_entry p (content resp)) as [data|e|];
    [|intros [= <- <- <-]; by auto using same_env_log..].
  unfold set_cache, save_cache, bind, modify, get_self, on_world, ret.
  cbn [fst snd cache config cache_duration].
  destruct data; intros [= <- <- <-]; by auto using same_env_log.
Qed.

Lemma forward_cache_inv (self self' : assistnow) (w w' : world)
    (r : result unit) :
  forward_cache (self, w) = (r, (self', w')) ->
  self' = self ∧ same_env w w' ∧ config_file w' = config_file w
  ∧ cache_file w' = cache_file w.
Proof.
  unfold forward_cache, bind, get_self. cbn [fst].
  destruct (cache self) as [data|].
  - destruct (send_data_spec data w) as (chunks & Hrun & _).
    unfold on_world. cbn [snd fst]. rewrite Hrun.
    intros [= <- <- <-]. by auto using same_env_sends.
  - intros [= <- <- <-]. by auto using same_env_refl.
Qed.

Lemma update_inv
    (kwargs : gmap string pyval) (self self' : assistnow) (w w' : world)
    (r : result unit) :
  update kwargs (self, w) = (r, (self', w')) ->
  cache_duration self' = cache_duration self
  ∧ (∀ k, k ∉ tracked_keys -> config self' !! k = config self !! k)
  ∧ is_registered self' = is_registered self
  ∧ same_env w w'.
Proof.
  intros Hrun.
  enough (cache_duration self' = cache_duration self
          ∧ (∀ k, k ∉ tracked_keys -> config self' !! k = config self !! k)
          ∧ same_env w w') as (Hd & Hk & He).
  { split; [done|]. split; [done|]. split; [|done].
    unfold is_registered. rewrite Hk; [done|].
    unfold tracked_keys. rewrite !elem_of_cons, elem_of_nil.
    intros Hin. repeat destruct Hin as [Hin|Hin]; done. }
  destruct (is_registered self) eqn:Hreg.
  2:{ unfold update, bind in Hrun. cbn [get_self fst] in Hrun.
      rewrite Hreg in Hrun. cbn [negb] in Hrun.
      injection Hrun as <- <- <-. by auto using same_env_refl. }
  destruct (validate_params (global_v w) (config self)
              (if dict_truthy kwargs then kwargs else config self))
    as [p|e|] eqn:Hval.
  2,3: unfold update, bind in Hrun; cbn [get_self fst] in Hrun;
       rewrite Hreg in Hrun; cbn [negb] in Hrun;
       unfold on_world, get, lift in Hrun; cbn [fst snd] in Hrun;
       rewrite Hval in Hrun; injection Hrun as <- <- <-;
       by auto using same_env_refl.
  rewrite (update_run kwargs self w p Hreg Hval) in Hrun.
  set (merged := merge_params (params_items p) (config self) false) in *.
  fold (saved merged.1 w) in Hrun.
  set (self1 := AssistNow _ _ _) in Hrun.
  set (w1 := if merged.2 && dict_truthy merged.1
             then log (WroteConfig merged.1) (set_config_file merged.1 w)
             else w) in Hrun.
  assert (same_env w w1) as He1.
  { subst w1. destruct (_ && _); [by unfold same_env|apply same_env_refl]. }
  assert (∀ k, k ∉ tracked_keys -> config self1 !! k = config self !! k) as Hk1.
  { intros k Hk. subst self1 merged. cbn [config].
    apply merge_params_lookup_other. intros Hin. apply Hk.
    by apply (params_items_keys p). }
  unfold bind at 1 in Hrun.
  destruct ((if negb (cache_truthy (cache self1)) then fetch p else ret tt)
              (self1, w1)) as [r2 [self2 w2]] eqn:Hfetch.
  assert (config self2 = config self1 ∧ cache_duration self2 = cache_duration self1
          ∧ same_env w1 w2) as (Hc2 & Hd2 & He2).
  { destruct (negb _).
    - apply fetch_inv in Hfetch. tauto.
    - injection Hfetch as <- <- <-. by auto using same_env_refl. }
  destruct r2 as [[]|e|].
  - apply forward_cache_inv in Hrun as (-> & He3 & _).
    rewrite Hc2, Hd2. split; [done|]. split; [done|].
    by eauto using same_env_trans.
  - injection Hrun as <- <- <-. rewrite Hc2, Hd2. split; [done|]. split; [done|].
    by eauto using same_env_trans.
  - injection Hrun as <- <- <-. rewrite Hc2, Hd2. split; [done|]. split; [done|].
    by eauto using same_env_trans.
Qed.

(** X10: whatever its outcome, [update] leaves the validity window and
    every configuration key other than the seven tracked ones as they
    were (the chipcode, the service URL and the allowed data among them),
    so a registered device stays registered; and of the world it changes
    only the trace and the two files. *)
Theorem update_keeps_identity
    (kwargs : gmap string pyval) (self : assistnow) (w : world) :
  let after := (update kwargs (self, w)).2 in
  cache_duration after.1 = cache_duration self
  ∧ (∀ k, k ∉ tracked_keys -> config after.1 !! k = config self !! k)
  ∧ is_registered after.1 = is_registered self
  ∧ same_env w after.2.
Proof.
  destruct (update kwargs (self, w)) as [r [self' w']] eqn:Hrun.
  cbn [fst snd]. by apply (update_inv kwargs self self' w w' r).
Qed.

(** *** The same request again *)

Lemma validate_params_allowed (v : option string)
    (config1 config2 kwargs : gmap string pyval) :
  config1 !! "allowedData" = config2 !! "allowedData" ->
  validate_params v config1 kwargs = validate_params v config2 kwargs.
Proof. intros Heq. unfold validate_params. by rewrite Heq. Qed.

Lemma validate_params_self_equal (v : option string)
    (config kwargs : gmap string pyval) (p : params) :
  validate_params v config kwargs = Ok p ->
  ∀ k x, (k, x) ∈ params_items p -> py_eqb x x = true.
Proof.
  unfold validate_params.
  destruct (match config !! "allowedData" with
            | Some (PStr s) => Ok (strip <$> split_comma s)
            | Some _ => Raise AttributeError
            | None => Raise (KeyError "allowedData")
            end) as [allowed|?|]; cbn [rbind]; [|done|done].
  destruct (validate_list _ allowed) as [data|?|]; cbn [rbind]; [|done|done].
  destruct (validate_list _ gnss_choices) as [gnss|?|]; cbn [rbind]; [|done|done].
  destruct (validate_number v _ (-90) 90) as [lat|?|] eqn:Hlat;
    cbn [rbind]; [|done|done].
  destruct (validate_number v _ (-180) 180) as [lon|?|] eqn:Hlon;
    cbn [rbind]; [|done|done].
  destruct (validate_number v _ (-1000) 50000) as [alt|?|] eqn:Halt;
    cbn [rbind]; [|done|done].
  destruct (validate_number v _ 0 6000000) as [pacc|?|] eqn:Hpacc;
    cbn [rbind]; [|done|done].
  intros [= <-] k x Hin.
  assert (∀ value lo hi o, validate_number v value lo hi = Ok o ->
                           py_eqb (opt_float o) (opt_float o) = true) as Hnum.
  { intros value lo hi o Ho.
    apply validate_number_ok_inv in Ho.
    destruct o as [f|]; [|done]. cbn. apply float_eqb_refl. tauto. }
  assert (∀ o, py_eqb (opt_str o) (opt_str o) = true) as Hstr.
  { intros [s|]; [|done]. cbn. apply String.eqb_refl. }
  unfold params_items in Hin. cbn [p_data p_gnss p_lat p_lon p_alt p_pacc] in Hin.
  apply elem_of_app in Hin as [Hin|Hin].
  - repeat (apply elem_of_cons in Hin as [[= -> ->]|Hin]; [by eauto|]).
    by apply elem_of_nil in Hin.
  - destruct (has_position _); [|by apply elem_of_nil in Hin].
    apply elem_of_cons in Hin as [[= -> ->]|Hin]; [done|].
    by apply elem_of_nil in Hin.
Qed.

Lemma params_items_NoDup (p : params) : NoDup (params_items p).*1.
Proof.
  unfold params_items. destruct (has_position p); cbn.
  all: repeat (apply NoDup_cons; split;
               [rewrite ?elem_of_cons, elem_of_nil; intros Hin;
                repeat destruct Hin as [Hin|Hin]; done|]).
  all: apply NoDup_nil_2.
Qed.

(** X11: an update that returned normally with a non-empty entry, asked
    again with the same request (one that is not empty), is a hit: the
    service is not asked, neither manager nor files change, and what is
    written to the receiver is [send_data] of the stored entry. *)
Theorem update_again_is_a_hit
    (kwargs : gmap string pyval) (self self' : assistnow) (w w' : world) :
  dict_truthy kwargs = true ->
  update kwargs (self, w) = (Ok tt, (self', w')) ->
  cache_truthy (cache self') = true ->
  ∃ chunks data,
    cache self' = Some data
    ∧ update kwargs (self', w') = (Ok tt, (self', sends chunks w'))
    ∧ send_data data w' = (Ok tt, sends chunks w').
Proof.
  intros Hfull Hrun Htruthy.
  destruct (update_inv _ _ _ _ _ _ Hrun) as (_ & Hkeys & Hreg' & Henv).
  destruct (is_registered self) eqn:Hreg.
  2:{ unfold update, bind in Hrun. cbn [get_self fst] in Hrun.
      rewrite Hreg in Hrun. done. }
  destruct (validate_params (global_v w) (config self) kwargs) as [p|e|] eqn:Hval.
  2,3: unfold update, bind in Hrun; cbn [get_self fst] in Hrun;
       rewrite Hreg, Hfull in Hrun; cbn [negb] in Hrun;
       unfold on_world, get, lift in Hrun; cbn [fst snd] in Hrun;
       by rewrite Hval in Hrun.
  assert (config self' = (merge_params (params_items p) (config self) false).1)
    as Hconfig.
  { pose proof Hrun as Hrun1.
    rewrite (update_run kwargs self w p Hreg) in Hrun1 by (by rewrite Hfull).
    unfold bind at 1 in Hrun1.
    match type of Hrun1 with
    | context [(if ?c then fetch p else ret tt) ?s] =>
        destruct ((if c then fetch p else ret tt) s) as [r2 [self2 w2]] eqn:Hfetch;
        assert (config self2 = config s.1) as Hc2
    end.
    { destruct (negb _).
      - apply fetch_inv in Hfetch. tauto.
      - by injection Hfetch as <- <- <-. }
    destruct r2 as [[]|e|]; [|done|done].
    apply forward_cache_inv in Hrun1 as (-> & _). by rewrite Hc2. }
  assert (validate_params (global_v w') (config self') kwargs = Ok p) as Hval'.
  { destruct Henv as (_ & -> & _). rewrite <- Hval.
    apply validate_params_allowed. apply Hkeys.
    unfold tracked_keys. rewrite !elem_of_cons, elem_of_nil.
    intros Hin. repeat destruct Hin as [Hin|Hin]; done. }
  assert (merge_params (params_items p) (config self') false = (config self', false))
    as Hsame.
  { apply merge_params_unchanged. rewrite Hconfig.
    intros k v Hin. apply merge_params_holds; [| |done].
    - apply params_items_NoDup.
    - by apply (validate_params_self_equal _ _ _ _ Hval). }
  destruct (cache self') as [data|] eqn:Hcache; [|done].
  destruct (forward_cache_run self' w' data Hcache) as (chunks & Hfwd & Hsend & _).
  exists chunks, data. split; [done|]. split; [|done].
  rewrite (update_run kwargs self' w' p) by (by rewrite ?Hfull, ?Hreg').
  rewrite Hsame. cbn [fst snd andb].
  replace (AssistNow (cache_duration self') (config self') (cache self'))
    with self' by (by destruct self').
  rewrite Hcache, Htruthy. cbn [negb]. unfold bind at 1, ret at 1. exact Hfwd.
Qed.

End Frame.

Lemma update_again_is_a_hit_witness :
  let first := update position_request
                 (fresh_manager, quiet_world (Some "2"%string) [] example_blob) in
  ∃ chunks data,
    cache first.2.1 = Some data
    ∧ update position_request (first.2.1, first.2.2)
      = (Ok tt, (first.2.1, sends chunks first.2.2))
    ∧ send_data data first.2.2 = (Ok tt, sends chunks first.2.2).
Proof.
  cbv zeta.
  apply (update_again_is_a_hit position_request fresh_manager
           (update position_request
              (fresh_manager, quiet_world (Some "2"%string) [] example_blob)).2.1
           (quiet_world (Some "2"%string) [] example_blob)
           (update position_request
              (fresh_manager, quiet_world (Some "2"%string) [] example_blob)).2.2);
    vm_compute; reflexivity.
Defined.

(** ** The validity window, further *)

Lemma SFcompare_Lt_swap (x y : spec_float) :
  SFcompare y x = Some Lt -> SFcompare x y = Some Gt.
Proof.
  destruct x as [sx|sx| |sx mx ex], y as [sy|sy| |sy my ey]; cbn;
    try done; try (destruct sx; done); try (destruct sy; done);
    try (destruct sx, sy; done).
  rewrite (Z.compare_antisym ey ex).
  pose proof (Pos.compare_cont_antisym mx my Eq) as Hanti.
  cbn [CompOpp] in Hanti. rewrite <- Hanti.
  destruct sx, sy; try done;
    destruct (ey ?= ex); cbn [CompOpp]; try done;
    destruct (Pos.compare_cont Eq mx my); done.
Qed.

(** [load_cache] ignores a cache file older than the window. *)
Lemma load_cache_stale (hours : option float) (st_mtime : float) (data : bytes)
    (w : world) :
  cache_file w = Some (st_mtime, data) ->
  (∀ h, hours = Some h ->
        PrimFloat.ltb (PrimFloat.mul h (Z_to_float 3600))
                      (PrimFloat.sub (now w) st_mtime) = true) ->
  load_cache hours w = None.
Proof.
  intros Hfile Hage. unfold load_cache. rewrite Hfile.
  destruct hours as [h|]; [|done]. specialize (Hage h eq_refl).
  rewrite ltb_spec in Hage. rewrite leb_spec. unfold SFltb in Hage. unfold SFleb.
  destruct (SFcompare (Prim2SF (PrimFloat.mul h (Z_to_float 3600))) _)
    as [[]|] eqn:Hcmp; try done.
  by rewrite (SFcompare_Lt_swap _ _ Hcmp).
Qed.

Section Expiry.
Context `{Runtime} `{UbxLib}.

(** X12: a manager constructed over a cache file older than the window
    holds no cache, and its first update asks the service exactly once even
    when every parameter of the request equals what the configuration
    records. *)
Theorem update_after_expiry
    (device duration : pyval) (kwargs : gmap string pyval)
    (w : world) (self : assistnow) (st_mtime : float) (data : bytes)
    (p : params) (url chipcode : pyval) :
  init device duration w = (Ok self, w) ->
  cache_file w = Some (st_mtime, data) ->
  (∀ hours, cache_duration self = Some hours ->
            PrimFloat.ltb (PrimFloat.mul hours (Z_to_float 3600))
                          (PrimFloat.sub (now w) st_mtime) = true) ->
  config self !! "chipcode" = Some chipcode ->
  config self !! "serviceUrl" = Some url ->
  validate_params (global_v w) (config self)
    (if dict_truthy kwargs then kwargs else config self) = Ok p ->
  let req := HttpGet url (params_items p ++ [("chipcode", chipcode)]) in
  cache self = None
  ∧ ∃ r self' w',
      update kwargs (self, w) = (r, (self', w'))
      ∧ fetches (trace w') = fetches (trace w) ++ [Request req]
      ∧ match (let? resp := http w req in
               let? _ := check_status resp in
               build_entry p (content resp)) with
        | Ok entry => r = Ok tt ∧ cache self' = Some entry
        | Raise e => r = Raise e ∧ cache_truthy (cache self') = false
        | Diverge => r = Diverge ∧ cache_truthy (cache self') = false
        end.
Proof.
  intros Hinit Hfile Hage Hchip Hurl Hval. cbv zeta.
  assert (cache self = None) as Hcache.
  { apply init_inv in Hinit as [_ Hself]. rewrite Hself. cbn [cache].
    by apply (load_cache_stale _ st_mtime data). }
  split; [done|].
  apply update_miss; try done.
  - unfold is_registered. rewrite Hchip. by apply bool_decide_eq_true_2.
  - right. by rewrite Hcache.
Qed.

Lemma dict_truthy_lookup (d : gmap string pyval) (k : string) (x : pyval) :
  d !! k = Some x -> dict_truthy d = true.
Proof.
  intros Hk. unfold dict_truthy. rewrite bool_decide_eq_false_2; [done|].
  intros Hsize. apply map_size_empty_iff in Hsize. by rewrite Hsize in Hk.
Qed.

(** the run of [update] when the parameters changed and the fetch fails *)
Lemma update_failed_fetch_run
    (kwargs : gmap string pyval) (self : assistnow) (w : world) (p : params)
    (url chipcode : pyval) (e : exc) :
  config self !! "chipcode" = Some chipcode ->
  config self !! "serviceUrl" = Some url ->
  validate_params (global_v w) (config self)
    (if dict_truthy kwargs then kwargs else config self) = Ok p ->
  let merged := merge_params (params_items p) (config self) false in
  let req := HttpGet url (params_items p ++ [("chipcode", chipcode)]) in
  merged.2 = true ->
  (let? resp := http w req in
   let? _ := check_status resp in
   build_entry p (content resp)) = Raise e ->
  let w' := log (Request req) (log (WroteConfig merged.1)
                                   (set_config_file merged.1 w)) in
  update kwargs (self, w)
  = (Raise e, (AssistNow (cache_duration self) merged.1 None, w'))
  ∧ config_file w' = Some merged.1
  ∧ cache_file w' = cache_file w.
Proof.
  intros Hchip Hurl Hval merged req Hchanged Hfail w'.
  assert (is_registered self = true) as Hreg.
  { unfold is_registered. rewrite Hchip. by apply bool_decide_eq_true_2. }
  assert (∀ k, k ∉ tracked_keys -> merged.1 !! k = config self !! k) as Hkeep.
  { intros k Hk. subst merged. apply merge_params_lookup_other.
    intros Hin. apply Hk. by apply (params_items_keys p). }
  assert (("chipcode" ∉ tracked_keys) ∧ ("serviceUrl" ∉ tracked_keys))
    as [Hk1 Hk2].
  { unfold tracked_keys. rewrite !elem_of_cons, !elem_of_nil.
    split; intros Hin; repeat destruct Hin as [Hin|Hin]; done. }
  assert (dict_truthy merged.1 = true) as Htruthy.
  { apply (dict_truthy_lookup _ "chipcode" chipcode). by rewrite Hkeep. }
  split; [|done].
  rewrite (update_run kwargs self w p Hreg Hval). fold merged.
  rewrite Hchanged, Htruthy. cbn [andb cache cache_truthy negb].
  unfold bind at 1.
  rewrite (fetch_run p _ _ url chipcode);
    [|cbn [config]; by rewrite Hkeep|cbn [config]; by rewrite Hkeep].
  cbn [http log set_config_file]. fold req. rewrite Hfail. done.
Qed.

(** X13: when the parameters changed and the fetch then fails (the
    service cannot be reached or answers an error status, or the call of
    the encoder raises), [update] raises with the new parameters already
    written to the configuration file, the manager's cache dropped, and the
    cache file untouched: it still holds the entry built for the old
    parameters. *)
Theorem failed_fetch_leaves_old_cache_file
    (kwargs : gmap string pyval) (self : assistnow) (w : world) (p : params)
    (url chipcode : pyval) (e : exc) :
  config self !! "chipcode" = Some chipcode ->
  config self !! "serviceUrl" = Some url ->
  validate_params (global_v w) (config self)
    (if dict_truthy kwargs then kwargs else config self) = Ok p ->
  let merged := merge_params (params_items p) (config self) false in
  let req := HttpGet url (params_items p ++ [("chipcode", chipcode)]) in
  merged.2 = true ->
  (let? resp := http w req in
   let? _ := check_status resp in
   build_entry p (content resp)) = Raise e ->
  let w' := log (Request req) (log (WroteConfig merged.1)
                                   (set_config_file merged.1 w)) in
  update kwargs (self, w)
  = (Raise e, (AssistNow (cache_duration self) merged.1 None, w'))
  ∧ config_file w' = Some merged.1
  ∧ cache_file w' = cache_file w.
Proof.
  intros Hchip Hurl Hval merged req Hchanged Hfail w'.
  by apply update_failed_fetch_run.
Qed.

Lemma update_hit (kwargs : gmap string pyval) (self : assistnow) (w : world)
    (p : params) (data : bytes) :
  is_registered self = true ->
  validate_params (global_v w) (config self)
    (if dict_truthy kwargs then kwargs else config self) = Ok p ->
  (∀ k v, (k, v) ∈ params_items p -> py_eqb (dict_get (config self) k) v = true) ->
  cache self = Some data ->
  data ≠ [] ->
  ∃ chunks,
    update kwargs (self, w) = (Ok tt, (self, sends chunks w))
    ∧ send_data data w = (Ok tt, sends chunks w).
Proof.
  intros Hreg Hval Hsame Hcache Hdata.
  rewrite (update_run kwargs self w p Hreg Hval).
  rewrite (merge_params_unchanged _ _ false Hsame). cbn [fst snd andb].
  replace (AssistNow (cache_duration self) (config self) (cache self))
    with self by (by destruct self).
  rewrite Hcache. destruct data as [|b data]; [done|].
  cbn [cache_truthy negb]. unfold bind at 1, ret at 1.
  destruct (forward_cache_run self w (b :: data) Hcache)
    as (chunks & Hrun & Hsend & _).
  by exists chunks.
Qed.

(** X14: after such a failure the next run serves the old entry for the
    new parameters.  A manager constructed over the files the failed
    update left, while the cache file is still younger than the window,
    asked for the same (non-empty) request, finds nothing changed: it does
    not ask the service and forwards the entry that was built for the
    parameters recorded before. *)
Theorem stale_entry_served_after_failed_fetch
    (device duration : pyval) (kwargs : gmap string pyval)
    (self self2 : assistnow) (w : world) (p : params)
    (url chipcode : pyval) (e : exc)
    (hours st_mtime : float) (old : bytes) :
  config self !! "chipcode" = Some chipcode ->
  config self !! "serviceUrl" = Some url ->
  dict_truthy kwargs = true ->
  validate_params (global_v w) (config self) kwargs = Ok p ->
  let merged := merge_params (params_items p) (config self) false in
  let req := HttpGet url (params_items p ++ [("chipcode", chipcode)]) in
  merged.2 = true ->
  (let? resp := http w req in
   let? _ := check_status resp in
   build_entry p (content resp)) = Raise e ->
  cache_file w = Some (st_mtime, old) ->
  old ≠ [] ->
  let w' := (update kwargs (self, w)).2.2 in
  init device duration w' = (Ok self2, w') ->
  cache_duration self2 = Some hours ->
  PrimFloat.ltb (PrimFloat.sub (now w') st_mtime)
                (PrimFloat.mul hours (Z_to_float 3600)) = true ->
  ∃ chunks,
    config self2 = merged.1
    ∧ cache self2 = Some old
    ∧ update kwargs (self2, w') = (Ok tt, (self2, sends chunks w'))
    ∧ send_data old w' = (Ok tt, sends chunks w')
    ∧ fetches (trace (sends chunks w')) = fetches (trace w').
Proof.
  intros Hchip Hurl Hfull Hval merged req Hchanged Hfail Hfile Hold w'
    Hinit Hhours Hage.
  destruct (update_failed_fetch_run kwargs self w p url chipcode e
              Hchip Hurl ltac:(by rewrite Hfull) Hchanged Hfail)
    as (Hrun & Hconfig & Hcache).
  assert (w' = log (Request req)
                 (log (WroteConfig merged.1) (set_config_file merged.1 w)))
    as Hw' by (subst w'; by rewrite Hrun).
  clearbody w'. subst w'.
  apply init_inv in Hinit as [_ Hself].
  assert (config self2 = merged.1) as Hc2.
  { rewrite Hself. cbn [config]. exact (f_equal (default ∅) Hconfig). }
  assert (cache self2 = Some old) as Hcache2.
  { rewrite Hself. cbn [cache]. rewrite Hhours.
    apply (load_cache_fresh hours st_mtime); [|done].
    exact (eq_trans Hcache Hfile). }
  assert (∀ k, k ∉ tracked_keys -> merged.1 !! k = config self !! k) as Hkeep.
  { intros k Hk. subst merged. apply merge_params_lookup_other.
    intros Hin. apply Hk. by apply (params_items_keys p). }
  assert (("chipcode" ∉ tracked_keys) ∧ ("allowedData" ∉ tracked_keys))
    as [Hk1 Hk2].
  { unfold tracked_keys. rewrite !elem_of_cons, !elem_of_nil.
    split; intros Hin; repeat destruct Hin as [Hin|Hin]; done. }
  destruct (update_hit kwargs self2
              (log (Request req)
                 (log (WroteConfig merged.1) (set_config_file merged.1 w)))
              p old) as (chunks & Hhit & Hsend); try done.
  - unfold is_registered. rewrite Hc2, Hkeep, Hchip by done.
    by apply bool_decide_eq_true_2.
  - rewrite Hfull, Hc2. cbn [global_v log set_config_file]. rewrite <- Hval.
    apply validate_params_allowed. by apply Hkeep.
  - rewrite Hc2.
    intros k v Hin. apply merge_params_holds; [| |done].
    + apply params_items_NoDup.
    + by apply (validate_params_self_equal _ _ _ _ Hval).
  - exists chunks. repeat split; try done. by rewrite fetches_sends.
Qed.

End Expiry.

Lemma update_after_expiry_witness :
  ∃ r self' w',
    update position_request (AssistNow (Some 3%float) recorded_config None,
                             expired_world) = (r, (self', w'))
    ∧ length (fetches (trace w')) = 1%nat.
Proof.
  destruct (update_after_expiry PNone default_cache_duration position_request
              expired_world (AssistNow (Some 3%float) recorded_config None)
              900%float example_entry
              (Params None None (Some 1%float) (Some 2%float) None None)
              (PStr "https://assistnow.services.u-blox.com/") (PStr "CHIP"))
    as (_ & r & self' & w' & Hrun & Hfetch & _);
    try (vm_compute; reflexivity).
  - intros hours [= <-]. vm_compute. reflexivity.
  - exists r, self', w'. split; [done|]. by rewrite Hfetch.
Defined.

Lemma failed_fetch_leaves_old_cache_file_witness :
  (update moved_request (cached_manager, unavailable_world)).1
  = Raise (HTTPError 503)
  ∧ cache_file (update moved_request (cached_manager, unavailable_world)).2.2
    = Some (900%float, example_entry)
  ∧ config_file (update moved_request (cached_manager, unavailable_world)).2.2
    = Some (<["lat" := PNum (NFloat 1.5)]> recorded_config).
Proof.
  destruct (failed_fetch_leaves_old_cache_file moved_request cached_manager
              unavailable_world
              (Params None None (Some 1.5%float) (Some 2%float) None None)
              (PStr "https://assistnow.services.u-blox.com/") (PStr "CHIP")
              (HTTPError 503))
    as (Hrun & Hconfig & Hcache); try (vm_compute; reflexivity).
  rewrite Hrun. cbn [fst snd]. split; [done|]. split; [exact Hcache|].
  rewrite Hconfig. vm_compute. reflexivity.
Defined.

Lemma stale_entry_served_after_failed_fetch_witness :
  let w' := (update moved_request (cached_manager, unavailable_world)).2.2 in
  let self2 := AssistNow (Some 3%float)
                 (<["lat" := PNum (NFloat 1.5)]> recorded_config)
                 (Some example_entry) in
  ∃ chunks,
    update moved_request (self2, w') = (Ok tt, (self2, sends chunks w'))
    ∧ send_data example_entry w' = (Ok tt, sends chunks w').
Proof.
  cbv zeta.
  destruct (stale_entry_served_after_failed_fetch PNone default_cache_duration
              moved_request cached_manager
              (AssistNow (Some 3%float)
                 (<["lat" := PNum (NFloat 1.5)]> recorded_config)
                 (Some example_entry))
              unavailable_world
              (Params None None (Some 1.5%float) (Some 2%float) None None)
              (PStr "https://assistnow.services.u-blox.com/") (PStr "CHIP")
              (HTTPError 503) 3%float 900%float example_entry)
    as (chunks & _ & _ & Hrun & Hsend & _); try (vm_compute; reflexivity).
  - by vm_compute.
  - exists chunks. split; [exact Hrun|exact Hsend].
Defined.

(** ** Registration, further *)

Lemma hex_upper_truthy (data : bytes) :
  truthy (PStr (hex_upper data)) = negb (bool_decide (data = [])).
Proof. by destruct data. Qed.

Lemma requests_app (t1 t2 : list event) :
  requests (t1 ++ t2) = requests t1 ++ requests t2.
Proof. apply filter_app. Qed.

Section RegisterOutcome.
Context `{Runtime} `{UbxLib}.

(** a poll and its wait touch the transport only *)
Lemma fetch_answer_inv (msg : string) (w w' : world) (r : result bytes) :
  fetch_answer msg w = (r, w') ->
  requests (trace w') = requests (trace w)
  ∧ config_file w' = config_file w
  ∧ cache_file w' = cache_file w
  ∧ http w' = http w.
Proof.
  unfold fetch_answer.
  destruct (ubx_commands !! msg) as [[|m_cls [|m_id m_data]]|];
    try (intros [= <- <-]; done).
  unfold gps_send, gps_send_raw, wait_for, bind, lift, modify, get, ret.
  destruct (make_pkt m_cls m_id m_data) as [pkt|e|];
    try (intros [= <- <-]; done).
  intros [= <- <-]. cbn. by rewrite requests_app, app_nil_r.
Qed.

(** X15: [register] on an unregistered device sends both polls and only
    then looks at the answers.  If either is empty it raises "Device did
    not answer": no request has been made (the token never leaves the
    machine), no file written, the manager unchanged.  If both are there
    and the service answers with a JSON object, that object becomes the
    configuration, whatever it holds, and is saved unless it is empty. *)
Theorem register_outcome
    (token : pyval) (self : assistnow) (w w1 w2 : world) (a1 a2 : bytes) :
  is_registered self = false ->
  fetch_answer "SEC-UNIQID" w = (Ok a1, w1) ->
  fetch_answer "MON-VER" w1 = (Ok a2, w2) ->
  let req := HttpPost "https://api.thingstream.io/ztp/assistnow/credentials"
               token (hex_upper a1) (hex_upper a2) in
  (a1 = [] ∨ a2 = [] ->
   register token (self, w)
   = (Raise (Exception "Device did not answer"), (self, w2))
   ∧ requests (trace w2) = requests (trace w)
   ∧ config_file w2 = config_file w)
  ∧ (a1 ≠ [] -> a2 ≠ [] ->
     ∀ resp c,
       http w2 req = Ok resp -> check_status resp = Ok tt -> json resp = Some c ->
       register token (self, w)
       = (Ok tt, (AssistNow (cache_duration self) c (cache self),
                  saved c (log (Request req) w2)))).
Proof.
  intros Hreg H1 H2 req.
  assert (∀ k : assistnow * world -> result unit * (assistnow * world),
            register token (self, w)
            = (if negb (truthy (PStr (hex_upper a1)))
                  || negb (truthy (PStr (hex_upper a2)))
               then (Raise (Exception "Device did not answer"), (self, w2))
               else (r <- on_world (do_request req) ;;
                     lift (check_status r) ;;
                     c <- lift (match json r with
                                | Some c => Ok c
                                | None => Raise JSONDecodeError
                                end) ;;
                     set_config c ;;
                     save_config) (self, w2))) as Hrun.
  { intros _. unfold register. unfold bind at 1. cbn [get_self fst].
    rewrite Hreg. unfold bind at 1. unfold on_world at 1. cbn [fst snd].
    rewrite H1. unfold bind at 1. unfold on_world at 1. cbn [fst snd].
    rewrite H2. by destruct (_ || _). }
  specialize (Hrun (λ s, (Ok tt, s))). rewrite !hex_upper_truthy in Hrun.
  split.
  - intros Hempty. split; [|split].
    + rewrite Hrun. destruct Hempty as [-> | ->]; cbn; [done|].
      by rewrite orb_true_r.
    + apply fetch_answer_inv in H1 as (E1 & _).
      apply fetch_answer_inv in H2 as (E2 & _). by rewrite E2, E1.
    + apply fetch_answer_inv in H1 as (_ & E1 & _).
      apply fetch_answer_inv in H2 as (_ & E2 & _). by rewrite E2, E1.
  - intros Ha1 Ha2 resp c Hresp Hstatus Hjson.
    rewrite Hrun, !bool_decide_eq_false_2 by done. cbn [negb orb].
    unfold bind at 1, on_world at 1, do_request, bind, modify, get, lift.
    cbn [fst snd http log]. fold req. rewrite Hresp, Hstatus, Hjson.
    unfold set_config, save_config, bind, modify, get_self, on_world, ret, saved.
    cbn [fst snd config cache cache_duration].
    by destruct (dict_truthy c).
Qed.

End RegisterOutcome.

Lemma register_outcome_witness :
  register (PStr "TOKEN")
    (unregistered_manager, registration_world [[]; [Some mon_ver_answer]])
  = (Raise (Exception "Device did not answer"),
     (unregistered_manager,
      sends [[xb5; x62; x27; x03; x00; x00; x2a; xa5]; mon_ver_poll]
        (registration_world [])))
  ∧ register (PStr "TOKEN")
      (unregistered_manager,
       registration_world [[Some uniqid_answer]; [Some mon_ver_answer]])
    = (Ok tt,
       (AssistNow (Some 3%float) registered_config None,
        saved registered_config
          (log (Request
                  (HttpPost "https://api.thingstream.io/ztp/assistnow/credentials"
                     (PStr "TOKEN") (hex_upper uniqid_answer)
                     (hex_upper mon_ver_answer)))
             (sends [[xb5; x62; x27; x03; x00; x00; x2a; xa5]; mon_ver_poll]
                (registration_world []))))).
Proof.
  split.
  - pose proof (register_outcome (PStr "TOKEN") unregistered_manager
                  (registration_world [[]; [Some mon_ver_answer]])
                  (sends [[xb5; x62; x27; x03; x00; x00; x2a; xa5]]
                     (registration_world [[Some mon_ver_answer]]))
                  (sends [[xb5; x62; x27; x03; x00; x00; x2a; xa5]; mon_ver_poll]
                     (registration_world []))
                  [] mon_ver_answer
                  ltac:(by vm_compute) ltac:(by vm_compute) ltac:(by vm_compute))
      as [Hnone _].
    exact (proj1 (Hnone (or_introl eq_refl))).
  - pose proof (register_outcome (PStr "TOKEN") unregistered_manager
                  (registration_world [[Some uniqid_answer]; [Some mon_ver_answer]])
                  (sends [[xb5; x62; x27; x03; x00; x00; x2a; xa5]]
                     (registration_world [[Some mon_ver_answer]]))
                  (sends [[xb5; x62; x27; x03; x00; x00; x2a; xa5]; mon_ver_poll]
                     (registration_world []))
                  uniqid_answer mon_ver_answer
                  ltac:(by vm_compute) ltac:(by vm_compute) ltac:(by vm_compute))
      as [_ Hboth].
    exact (Hboth ltac:(by vm_compute) ltac:(by vm_compute)
             (HttpResponse 200 [] (Some registered_config)) registered_config
             eq_refl eq_refl eq_refl).
Defined.

(** ** The main block *)

(** X16: the argument loop.  When every item has an [=], [kwargs] maps the
    key of the last item to its value, and the module global [v], the name
    the messages of [validate_number] read, is bound to that value, the
    text after the first [=] of the last item; with no items [v] keeps the
    binding it had. *)
Theorem parse_items_binds_last
    (items : list string) (kwargs kwargs' : gmap string pyval)
    (v v' : option string) :
  parse_items items kwargs v = (Some kwargs', v') ->
  (items = [] -> v' = v ∧ kwargs' = kwargs)
  ∧ (∀ item, last items = Some item ->
       ∃ k value, split_eq item = (k, Some value)
                  ∧ v' = Some value
                  ∧ kwargs' !! k = Some (PStr value)).
Proof.
  revert kwargs v. induction items as [|item items IH]; intros kwargs v Hparse.
  { cbn in Hparse. injection Hparse as <- <-. by split. }
  split; [done|]. intros final Hlast.
  cbn [parse_items] in Hparse.
  destruct (split_eq item) as [k [value|]] eqn:Hsplit; [|done].
  destruct items as [|item' items].
  - cbn in Hlast, Hparse. injection Hlast as <-. injection Hparse as <- <-.
    exists k, value. by rewrite lookup_insert_eq.
  - apply (IH _ _ Hparse). exact Hlast.
Qed.

Lemma parse_items_binds_last_witness :
  ∃ k value, split_eq "lon=5" = (k, Some value)
             ∧ Some "5"%string = Some value
             ∧ bad_lat_request !! k = Some (PStr value).
Proof.
  apply (parse_items_binds_last ["lat=95"; "lon=5"]%string ∅ bad_lat_request
           None (Some "5"%string));
    [by vm_compute|reflexivity].
Defined.

Section MainProps.
Context `{Runtime} `{UbxLib}.

Lemma main_register_not_done (token : pyval) (s : assistnow * world) :
  (main_register token s).1 = quit 1 ∨ (main_register token s).1 = Hung.
Proof.
  unfold main_register. destruct (register token s) as [[[]|e|] s']; cbn;
    auto.
  destruct (subscript (config s'.1) "chipcode"); cbn; auto.
Qed.

(** X17: how a run of the script can end with status 0.  Only one way:
    the arguments parsed, the constructor returned, the device was
    registered already, no argument was named [self], and [update]
    returned normally.  A run that goes
    through [register] never ends with 0, not even when the registration
    succeeded: [quit(0)] is called inside the [try], and the bare [except]
    catches the [SystemExit] and calls [quit(1)]. *)
Theorem main_exit_status_zero (argv : list string) (w : world) :
  (exit_status (main argv w).1 = Some 0 ->
   ∃ kwargs v self,
     parse_items argv ∅ (global_v w) = (Some kwargs, v)
     ∧ init (dict_get kwargs "device")
            (default default_cache_duration (kwargs !! "cache_duration"))
            (set_global_v v w) = (Ok self, set_global_v v w)
     ∧ is_registered self = true
     ∧ kwargs !! "self" = None
     ∧ (update kwargs (self, set_global_v v w)).1 = Ok tt)
  ∧ (∀ kwargs v self token,
       parse_items argv ∅ (global_v w) = (Some kwargs, v) ->
       init (dict_get kwargs "device")
            (default default_cache_duration (kwargs !! "cache_duration"))
            (set_global_v v w) = (Ok self, set_global_v v w) ->
       is_registered self = false ->
       kwargs !! "token" = Some token ->
       ((main argv w).1 = quit 1 ∨ (main argv w).1 = Hung)
       ∧ (main argv w).2 = (register token (self, set_global_v v w)).2.2).
Proof.
  split.
  - unfold main.
    destruct (parse_items argv ∅ (global_v w)) as [[kwargs|] v]; [|done].
    destruct (init _ _ _) as [[self|e|] w1] eqn:Hinit; [|done|done].
    pose proof (init_inv _ _ _ _ _ Hinit) as [-> _].
    destruct (is_registered self) eqn:Hreg; cbn [negb].
    + unfold main_update, call_update.
      destruct (kwargs !! "self") eqn:Hself; [done|].
      destruct (update kwargs (self, set_global_v v w)) as [r s'] eqn:Hrun.
      cbn [fst]. destruct r as [[]|e|]; [|done|done].
      intros _. exists kwargs, v, self. by rewrite Hrun.
    + destruct (kwargs !! "token") as [token|]; [|done].
      pose proof (main_register_not_done token (self, set_global_v v w)) as Hnot.
      destruct (main_register token (self, set_global_v v w)) as [f s'].
      cbn [fst] in Hnot. by destruct Hnot as [-> | ->].
  - intros kwargs v self token Hparse Hinit Hreg Htoken.
    unfold main. rewrite Hparse, Hinit, Hreg, Htoken. cbn [negb].
    pose proof (main_register_not_done token (self, set_global_v v w)) as Hnot.
    unfold main_register in *.
    destruct (register token (self, set_global_v v w)) as [r s'].
    cbn [fst snd] in *.
    destruct Hnot as [Hf | Hf]; rewrite Hf; cbn; auto.
Qed.

End MainProps.

Lemma main_exit_status_zero_witness :
  let w := registration_world [[Some uniqid_answer]; [Some mon_ver_answer]] in
  ((main ["token=TOKEN"]%string w).1 = quit 1
   ∨ (main ["token=TOKEN"]%string w).1 = Hung)
  ∧ (main ["token=TOKEN"]%string w).2
    = (register (PStr "TOKEN")
         (unregistered_manager, set_global_v (Some "TOKEN"%string) w)).2.2.
Proof.
  cbv zeta.
  apply (proj2 (main_exit_status_zero ["token=TOKEN"]%string
                  (registration_world
                     [[Some uniqid_answer]; [Some mon_ver_answer]]))
           {[ "token" := PStr "TOKEN" ]} (Some "TOKEN"%string)
           unregistered_manager (PStr "TOKEN"));
    by vm_compute.
Defined.

(** ** Validated lists, again *)

Lemma split_comma_comma_free (s : string) :
  Forall (λ x, comma_free x = true) (split_comma s).
Proof.
  induction s as [|c s IH]; cbn [split_comma]; [by repeat constructor|].
  destruct (Ascii.eqb c ",") eqn:Hc; [by constructor|].
  destruct (split_comma s) as [|h t].
  - repeat constructor. cbn. by rewrite Hc.
  - apply Forall_cons in IH as [Hh Ht]. constructor; [|done].
    cbn. by rewrite Hc, Hh.
Qed.

Lemma split_comma_free (s : string) :
  comma_free s = true -> split_comma s = [s].
Proof.
  induction s as [|c s IH]; [done|]. cbn.
  intros [Hc Hs]%andb_true_iff. apply negb_true_iff in Hc.
  by rewrite Hc, IH.
Qed.

Lemma split_comma_app (s t : string) :
  comma_free s = true ->
  split_comma (s +:+ "," +:+ t) = s :: split_comma t.
Proof.
  induction s as [|c s IH]; [done|]. cbn [comma_free].
  intros [Hc Hs]%andb_true_iff. apply negb_true_iff in Hc.
  change (String c s +:+ "," +:+ t) with (String c (s +:+ "," +:+ t)).
  cbn [split_comma]. by rewrite Hc, IH.
Qed.

Lemma split_comma_join (items : list string) :
  items ≠ [] ->
  Forall (λ x, comma_free x = true) items ->
  split_comma (join "," items) = items.
Proof.
  intros Hne Hfree. induction Hfree as [|s items Hs Hfree IH]; [done|].
  destruct items as [|s2 items].
  - cbn. by apply split_comma_free.
  - change (join "," (s :: s2 :: items))
      with (s +:+ "," +:+ join "," (s2 :: items)).
    rewrite split_comma_app by done. by rewrite IH.
Qed.

Lemma lstrip_lstripped (s : string) : lstripped (lstrip s) = true.
Proof.
  induction s as [|c s IH]; [done|]. cbn [lstrip].
  destruct (is_space c) eqn:Hc; [done|]. cbn. by rewrite Hc.
Qed.

Lemma lstrip_id (s : string) : lstripped s = true -> lstrip s = s.
Proof.
  destruct s as [|c s]; [done|]. cbn. intros Hc%negb_true_iff. by rewrite Hc.
Qed.

Lemma rstrip_lstripped (s : string) :
  lstripped s = true -> lstripped (rstrip s) = true.
Proof.
  destruct s as [|c s]; [done|]. cbn [lstripped rstrip].
  intros Hc. destruct (rstrip s); [|done].
  apply negb_true_iff in Hc. by rewrite Hc; cbn; rewrite Hc.
Qed.

Lemma rstrip_idempotent (s : string) : rstrip (rstrip s) = rstrip s.
Proof.
  induction s as [|c s IH]; [done|]. cbn [rstrip].
  destruct (rstrip s) as [|c' s'] eqn:Hs.
  - destruct (is_space c) eqn:Hc; [done|]. cbn. by rewrite Hc.
  - cbn [rstrip] in *. by rewrite IH.
Qed.

Lemma strip_idempotent (s : string) : strip (strip s) = strip s.
Proof.
  unfold strip.
  rewrite (lstrip_id (rstrip (lstrip s)))
    by apply rstrip_lstripped, lstrip_lstripped.
  apply rstrip_idempotent.
Qed.

Lemma lstrip_comma_free (s : string) :
  comma_free s = true -> comma_free (lstrip s) = true.
Proof.
  induction s as [|c s IH]; [done|]. cbn [lstrip].
  destruct (is_space c); [|done]. cbn. intros [_ Hs]%andb_true_iff. by apply IH.
Qed.

Lemma rstrip_comma_free (s : string) :
  comma_free s = true -> comma_free (rstrip s) = true.
Proof.
  induction s as [|c s IH]; [done|]. cbn [rstrip comma_free].
  intros [Hc Hs]%andb_true_iff. specialize (IH Hs).
  destruct (rstrip s).
  - destruct (is_space c); [done|]. cbn. by rewrite Hc.
  - cbn [comma_free] in *. by rewrite Hc, IH.
Qed.

Lemma strip_comma_free (s : string) :
  comma_free s = true -> comma_free (strip s) = true.
Proof. intros Hs. by apply rstrip_comma_free, lstrip_comma_free. Qed.

Section Idempotence.
Context `{Runtime}.

Lemma validate_list_str_again (s r : string) (choices : list string) :
  validate_list (PStr s) choices = Ok (Some r) ->
  r ≠ EmptyString ->
  validate_list (PStr r) choices = Ok (Some r).
Proof.
  intros Hvalid Hr. unfold validate_list in Hvalid.
  destruct (truthy (PStr s)); [|done]. cbn [rbind] in Hvalid.
  set (items := strip <$> split_comma s) in *.
  destruct (check_choices items choices) as [[]|e|] eqn:Hcheck; [|done|done].
  cbn [rbind] in Hvalid. injection Hvalid as <-.
  assert (items ≠ []) as Hne.
  { subst items. by destruct (split_comma s) eqn:Hs; [destruct s; cbn in Hs;
      repeat case_match|]. }
  assert (Forall (λ x, comma_free x = true) items) as Hfree.
  { subst items. apply Forall_fmap. eapply Forall_impl;
      [apply split_comma_comma_free|]. intros x. apply strip_comma_free. }
  assert (strip <$> items = items) as Hstripped.
  { subst items. rewrite <- list_fmap_compose. apply list_fmap_ext.
    intros _ x _. apply strip_idempotent. }
  unfold validate_list.
  assert (truthy (PStr (join "," items)) = true) as ->.
  { cbn. destruct (String.eqb_spec (join "," items) ""); [done|done]. }
  cbn [rbind]. rewrite split_comma_join, Hstripped by done.
  by rewrite Hcheck.
Qed.

(** X18: what [validate_list] returns for a [str] validates to itself: if
    [validate_list(s, choices)] is the non-empty string [r], then
    [validate_list(r, choices)] is [r] again.  (An empty result would
    validate to [None].) *)
Theorem validate_list_idempotent (s r : string) (choices : list string) :
  validate_list (PStr s) choices = Ok (Some r) ->
  r ≠ EmptyString ->
  validate_list (PStr r) choices = Ok (Some r).
Proof. apply validate_list_str_again. Qed.

End Idempotence.

Lemma validate_list_idempotent_witness :
  validate_list (PStr "gps,glo") gnss_choices = Ok (Some "gps,glo"%string).
Proof.
  apply (validate_list_idempotent " gps , glo" "gps,glo" gnss_choices);
    by vm_compute.
Defined.

(** ** The empty request *)

Lemma py_eqb_None (x : pyval) : py_eqb PNone x = true -> x = PNone.
Proof. by destruct x. Qed.

(** on a configuration that holds none of the items' keys the loop records
    every item as it is *)
Lemma merge_params_fresh (items : list (string * pyval)) :
  NoDup items.*1 ->
  ∀ (config : gmap string pyval) (changed : bool),
    (∀ k, k ∈ items.*1 -> config !! k = None) ->
    ∀ k v, (k, v) ∈ items ->
           dict_get (merge_params items config changed).1 k = v.
Proof.
  induction items as [|[k0 v0] items IH]; intros Hnodup config changed Hnone k v Hin.
  { by apply elem_of_nil in Hin. }
  cbn [fmap list_fmap fst] in Hnodup, Hnone.
  apply NoDup_cons in Hnodup as [Hk0 Hnodup].
  cbn [merge_params].
  assert (dict_get config k0 = PNone) as Hget.
  { unfold dict_get. rewrite Hnone; [done|]. apply list_elem_of_here. }
  apply elem_of_cons in Hin as [[= -> ->]|Hin].
  - destruct (py_eqb (dict_get config k0) v0) eqn:Hhead; cbn [negb];
      unfold dict_get; rewrite merge_params_lookup_other by done.
    + rewrite Hget in Hhead. apply py_eqb_None in Hhead as ->.
      fold (dict_get config k0). done.
    + by rewrite lookup_insert_eq.
  - destruct (negb _); apply IH; try done.
    + intros k' Hk'. rewrite lookup_insert_ne.
      * apply Hnone. by apply list_elem_of_further.
      * intros ->. done.
    + intros k' Hk'. apply Hnone. by apply list_elem_of_further.
Qed.

Section Refresh.
Context `{Runtime} `{UbxLib}.

Lemma validate_number_again (v : option string) (value : pyval)
    (min_value max_value : Z) (o : option float) :
  validate_number v value min_value max_value = Ok o ->
  validate_number v (opt_float o) min_value max_value = Ok o.
Proof.
  intros Hvalid. destruct o as [f|]; [|done].
  unfold validate_number in *. cbn [opt_float py_float].
  destruct value as [|s|n|l]; [done|..].
  all: destruct (py_float _) as [g|e|]; [|by destruct e|done].
  all: destruct (Z_le_float min_value g && float_le_Z g max_value) eqn:Hin;
    [|done].
  all: injection Hvalid as ->; by rewrite Hin.
Qed.

Lemma validate_list_again (values : pyval) (choices : list string)
    (o : option string) :
  validate_list values choices = Ok o ->
  (∀ l, values ≠ PList l) ->
  o ≠ Some EmptyString ->
  validate_list (opt_str o) choices = Ok o.
Proof.
  intros Hvalid Hlist Hempty. destruct o as [r|]; [|done].
  destruct values as [|s|n|l].
  - done.
  - apply (validate_list_str_again s); [done|]. by intros ->.
  - unfold validate_list in Hvalid. by destruct (truthy _).
  - by destruct (Hlist l).
Qed.

(** X19: the request with no items.  After the first update of a
    registered device (its configuration holding none of the tracked keys
    yet) has returned normally with a non-empty entry, an update with no
    arguments takes its parameters from the configuration, finds them all
    unchanged and is a hit: the service is not asked and the stored entry
    is forwarded.  The first request gave [data] and [gnss] as text, if at
    all, and not as empty lists of choices. *)
Theorem refresh_is_a_hit
    (kwargs : gmap string pyval) (self self' : assistnow) (w w' : world) :
  (∀ k, k ∈ tracked_keys -> config self !! k = None) ->
  (∀ l, kwargs !! "data" ≠ Some (PList l)) ->
  (∀ l, kwargs !! "gnss" ≠ Some (PList l)) ->
  update kwargs (self, w) = (Ok tt, (self', w')) ->
  cache_truthy (cache self') = true ->
  config self' !! "data" ≠ Some (PStr "") ->
  config self' !! "gnss" ≠ Some (PStr "") ->
  ∃ chunks data,
    cache self' = Some data
    ∧ update ∅ (self', w') = (Ok tt, (self', sends chunks w'))
    ∧ send_data data w' = (Ok tt, sends chunks w').
Proof.
  intros Hfresh Hdata Hgnss Hrun Htruthy Hd Hg.
  destruct (update_inv _ _ _ _ _ _ Hrun) as (_ & Hkeys & Hreg' & Henv).
  destruct (is_registered self) eqn:Hreg.
  2:{ unfold update, bind in Hrun. cbn [get_self fst] in Hrun.
      rewrite Hreg in Hrun. done. }
  set (kw := if dict_truthy kwargs then kwargs else config self).
  destruct (validate_params (global_v w) (config self) kw) as [p|e|] eqn:Hval.
  2,3: unfold update, bind in Hrun; cbn [get_self fst] in Hrun;
       rewrite Hreg in Hrun; cbn [negb] in Hrun;
       unfold on_world, get, lift in Hrun; cbn [fst snd] in Hrun;
       fold kw in Hrun; by rewrite Hval in Hrun.
  assert (config self' = (merge_params (params_items p) (config self) false).1)
    as Hconfig.
  { pose proof Hrun as Hrun1.
    rewrite (update_run kwargs self w p Hreg Hval) in Hrun1.
    unfold bind at 1 in Hrun1.
    match type of Hrun1 with
    | context [(if ?c then fetch p else ret tt) ?s] =>
        destruct ((if c then fetch p else ret tt) s) as [r2 [self2 w2]] eqn:Hfetch;
        assert (config self2 = config s.1) as Hc2
    end.
    { destruct (negb _).
      - apply fetch_inv in Hfetch. tauto.
      - by injection Hfetch as <- <- <-. }
    destruct r2 as [[]|e|]; [|done|done].
    apply forward_cache_inv in Hrun1 as (-> & _). by rewrite Hc2. }
  assert (∀ k x, (k, x) ∈ params_items p -> dict_get (config self') k = x)
    as Hrecorded.
  { rewrite Hconfig. apply merge_params_fresh; [apply params_items_NoDup|].
    intros k Hk. apply Hfresh. by apply (params_items_keys p). }
  assert (∀ k x, (k, x) ∈ [("data", opt_str (p_data p)); ("gnss", opt_str (p_gnss p));
                            ("lat", opt_float (p_lat p)); ("lon", opt_float (p_lon p));
                            ("alt", opt_float (p_alt p)); ("pacc", opt_float (p_pacc p))]
                 -> dict_get (config self') k = x) as Hsix.
  { intros k x Hin. apply Hrecorded. unfold params_items.
    apply elem_of_app. by left. }
  assert (dict_get (config self') "data" = opt_str (p_data p)) as Hrd
    by (apply Hsix; rewrite !elem_of_cons; tauto).
  assert (dict_get (config self') "gnss" = opt_str (p_gnss p)) as Hrg
    by (apply Hsix; rewrite !elem_of_cons; tauto).
  assert (dict_get (config self') "lat" = opt_float (p_lat p)) as Hrlat
    by (apply Hsix; rewrite !elem_of_cons; tauto).
  assert (dict_get (config self') "lon" = opt_float (p_lon p)) as Hrlon
    by (apply Hsix; rewrite !elem_of_cons; tauto).
  assert (dict_get (config self') "alt" = opt_float (p_alt p)) as Hralt
    by (apply Hsix; rewrite !elem_of_cons; tauto).
  assert (dict_get (config self') "pacc" = opt_float (p_pacc p)) as Hrpacc
    by (apply Hsix; rewrite !elem_of_cons; tauto).
  assert (∀ l, dict_get kw "data" ≠ PList l ∧ dict_get kw "gnss" ≠ PList l)
    as Hnolist.
  { intros l. subst kw. unfold dict_get. destruct (dict_truthy kwargs).
    - split; intros Heq.
      + destruct (kwargs !! "data") as [x|] eqn:E; [|done].
        cbn in Heq. subst x. by destruct (Hdata l).
      + destruct (kwargs !! "gnss") as [x|] eqn:E; [|done].
        cbn in Heq. subst x. by destruct (Hgnss l).
    - rewrite !Hfresh; [done|..]; unfold tracked_keys; rewrite !elem_of_cons;
        tauto. }
  assert (validate_params (global_v w') (config self') (config self') = Ok p)
    as Hval'.
  { destruct Henv as (_ & -> & _).
    assert (config self' !! "allowedData" = config self !! "allowedData") as Hallowed.
    { apply Hkeys. unfold tracked_keys. rewrite !elem_of_cons, elem_of_nil.
      intros Hin. repeat destruct Hin as [Hin|Hin]; done. }
    unfold validate_params in *. rewrite Hallowed.
    destruct (match config self !! "allowedData" with
              | Some (PStr s) => Ok (strip <$> split_comma s)
              | Some _ => Raise AttributeError
              | None => Raise (KeyError "allowedData")
              end) as [allowed|?|]; cbn [rbind] in *; [|done|done].
    destruct (validate_list (dict_get kw "data") allowed) as [data|?|] eqn:Edata;
      cbn [rbind] in Hval; [|done|done].
    destruct (validate_list (dict_get kw "gnss") gnss_choices) as [gnss|?|]
      eqn:Egnss; cbn [rbind] in Hval; [|done|done].
    destruct (validate_number _ (dict_get kw "lat") _ _) as [lat|?|] eqn:Elat;
      cbn [rbind] in Hval; [|done|done].
    destruct (validate_number _ (dict_get kw "lon") _ _) as [lon|?|] eqn:Elon;
      cbn [rbind] in Hval; [|done|done].
    destruct (validate_number _ (dict_get kw "alt") _ _) as [alt|?|] eqn:Ealt;
      cbn [rbind] in Hval; [|done|done].
    destruct (validate_number _ (dict_get kw "pacc") _ _) as [pacc|?|] eqn:Epacc;
      cbn [rbind] in Hval; [|done|done].
    injection Hval as <-.
    cbn [p_data p_gnss p_lat p_lon p_alt p_pacc] in *.
    rewrite Hrd, Hrg, Hrlat, Hrlon, Hralt, Hrpacc.
    rewrite (validate_list_again _ _ _ Edata), (validate_list_again _ _ _ Egnss).
    - cbn [rbind].
      rewrite (validate_number_again _ _ _ _ _ Elat),
        (validate_number_again _ _ _ _ _ Elon),
        (validate_number_again _ _ _ _ _ Ealt),
        (validate_number_again _ _ _ _ _ Epacc). done.
    - intros l. apply Hnolist.
    - intros ->. apply Hg. unfold dict_get in Hrg.
      destruct (config self' !! "gnss") as [x|]; [|done]. cbn in Hrg. by subst x.
    - intros l. apply Hnolist.
    - intros ->. apply Hd. unfold dict_get in Hrd.
      destruct (config self' !! "data") as [x|]; [|done]. cbn in Hrd. by subst x. }
  destruct (cache self') as [data|] eqn:Hcache; [|done].
  destruct (update_hit ∅ self' w' p data) as (chunks & Hhit & Hsend).
  - by rewrite Hreg'.
  - exact Hval'.
  - intros k x Hin. rewrite (Hrecorded k x Hin).
    by apply (validate_params_self_equal _ _ _ _ Hval k).
  - exact Hcache.
  - intros ->. done.
  - by exists chunks, data.
Qed.

End Refresh.

Lemma refresh_is_a_hit_witness :
  let first := update position_request
                 (fresh_manager, quiet_world (Some "2"%string) [] example_blob) in
  ∃ chunks data,
    cache first.2.1 = Some data
    ∧ update ∅ (first.2.1, first.2.2)
      = (Ok tt, (first.2.1, sends chunks first.2.2))
    ∧ send_data data first.2.2 = (Ok tt, sends chunks first.2.2).
Proof.
  cbv zeta.
  apply (refresh_is_a_hit position_request fresh_manager
           (update position_request
              (fresh_manager, quiet_world (Some "2"%string) [] example_blob)).2.1
           (quiet_world (Some "2"%string) [] example_blob)
           (update position_request
              (fresh_manager, quiet_world (Some "2"%string) [] example_blob)).2.2);
    try (vm_compute; reflexivity); try (by vm_compute).
  intros k Hk. unfold tracked_keys in Hk.
  repeat (apply elem_of_cons in Hk as [->|Hk]; [by vm_compute|]).
  by apply elem_of_nil in Hk.
Defined.

(** ** The two forwarding loops *)

Section Loops.
Context `{UbxLib}.

Lemma send2gps_loop_send_data_loop (fuel : nat) :
  ubx_decode_msg [] <= 0 ->
  ∀ (data : bytes) (w : world),
    (length data <= fuel)%nat ->
    send2gps_loop (S fuel) data w = send_data_loop fuel data w.
Proof.
  intros Hnil. induction fuel as [|fuel IH]; intros data w Hlen.
  - destruct data; [|simpl in Hlen; lia]. cbn.
    destruct (Z.geb_spec 0 (ubx_decode_msg [])); [done|lia].
  - destruct data as [|b data].
    { cbn. destruct (Z.geb_spec 0 (ubx_decode_msg [])); [done|lia]. }
    cbn [send2gps_loop send_data_loop]. unfold decode_msg.
    set (n := ubx_decode_msg (b :: data)).
    destruct (Z.geb_spec 0 n) as [|Hgt]; [done|].
    unfold bind, gps_send_raw, modify. apply IH.
    pose proof (py_drop_shrinks n (b :: data) ltac:(lia) ltac:(done)) as Hs.
    simpl in Hlen, Hs. lia.
Qed.

(** X20: [send2gps] of gpsd-assistnow.py and [UBlox.send_data] of
    assistnow.py forward the same bytes in the same pieces, for every
    decoder that consumes nothing from an empty buffer: the [while True]
    loop differs from the [while len(data)] loop only in asking the decoder
    once more at the end. *)
Theorem send2gps_is_send_data (data : bytes) (w : world) :
  ubx_decode_msg [] <= 0 ->
  send2gps data w = send_data data w.
Proof.
  intros Hnil. unfold send2gps, send_data.
  by apply send2gps_loop_send_data_loop.
Qed.

End Loops.

Lemma send2gps_is_send_data_witness :
  send2gps (mon_ver_poll ++ [xb5; x62]) (quiet_world None [] [])
  = send_data (mon_ver_poll ++ [xb5; x62]) (quiet_world None [] []).
Proof.
  apply (send2gps_is_send_data (mon_ver_poll ++ [xb5; x62])
           (quiet_world None [] [])).
  by vm_compute.
Defined.

(** ** From the request to the receiver *)

Lemma length_two_bytes (n : Z) :
  0 <= n <= 65535 ->
  Z_of_byte (byte_of_Z n) + 256 * Z_of_byte (byte_of_Z (n / 256)) = n.
Proof.
  intros Hn. rewrite !Z_of_byte_of_Z. Z.div_mod_to_equations. lia.
Qed.

Lemma make_pkt_is_frame (m_cls m_id : byte) (payload frame : bytes) :
  make_pkt m_cls m_id payload = Ok frame -> is_frame m_cls m_id frame.
Proof.
  unfold make_pkt.
  destruct (Z.ltb_spec 65535 (Z.of_nat (length payload))) as [|Hlen]; [done|].
  destruct (checksum _) as [ck_a ck_b]. intros [= <-].
  eexists _, _, payload, ck_a, ck_b. split; [reflexivity|].
  symmetry. apply length_two_bytes. lia.
Qed.

Lemma position_aid_is_frame (lat_deg lon_deg alt_m pacc_km : number)
    (pkt : bytes) :
  ubx_mga_ini_pos_llh lat_deg lon_deg alt_m pacc_km = Ok pkt ->
  is_frame x13 x40 pkt.
Proof.
  unfold ubx_mga_ini_pos_llh.
  repeat (destruct (num_int _) as [?|?|]; cbn [rbind]; [|done|done]).
  destruct (pack_3iI _ _ _ _) as [packed|?|]; cbn [rbind]; [|done|done].
  apply make_pkt_is_frame.
Qed.

Lemma sent_packets_app (t1 t2 : list event) :
  sent_packets (t1 ++ t2) = sent_packets t1 ++ sent_packets t2.
Proof. apply omap_app. Qed.

Lemma sent_packets_sent (chunks : list bytes) :
  sent_packets (Sent <$> chunks) = chunks.
Proof.
  induction chunks as [|c chunks IH]; [done|]. cbn. by rewrite <- IH at 2.
Qed.

Section EndToEnd.
Context `{Runtime}.

(** X21: from the request to the receiver, with the decoder of section
    4.1.  A miss whose validated parameters hold [lat] and [lon] and
    neither [alt] nor [pacc], served with a body made of complete frames, writes to the receiver the
    position-aid packet first, as one write, and then each frame of the
    body, one write per frame, and nothing else. *)
Theorem update_forwards_position_then_frames
    (kwargs : gmap string pyval) (self : assistnow) (w : world) (p : params)
    (url chipcode : pyval) (lat lon : float) (resp : http_response)
    (initial_position : bytes) (frames : list bytes) :
  config self !! "chipcode" = Some chipcode ->
  config self !! "serviceUrl" = Some url ->
  validate_params (global_v w) (config self)
    (if dict_truthy kwargs then kwargs else config self) = Ok p ->
  (merge_params (params_items p) (config self) false).2 = true
  ∨ cache_truthy (cache self) = false ->
  p_lat p = Some lat ->
  p_lon p = Some lon ->
  p_alt p = None ->
  p_pacc p = None ->
  http w (HttpGet url (params_items p ++ [("chipcode", chipcode)])) = Ok resp ->
  check_status resp = Ok tt ->
  ubx_mga_ini_pos_llh (NFloat lat) (NFloat lon) default_alt_m default_pacc_km
    = Ok initial_position ->
  content resp = concat frames ->
  Forall (λ frame, ∃ m_cls m_id, is_frame m_cls m_id frame) frames ->
  ∃ self' w',
    @update _ spec_ubx kwargs (self, w) = (Ok tt, (self', w'))
    ∧ cache self' = Some (concat (initial_position :: frames))
    ∧ sent_packets (trace w')
      = sent_packets (trace w) ++ initial_position :: frames.
Proof.
  intros Hchip Hurl Hval Hmiss Hlat Hlon Halt Hpacc Hresp Hstatus Hpkt Hbody
    Hframes.
  assert (is_registered self = true) as Hreg.
  { unfold is_registered. rewrite Hchip. by apply bool_decide_eq_true_2. }
  rewrite (update_run kwargs self w p Hreg Hval).
  set (merged := merge_params (params_items p) (config self) false) in *.
  set (self1 := AssistNow _ _ _).
  set (w1 := if merged.2 && dict_truthy merged.1
             then log (WroteConfig merged.1) (set_config_file merged.1 w)
             else w).
  assert (cache_truthy (cache self1) = false) as Hfalsy.
  { subst self1. cbn [cache]. destruct Hmiss as [->|Hnone]; [done|].
    by destruct (merged.2). }
  assert (sent_packets (trace w1) = sent_packets (trace w) ∧ http w1 = http w)
    as [Htrace Hhttp].
  { subst w1. destruct (_ && _); [|done]. cbn.
    by rewrite sent_packets_app, app_nil_r. }
  assert (∀ k, k ∉ tracked_keys -> config self1 !! k = config self !! k) as Hkeep.
  { intros k Hk. subst self1 merged. cbn [config].
    apply merge_params_lookup_other. intros Hin. apply Hk.
    by apply (params_items_keys p). }
  assert (("chipcode" ∉ tracked_keys) ∧ ("serviceUrl" ∉ tracked_keys))
    as [Hk1 Hk2].
  { unfold tracked_keys. rewrite !elem_of_cons, !elem_of_nil.
    split; intros Hin; repeat destruct Hin as [Hin|Hin]; done. }
  rewrite Hfalsy. cbn [negb]. unfold bind at 1.
  rewrite (fetch_run p self1 w1 url chipcode) by (by rewrite Hkeep).
  rewrite Hhttp, Hresp. cbn [rbind]. rewrite Hstatus. cbn [rbind].
  rewrite (build_entry_defaults p _ lat lon Hlat Hlon Halt Hpacc), Hpkt.
  cbn [rbind]. rewrite Hbody.
  change (initial_position ++ concat frames)
    with (concat (initial_position :: frames)).
  unfold forward_cache, bind, get_self, on_world. cbn [fst snd cache].
  unfold send_data. rewrite send_data_loop_frames; [|..|done].
  2:{ constructor; [|done]. exists x13, x40.
      by apply (position_aid_is_frame _ _ _ _ _ Hpkt). }
  do 2 eexists. split; [reflexivity|]. split; [done|].
  unfold sends. cbn [trace]. rewrite sent_packets_app, sent_packets_sent.
  f_equal. unfold stored.
  destruct (concat (initial_position :: frames)); cbn [trace log set_cache_file];
    rewrite ?sent_packets_app; cbn; by rewrite ?app_nil_r.
Qed.

End EndToEnd.

Lemma update_forwards_position_then_frames_witness :
  ∃ self' w',
    update position_request
      (fresh_manager,
       quiet_world (Some "2"%string) [] (mon_ver_answer ++ corrupted_mon_ver))
    = (Ok tt, (self', w'))
    ∧ cache self'
      = Some (concat [take 28 example_entry; mon_ver_answer; corrupted_mon_ver])
    ∧ sent_packets (trace w')
      = [] ++ [take 28 example_entry; mon_ver_answer; corrupted_mon_ver].
Proof.
  apply (update_forwards_position_then_frames position_request fresh_manager
           (quiet_world (Some "2"%string) []
              (mon_ver_answer ++ corrupted_mon_ver))
           (Params None None (Some 1%float) (Some 2%float) None None)
           (PStr "https://assistnow.services.u-blox.com/") (PStr "CHIP")
           1%float 2%float
           (HttpResponse 200 (mon_ver_answer ++ corrupted_mon_ver)
              (Some registered_config))
           (take 28 example_entry) [mon_ver_answer; corrupted_mon_ver]);
    try (vm_compute; reflexivity).
  - right. vm_compute. reflexivity.
  - repeat constructor.
    + exists x0a, x04. by exists x04, x00, [x31; x2e; x30; x30], xd1, x62.
    + exists x0a, x04. by exists x00, x00, [], x00, x00.
Defined.

(** ** A position with an altitude or an accuracy *)

Section Keywords.
Context `{Runtime} `{UbxLib}.

(** X22: [update] cannot build the position aid when the request carries
    [alt] or [pacc] beside [lat] and [lon].  It hands them to
    [ubx_mga_ini_pos_llh] as the keywords [alt] and [pacc], where the
    parameters are [alt_m] and [pacc_km].  So on every miss with such
    parameters, once the service has answered with status 200, [update]
    raises [TypeError]: the request was made, a change of parameters is
    already written to the configuration file, no entry is kept, the cache
    file is untouched and nothing goes to the receiver. *)
Theorem update_with_alt_or_pacc_raises
    (kwargs : gmap string pyval) (self : assistnow) (w : world) (p : params)
    (url chipcode : pyval) (resp : http_response) :
  config self !! "chipcode" = Some chipcode ->
  config self !! "serviceUrl" = Some url ->
  validate_params (global_v w) (config self)
    (if dict_truthy kwargs then kwargs else config self) = Ok p ->
  let merged := merge_params (params_items p) (config self) false in
  let req := HttpGet url (params_items p ++ [("chipcode", chipcode)]) in
  merged.2 = true ∨ cache_truthy (cache self) = false ->
  has_position p = true ->
  is_Some (p_alt p) ∨ is_Some (p_pacc p) ->
  http w req = Ok resp ->
  check_status resp = Ok tt ->
  let self' := AssistNow (cache_duration self) merged.1
                 (if merged.2 then None else cache self) in
  let w' := log (Request req) (if merged.2 then saved merged.1 w else w) in
  update kwargs (self, w) = (Raise TypeError, (self', w'))
  ∧ cache_truthy (cache self') = false
  ∧ cache_file w' = cache_file w
  ∧ sent_packets (trace w') = sent_packets (trace w).
Proof.
  intros Hchip Hurl Hval merged req Hmiss Hpos Hkw Hresp Hstatus self' w'.
  assert (is_registered self = true) as Hreg.
  { unfold is_registered. rewrite Hchip. by apply bool_decide_eq_true_2. }
  assert (∀ k, k ∉ tracked_keys -> merged.1 !! k = config self !! k) as Hkeep.
  { intros k Hk. subst merged. apply merge_params_lookup_other.
    intros Hin. apply Hk. by apply (params_items_keys p). }
  assert (("chipcode" ∉ tracked_keys) ∧ ("serviceUrl" ∉ tracked_keys))
    as [Hk1 Hk2].
  { unfold tracked_keys. rewrite !elem_of_cons, !elem_of_nil.
    split; intros Hin; repeat destruct Hin as [Hin|Hin]; done. }
  assert (cache_truthy (cache self') = false) as Hfalsy.
  { subst self'. cbn [cache]. destruct Hmiss as [->|Hnone]; [done|].
    by destruct (merged.2). }
  assert ((if merged.2 && dict_truthy merged.1
           then log (WroteConfig merged.1) (set_config_file merged.1 w)
           else w)
          = (if merged.2 then saved merged.1 w else w)) as Hw1.
  { unfold saved. by destruct (merged.2), (dict_truthy merged.1). }
  split; [|split; [done|split]].
  - rewrite (update_run kwargs self w p Hreg Hval). fold merged. fold self'.
    rewrite Hw1, Hfalsy. cbn [negb]. unfold bind at 1.
    rewrite (fetch_run p self' _ url chipcode);
      [|subst self'; cbn [config]; by rewrite Hkeep..].
    fold req.
    assert (http (if merged.2 then saved merged.1 w else w) = http w) as ->.
    { unfold saved. by destruct (merged.2), (dict_truthy merged.1). }
    rewrite Hresp. cbn [rbind]. rewrite Hstatus. cbn [rbind].
    by rewrite (build_entry_keyword p _ Hpos Hkw).
  - subst w'. unfold saved. by destruct (merged.2), (dict_truthy merged.1).
  - subst w'. unfold saved, sent_packets.
    destruct (merged.2), (dict_truthy merged.1); cbn [trace log set_config_file];
      rewrite ?omap_app; cbn; by rewrite ?app_nil_r.
Qed.

End Keywords.

Lemma update_with_alt_or_pacc_raises_witness :
  ∃ self' w',
    update aided_request
      (fresh_manager, quiet_world (Some "5"%string) [] example_blob)
    = (Raise TypeError, (self', w'))
    ∧ cache_truthy (cache self') = false
    ∧ cache_file w' = None
    ∧ sent_packets (trace w') = []
    ∧ ∃ pkt, assistnow_initial_position 52 float_4_3 (Some 10%float)
               (Some 5%float) = Ok pkt.
Proof.
  pose proof (update_with_alt_or_pacc_raises aided_request fresh_manager
                (quiet_world (Some "5"%string) [] example_blob) aided_params
                (PStr "https://assistnow.services.u-blox.com/") (PStr "CHIP")
                (HttpResponse 200 example_blob (Some registered_config))
                ltac:(reflexivity) ltac:(reflexivity)
                ltac:(vm_compute; reflexivity)
                ltac:(left; vm_compute; reflexivity)
                ltac:(reflexivity)
                ltac:(left; eexists; reflexivity)
                ltac:(reflexivity) ltac:(reflexivity))
    as (Hrun & Hcache & Hfile & Hsent).
  eexists _, _. split; [exact Hrun|]. split; [exact Hcache|].
  split; [exact Hfile|]. split; [exact Hsent|].
  eexists. vm_compute. reflexivity.
Defined.

(** ** An empty answer *)

Section EmptyEntry.
Context `{Runtime} `{UbxLib}.

Lemma fetch_cache_file (p : params) (self self' : assistnow) (w w' : world)
    (r : result unit) :
  fetch p (self, w) = (r, (self', w')) ->
  cache self' = Some [] ∨ cache self' = cache self ->
  cache_truthy (cache self) = false ->
  cache_file w' = cache_file w.
Proof.
  unfold fetch. unfold bind at 1. cbn [get_self fst].
  unfold bind at 1, lift at 1, subscript at 1.
  destruct (config self !! "serviceUrl") as [url|]; [|by intros [= <- <- <-]].
  unfold bind at 1, lift at 1, subscript at 1.
  destruct (config self !! "chipcode") as [chipcode|]; [|by intros [= <- <- <-]].
  unfold bind at 1, on_world at 1, do_request, bind, modify, get, lift.
  cbn [fst snd http log].
  destruct (http w _) as [resp|e|]; cbn [rbind]; [|by intros [= <- <- <-]..].
  destruct (check_status resp) as [[]|e|]; cbn [rbind];
    [|by intros [= <- <- <-]..].
  destruct (build_entry p (content resp)) as [data|e|];
    [|by intros [= <- <- <-]..].
  unfold set_cache, save_cache, bind, modify, get_self, on_world, ret.
  cbn [fst snd cache config cache_duration].
  destruct data as [|b data]; intros [= <- <- <-]; [done|].
  cbn [cache]. intros [Hc|Hc] Hfalsy; [done|].
  rewrite <- Hc in Hfalsy. done.
Qed.

(** X23: an empty entry is kept in memory but never written.  When an
    update returns normally with an empty entry (the service answered with
    an empty body and no position aid was asked for), the cache file is as
    it was before, and the same request, asked again, goes to the service
    once more. *)
Theorem empty_entry_is_not_cached
    (kwargs : gmap string pyval) (self self' : assistnow) (w w' : world)
    (url chipcode : pyval) :
  dict_truthy kwargs = true ->
  config self !! "chipcode" = Some chipcode ->
  config self !! "serviceUrl" = Some url ->
  update kwargs (self, w) = (Ok tt, (self', w')) ->
  cache self' = Some [] ->
  cache_file w' = cache_file w
  ∧ ∃ p r self'' w'',
      validate_params (global_v w) (config self) kwargs = Ok p
      ∧ update kwargs (self', w') = (r, (self'', w''))
      ∧ fetches (trace w'')
        = fetches (trace w')
          ++ [Request (HttpGet url (params_items p ++ [("chipcode", chipcode)]))].
Proof.
  intros Hfull Hchip Hurl Hrun Hempty.
  destruct (update_inv _ _ _ _ _ _ Hrun) as (_ & Hkeys & Hreg' & Henv).
  assert (is_registered self = true) as Hreg.
  { unfold is_registered. rewrite Hchip. by apply bool_decide_eq_true_2. }
  destruct (validate_params (global_v w) (config self) kwargs) as [p|e|] eqn:Hval.
  2,3: unfold update, bind in Hrun; cbn [get_self fst] in Hrun;
       rewrite Hreg, Hfull in Hrun; cbn [negb] in Hrun;
       unfold on_world, get, lift in Hrun; cbn [fst snd] in Hrun;
       by rewrite Hval in Hrun.
  assert (("chipcode" ∉ tracked_keys) ∧ ("serviceUrl" ∉ tracked_keys)
          ∧ ("allowedData" ∉ tracked_keys)) as (Hk1 & Hk2 & Hk3).
  { unfold tracked_keys. rewrite !elem_of_cons, !elem_of_nil.
    repeat split; intros Hin; repeat destruct Hin as [Hin|Hin]; done. }
  split.
  - pose proof Hrun as Hrun1.
    rewrite (update_run kwargs self w p Hreg) in Hrun1 by (by rewrite Hfull).
    unfold bind at 1 in Hrun1.
    match type of Hrun1 with
    | context [(if ?c then fetch p else ret tt) (?s1, ?w1)] =>
        destruct ((if c then fetch p else ret tt) (s1, w1))
          as [r2 [self2 w2]] eqn:Hfetch;
        assert (cache_file w1 = cache_file w) as Hw1
          by (by destruct (_ && _));
        destruct c eqn:Hc
    end.
    + destruct r2 as [[]|e|]; [|done|done].
      apply forward_cache_inv in Hrun1 as (-> & _ & _ & ->).
      rewrite <- Hw1. apply (fetch_cache_file _ _ _ _ _ _ Hfetch); [by left|].
      by apply negb_true_iff in Hc.
    + injection Hfetch as <- <- <-.
      apply forward_cache_inv in Hrun1 as (-> & _ & _ & ->).
      apply negb_false_iff in Hc.
      assert (cache_truthy (Some []) = true) as Habs; [|done].
      rewrite <- Hempty. exact Hc.
  - destruct (update_miss kwargs self' w' p url chipcode)
      as (r & self'' & w'' & Hrun2 & Hfetch & _).
    + by rewrite Hreg'.
    + by rewrite Hkeys.
    + by rewrite Hkeys.
    + rewrite Hfull. destruct Henv as (_ & -> & _). rewrite <- Hval.
      apply validate_params_allowed. by apply Hkeys.
    + right. by rewrite Hempty.
    + by exists p, r, self'', w''.
Qed.

End EmptyEntry.

Lemma empty_entry_is_not_cached_witness :
  let first := update eph_request (cached_manager,
                 World 1000 None (Some recorded_config)
                   (Some (900%float, example_entry)) []
                   (serve [] registered_config) []) in
  cache_file first.2.2 = Some (900%float, example_entry)
  ∧ ∃ r self'' w'',
      update eph_request (first.2.1, first.2.2) = (r, (self'', w''))
      ∧ length (fetches (trace w'')) = 2%nat.
Proof.
  cbv zeta.
  destruct (empty_entry_is_not_cached eph_request cached_manager
              (update eph_request (cached_manager,
                 World 1000 None (Some recorded_config)
                   (Some (900%float, example_entry)) []
                   (serve [] registered_config) [])).2.1
              (World 1000 None (Some recorded_config)
                 (Some (900%float, example_entry)) []
                 (serve [] registered_config) [])
              (update eph_request (cached_manager,
                 World 1000 None (Some recorded_config)
                   (Some (900%float, example_entry)) []
                   (serve [] registered_config) [])).2.2
              (PStr "https://assistnow.services.u-blox.com/") (PStr "CHIP"))
    as (Hfile & p & r & self'' & w'' & _ & Hrun & Hfetch);
    try (vm_compute; reflexivity).
  split; [exact Hfile|].
  exists r, self'', w''. split; [exact Hrun|]. rewrite Hfetch.
  rewrite length_app. reflexivity.
Defined.
